(** * Substack2Markdown: a shallow embedding of [substack_scraper.py]

    The development follows the source file top to bottom: Python's [str]
    builtins that the scraper relies on, [extract_main_part], the discovery
    and filtering methods of [BaseSubstackScraper], the extractor, the
    persistence store, the orchestrating loop [scrape_posts], and the two
    concrete fetchers with the login procedure of the premium one.

    A Python [str] is modelled as a [string] whose characters stand for
    the code points 0 to 255, a character being the code point of its
    number; the builtins of [PyStr] are Python's on these strings, the
    digits and white space above 127 included. *)

From Stdlib Require Import ZArith Ascii String Bool Lia.
From stdpp Require Import base tactics option list strings gmap.

Local Open Scope Z_scope.
Set Warnings "-register-all".

(** ** Exceptions and results *)

Inductive exn : Type :=
  | ValueError (msg : string)
  | IndexError
  | TypeError
  | AttributeError
  | ParseError
  | ConnectionError
  | OSError (path : string)
  | FileNotFoundError (path : string)
  | TimeoutException
  | WebDriverException.

Inductive result (A : Type) : Type :=
  | Ok (a : A)
  | Raise (e : exn).
Arguments Ok {A} a.
Arguments Raise {A} e.

Definition rbind {A B} (m : result A) (k : A -> result B) : result B :=
  match m with
  | Ok a => k a
  | Raise e => Raise e
  end.

Definition rmap {A B} (f : A -> B) (m : result A) : result B :=
  rbind m (fun a => Ok (f a)).

Declare Scope result_scope.
Delimit Scope result_scope with result.
Notation "'let?' x := m 'in' k" := (rbind m (fun x => k))
  (at level 10, x name, m at level 100, k at level 200) : result_scope.
Local Open Scope result_scope.

(** ** Python's [str] builtins *)

Module PyStr.

Definition chr (n : nat) : string := String (ascii_of_nat n) EmptyString.

Definition eqb_char (a b : ascii) : bool := Ascii.eqb a b.

(** [s.startswith(p)] *)
Fixpoint startswith (p s : string) : bool :=
  match p, s with
  | EmptyString, _ => true
  | String a p', String b s' => eqb_char a b && startswith p' s'
  | String _ _, EmptyString => false
  end.

(** [k in s] on strings: [k] occurs as a contiguous substring of [s]. *)
Fixpoint contains (k s : string) : bool :=
  startswith k s ||
  match s with
  | EmptyString => false
  | String _ s' => contains k s'
  end.

(** [c in s] for a single character. *)
Fixpoint mem_char (c : ascii) (s : string) : bool :=
  match s with
  | EmptyString => false
  | String a s' => eqb_char c a || mem_char c s'
  end.

(** [s.split(sep)] for a one-character separator: the result is never
    the empty list, and [''.split(sep)] is [['']]. *)
Fixpoint split (sep : ascii) (s : string) : list string :=
  match s with
  | EmptyString => [EmptyString]
  | String a s' =>
      if eqb_char a sep then EmptyString :: split sep s'
      else match split sep s' with
           | w :: ws => String a w :: ws
           | [] => [String a EmptyString]
           end
  end.

(** [l[i]] with Python's negative indices, raising [IndexError]. *)
Definition getitem {A} (l : list A) (i : Z) : result A :=
  let n := Z.of_nat (length l) in
  let j := if i <? 0 then n + i else i in
  if (j <? 0) || (n <=? j) then Raise IndexError
  else match l !! Z.to_nat j with
       | Some x => Ok x
       | None => Raise IndexError
       end.

Definition is_ascii_alpha (c : ascii) : bool :=
  let n := nat_of_ascii c in
  ((65 <=? n) && (n <=? 90) || (97 <=? n) && (n <=? 122))%nat.

Definition is_ascii_digit (c : ascii) : bool :=
  let n := nat_of_ascii c in ((48 <=? n) && (n <=? 57))%nat.

(** A digit as [str.isdigit()] sees it: below 256 these are [0] to [9]
    and the superscripts U+00B2, U+00B3 and U+00B9. *)
Definition is_digit (c : ascii) : bool :=
  let n := nat_of_ascii c in
  (is_ascii_digit c || (n =? 178) || (n =? 179) || (n =? 185))%nat.

(** White space as [str.strip()] and [str.isspace()] see it: below 256
    these are U+0009 to U+000D, U+001C to U+0020, U+0085 and U+00A0. *)
Definition is_space (c : ascii) : bool :=
  let n := nat_of_ascii c in
  ((9 <=? n) && (n <=? 13) || (28 <=? n) && (n <=? 32) ||
   (n =? 133) || (n =? 160))%nat.

Fixpoint forallb_str (p : ascii -> bool) (s : string) : bool :=
  match s with
  | EmptyString => true
  | String a s' => p a && forallb_str p s'
  end.

(** [s.isdigit()]: every character is a digit and there is at least one. *)
Definition isdigit (s : string) : bool :=
  match s with
  | EmptyString => false
  | _ => forallb_str is_digit s
  end.

Fixpoint lstrip_by (p : ascii -> bool) (s : string) : string :=
  match s with
  | EmptyString => EmptyString
  | String a s' => if p a then lstrip_by p s' else s
  end.

Fixpoint rstrip_by (p : ascii -> bool) (s : string) : string :=
  match s with
  | EmptyString => EmptyString
  | String a s' =>
      match rstrip_by p s' with
      | EmptyString => if p a then EmptyString else String a EmptyString
      | r => String a r
      end
  end.

(** [s.strip()] *)
Definition strip (s : string) : string :=
  rstrip_by is_space (lstrip_by is_space s).

(** The lower case of a character: below 256 the letters [A] to [Z] and
    U+00C0 to U+00DE, the sign U+00D7 apart, move up by 32. *)
Definition lower_char (c : ascii) : ascii :=
  let n := nat_of_ascii c in
  if ((65 <=? n) && (n <=? 90) ||
      (192 <=? n) && (n <=? 222) && negb (n =? 215))%nat
  then ascii_of_nat (n + 32) else c.

(** [s.lower()] *)
Fixpoint lower (s : string) : string :=
  match s with
  | EmptyString => EmptyString
  | String a s' => String (lower_char a) (lower s')
  end.

Fixpoint filter_str (p : ascii -> bool) (s : string) : string :=
  match s with
  | EmptyString => EmptyString
  | String a s' => if p a then String a (filter_str p s') else filter_str p s'
  end.

(** [s.find(c)] as the pair of [s[:i]] and [s[i+1:]], when [c] occurs. *)
Fixpoint cut (c : ascii) (s : string) : option (string * string) :=
  match s with
  | EmptyString => None
  | String a s' =>
      if eqb_char a c then Some (EmptyString, s')
      else match cut c s' with
           | Some (l, r) => Some (String a l, r)
           | None => None
           end
  end.

(** The longest prefix of [s] with no character satisfying [p]. *)
Fixpoint take_until (p : ascii -> bool) (s : string) : string :=
  match s with
  | EmptyString => EmptyString
  | String a s' => if p a then EmptyString else String a (take_until p s')
  end.

(** [sep.join(l)] *)
Fixpoint join (sep : string) (l : list string) : string :=
  match l with
  | [] => EmptyString
  | [x] => x
  | x :: l' => x +:+ sep +:+ join sep l'
  end.

(** [s.replace(old, new)]: the occurrences of [old] are found from the
    left, without overlap, and each becomes [new]; [skip] counts the
    characters of an occurrence that are still to be passed over. *)
Fixpoint replace_from (old new s : string) (skip : nat) : string :=
  match s with
  | EmptyString => EmptyString
  | String a s' =>
      match skip with
      | S k => replace_from old new s' k
      | O =>
          if startswith old s
          then new +:+ replace_from old new s' (String.length old - 1)
          else String a (replace_from old new s' 0)
      end
  end.

(** With an empty [old], [new] goes before every character and at the end. *)
Fixpoint replace_empty (new s : string) : string :=
  match s with
  | EmptyString => new
  | String a s' => new +:+ String a (replace_empty new s')
  end.

Definition replace (old new s : string) : string :=
  match old with
  | EmptyString => replace_empty new s
  | _ => replace_from old new s 0
  end.

End PyStr.

#[global] Arguments PyStr.eqb_char : simpl never.

(** ** [urllib.parse.urlparse(url).netloc]

    The standard library's parser, after CPython's [urlsplit]: leading
    control characters and spaces are dropped, tabs and newlines removed,
    a scheme is split off, and the authority is what follows a leading
    [//] up to the first of [/], [?] and [#].  An authority with an
    unbalanced square bracket is rejected with [ValueError].  The check of
    what stands between balanced brackets (an IPv6 or IPvFuture literal)
    is not modelled: there the model returns the authority, and the
    parser may still raise [ValueError].  The parser's last check, of the
    NFKC form of the authority, passes on every string of code points
    below 256. *)

Module UrlParse.
Import PyStr.

Definition is_c0_or_space (c : ascii) : bool := (nat_of_ascii c <=? 32)%nat.

Definition is_unsafe (c : ascii) : bool :=
  let n := nat_of_ascii c in ((n =? 9) || (n =? 10) || (n =? 13))%nat.

Definition is_scheme_char (c : ascii) : bool :=
  is_ascii_alpha c || is_ascii_digit c ||
  mem_char c "+-.".

Definition drop_scheme (url : string) : string :=
  match cut ":"%char url with
  | Some (String a pre, rest) =>
      if is_ascii_alpha a && forallb_str is_scheme_char (String a pre)
      then rest else url
  | _ => url
  end.

Definition is_delim (c : ascii) : bool := mem_char c "/?#".

Definition netloc (url : string) : result string :=
  let url := lstrip_by is_c0_or_space url in
  let url := filter_str (fun c => negb (is_unsafe c)) url in
  let url := drop_scheme url in
  match url with
  | String "/"%char (String "/"%char rest) =>
      let nl := take_until is_delim rest in
      if xorb (mem_char "["%char nl) (mem_char "]"%char nl)
      then Raise (ValueError "Invalid IPv6 URL")
      else Ok nl
  | _ => Ok EmptyString
  end.

End UrlParse.

(** ** [extract_main_part] *)

Definition multi_part_tld_labels : list string :=
  ["co"; "com"; "net"; "org"; "gov"; "edu"].

Definition str_eqb (a b : string) : bool := bool_decide (a = b).

Definition str_in (a : string) (l : list string) : bool := bool_decide (a ∈ l).

(** The body of [extract_main_part], from [parts] on. *)
Definition main_part_of_parts (parts : list string) : result string :=
  let len (l : list string) := Z.of_nat (length l) in
  let? is_substack :=
    (if 2 <=? len parts then
       let? p2 := PyStr.getitem parts (-2) in
       if str_eqb p2 "substack" then
         let? p1 := PyStr.getitem parts (-1) in Ok (str_eqb p1 "com")
       else Ok false
     else Ok false) in
  if is_substack then PyStr.getitem parts 0
  else
    let fallthrough (parts : list string) : result string :=
      match parts with
      | [] => Ok "unknown"
      | _ => PyStr.getitem parts 0
      end in
    if 2 <=? len parts then
      let? p0 := PyStr.getitem parts 0 in
      let parts := if str_eqb p0 "www" then drop 1 parts else parts in
      let? multi :=
        (if 3 <=? len parts then
           let? p2 := PyStr.getitem parts (-2) in
           Ok (str_in p2 multi_part_tld_labels)
         else Ok false) in
      if multi then PyStr.getitem parts (-3)
      else if 2 <=? len parts then PyStr.getitem parts (-2)
      else fallthrough parts
    else fallthrough parts.

(** [extract_main_part(url)] *)
Definition extract_main_part (url : string) : result string :=
  let? netloc := UrlParse.netloc url in
  main_part_of_parts (PyStr.split "." netloc).

(** ** [BaseSubstackScraper]: keywords and [filter_urls] *)

(** [self.keywords], as set in [__init__]. *)
Definition default_keywords : list string := ["about"; "archive"; "podcast"].

(** [filter_urls(urls, keywords)]: the comprehension keeps [url] when
    [keyword not in url] holds for all keywords. *)
Definition filter_urls (urls keywords : list string) : list string :=
  List.filter
    (fun url => forallb (fun keyword => negb (PyStr.contains keyword url)) keywords)
    urls.

(** [k] occurs in [s] as a contiguous run of characters. *)
Definition occurs_in (k s : string) : Prop :=
  exists pre post : string, s = pre +:+ k +:+ post.



(** ** Documents

    A fetched page as BeautifulSoup and the browser's DOM present it: a
    forest of strings and elements, an element carrying its tag name, the
    tokens of its [class] attribute, its other attributes and its
    children.  Beautiful Soup (4.10 and later) gives every string a
    class.  [Text] is a
    string of the main content, a [NavigableString] or a [CData]; [Other]
    is a string of one of the classes that the text of an ordinary element
    leaves out: a comment, a declaration, a doctype, a processing
    instruction, and the strings that the parser finds inside [style],
    [script], [template], [rt] and [rp] elements. *)

Inductive string_class : Type :=
  | Comment
  | Declaration
  | Doctype
  | ProcessingInstruction
  | Stylesheet
  | Script
  | TemplateString
  | RubyTextString
  | RubyParenthesisString.

#[global] Instance string_class_eq_dec : EqDecision string_class.
Proof. solve_decision. Defined.

Inductive Node : Type :=
  | Text (s : string)
  | Other (cls : string_class) (s : string)
  | Elem (tag : string) (classes : list string)
         (attrs : list (string * string)) (children : list Node).

Definition Soup : Type := list Node.

(** The selectors the scraper uses: compound selectors of tag, class and
    attribute tests, chained by the descendant combinator, in
    comma-separated lists. *)
Inductive simple : Type :=
  | STag (t : string)
  | SClass (c : string)
  | SAttr (k v : string).

Definition compound : Type := list simple.
Definition complex : Type := list compound.
Definition selector : Type := list complex.

Definition matches_simple (n : Node) (s : simple) : bool :=
  match n with
  | Text _ | Other _ _ => false
  | Elem tag classes attrs _ =>
      match s with
      | STag t => str_eqb tag t
      | SClass c => str_in c classes
      | SAttr k v => bool_decide ((k, v) ∈ attrs)
      end
  end.

Definition matches_compound (n : Node) (c : compound) : bool :=
  forallb (matches_simple n) c.

(** The compounds left of the subject, innermost first, against the
    ancestors of the subject, nearest first. *)
Fixpoint matches_ancestors (anc : list Node) (cs : list compound) : bool :=
  match cs with
  | [] => true
  | c :: cs' =>
      match anc with
      | [] => false
      | a :: anc' =>
          if matches_compound a c then matches_ancestors anc' cs'
          else matches_ancestors anc' cs
      end
  end.

Definition matches_complex (anc : list Node) (n : Node) (cx : complex) : bool :=
  match reverse cx with
  | [] => false
  | subject :: outer => matches_compound n subject && matches_ancestors anc outer
  end.

Definition matches_selector (anc : list Node) (n : Node) (sel : selector) : bool :=
  existsb (matches_complex anc n) sel.

(** Every node of the tree under [n] with its ancestors, in document order. *)
Fixpoint walk (anc : list Node) (n : Node) : list (list Node * Node) :=
  (anc, n) ::
  match n with
  | Text _ | Other _ _ => []
  | Elem _ _ _ children => flat_map (walk (n :: anc)) children
  end.

Definition walk_soup (soup : Soup) : list (list Node * Node) :=
  flat_map (walk []) soup.

(** [soup.select(sel)] and [driver.find_elements(By.CSS_SELECTOR, sel)] *)
Definition select (soup : Soup) (sel : selector) : list Node :=
  snd <$> List.filter (fun '(anc, n) => matches_selector anc n sel) (walk_soup soup).

(** [soup.select_one(sel)] *)
Definition select_one (soup : Soup) (sel : selector) : option Node :=
  head (select soup sel).

(** [soup.find(tag, class_=cls)]: the first element with that tag one of
    whose class tokens is [cls], or whose whole class attribute is [cls]. *)
Definition find_class (soup : Soup) (tag cls : string) : option Node :=
  head (List.filter
          (fun n => match n with
                    | Text _ | Other _ _ => false
                    | Elem t classes _ _ =>
                        str_eqb t tag &&
                        (str_in cls classes || str_eqb (PyStr.join " " classes) cls)
                    end)
          (snd <$> walk_soup soup)).

(** The string class a tag is interested in, as the HTML tree builders
    set it ([string_containers]); [None] stands for the main content. *)
Definition interesting_string_types (tag : string) : option string_class :=
  if str_eqb tag "rt" then Some RubyTextString
  else if str_eqb tag "rp" then Some RubyParenthesisString
  else if str_eqb tag "style" then Some Stylesheet
  else if str_eqb tag "script" then Some Script
  else if str_eqb tag "template" then Some TemplateString
  else None.

(** The strings of the wanted class under a node, in document order,
    concatenated. *)
Fixpoint all_strings (types : option string_class) (n : Node) : string :=
  match n with
  | Text s => match types with None => s | Some _ => "" end
  | Other cls s =>
      match types with
      | Some wanted => if bool_decide (cls = wanted) then s else ""
      | None => ""
      end
  | Elem _ _ _ children =>
      fold_right (fun c acc => all_strings types c +:+ acc) "" children
  end.

(** [element.text]: the strings under the element that are of the class
    its tag is interested in, concatenated; for every tag but the five
    above, the main content, without comments and without what is inside
    [style], [script] and [template]. *)
Definition text (n : Node) : string :=
  match n with
  | Text s => s
  | Other _ _ => ""
  | Elem tag _ _ _ => all_strings (interesting_string_types tag) n
  end.

(** [x.text] for an [x] that may be [None]. *)
Definition text_of (x : option Node) : result string :=
  match x with
  | Some n => Ok (text n)
  | None => Raise AttributeError
  end.

Definition sel_title : selector :=
  [[[STag "h1"; SClass "post-title"]]; [[STag "h2"]]].
Definition sel_subtitle : selector := [[[STag "h3"; SClass "subtitle"]]].
Definition sel_like_count : selector :=
  [[[STag "a"; SClass "post-ufi-button"]; [SClass "label"]]].
Definition sel_available_content : selector :=
  [[[STag "div"; SClass "available-content"]]].
Definition sel_post_title : selector := [[[STag "h1"; SClass "post-title"]]].
Definition sel_paywall_title : selector := [[[STag "h2"; SClass "paywall-title"]]].
Definition sel_post_content : selector := [[[SClass "post-content"]]].
Definition sel_loading : selector :=
  [[[SClass "loading"]]; [[SClass "spinner"]];
   [[SAttr "data-testid" "loading"]]; [[SClass "skeleton"]]].

Definition date_class : string :=
  "pencraft pc-reset color-pub-secondary-text-hGQ02T line-height-20-t4M0El font-meta-MWBumP size-11-NuY2Zx weight-medium-fw81nC transform-uppercase-yKDgcq reset-IxiVJZ meta-EgzBVA".

(** ** The index records *)

(** One entry of the JSON index: the dictionary built in [scrape_posts]. *)
Record PostRecord : Type := {
  title : string;
  subtitle : string;
  like_count : string;
  date : string;
  file_link : string;
  html_link : string;
}.

#[global] Instance PostRecord_eq_dec : EqDecision PostRecord.
Proof. solve_decision. Defined.

(** ** The outside world

    What [requests.get] answers: a status, and the body as the two parsers
    applied to it read it ([ET.fromstring] fails on a body that is not
    well-formed XML; BeautifulSoup's [html.parser] reads anything). *)

Inductive XmlElem : Type :=
  | XElem (xtag : string) (xtext : option string) (xchildren : list XmlElem).

Record Response : Type := {
  ok : bool;
  status_code : Z;
  xml : option XmlElem;
  html : Soup;
}.

(** What the browser shows while the scraper waits on the sign-in page:
    the current location, the first element with id [error-container]
    (displayed or not, and its text), and the elements matching
    [.error, .alert-error, [role='alert']]. *)
Record SignInView : Type := {
  current_url : string;
  error_container : option (bool * string);
  error_messages : list (bool * string);
}.

(** The environment of a run.  Library functions whose results the scraper
    only passes along are fields, as are the answers of the network, the
    disk and the browser; the clock of the browser fields is the time slept
    so far, in milliseconds. *)
Record Env : Type := {
  http_get : string -> option Response;
  html2text_handle : string -> string;
  markdown_markdown : string -> string;
  tag_str : Node -> string;
  html_template : option string;
  unwritable : string -> bool;
  driver_get_ok : string -> bool;
  driver_dom : string -> Z -> Soup;
  sign_in_form_ok : bool;
  sign_in_view : Z -> SignInView;
}.

Inductive event : Type :=
  | EvRequest (url : string)
  | EvNavigate (url : string)
  | EvSleep (ms : Z)
  | EvPoll (at_ms : Z).

(** The state a run changes: the post files (path to content), the JSON
    index when it exists, the index page when it exists, the browser's
    current page, the time slept, and the trace of requests, sleeps and
    polls.  The index and the index page are kept apart from the post
    files, and are not among [files].  The index page is kept as the author
    name and the records it was generated from; with the template these
    give its text, [index_html].  The directories and the assets folder
    are not part of the state. *)
Record World : Type := {
  files : gmap string string;
  json_index : option (list PostRecord);
  index_page : option (string * list PostRecord);
  driver_url : string;
  clock : Z;
  trace : list event;
}.

Definition set_files (f : gmap string string) (w : World) : World :=
  {| files := f; json_index := json_index w; index_page := index_page w;
     driver_url := driver_url w; clock := clock w; trace := trace w |}.

Definition set_json_index (j : option (list PostRecord)) (w : World) : World :=
  {| files := files w; json_index := j; index_page := index_page w;
     driver_url := driver_url w; clock := clock w; trace := trace w |}.

Definition set_index_page (p : option (string * list PostRecord)) (w : World) : World :=
  {| files := files w; json_index := json_index w; index_page := p;
     driver_url := driver_url w; clock := clock w; trace := trace w |}.

Definition set_driver_url (u : string) (w : World) : World :=
  {| files := files w; json_index := json_index w; index_page := index_page w;
     driver_url := u; clock := clock w; trace := trace w |}.

Definition log_event (e : event) (w : World) : World :=
  {| files := files w; json_index := json_index w; index_page := index_page w;
     driver_url := driver_url w; clock := clock w; trace := trace w ++ [e] |}.

Definition advance_clock (ms : Z) (w : World) : World :=
  {| files := files w; json_index := json_index w; index_page := index_page w;
     driver_url := driver_url w; clock := clock w + ms;
     trace := trace w ++ [EvSleep ms] |}.

(** ** Effects: state that survives an exception *)

Definition M (A : Type) : Type := World -> result A * World.

Definition ret {A} (a : A) : M A := fun w => (Ok a, w).

Definition raise {A} (e : exn) : M A := fun w => (Raise e, w).

Definition bind {A B} (m : M A) (k : A -> M B) : M B :=
  fun w => match m w with
           | (Ok a, w') => k a w'
           | (Raise e, w') => (Raise e, w')
           end.

(** [try: m except Exception as e: h e] *)
Definition try_except {A} (m : M A) (h : exn -> M A) : M A :=
  fun w => match m w with
           | (Ok a, w') => (Ok a, w')
           | (Raise e, w') => h e w'
           end.

Definition lift {A} (r : result A) : M A := fun w => (r, w).

Definition gets {A} (f : World -> A) : M A := fun w => (Ok (f w), w).

Definition modify (f : World -> World) : M unit := fun w => (Ok tt, f w).

Declare Scope M_scope.
Delimit Scope M_scope with M.
Notation "x <- m ;; k" := (bind m (fun x => k))
  (at level 100, m at next level, right associativity) : M_scope.
Notation "m ;; k" := (bind m (fun _ => k))
  (at level 100, right associativity) : M_scope.

(** ** Paths and names *)

(** [s.endswith(suffix)] *)
Fixpoint str_endswith (suffix s : string) : bool :=
  str_eqb s suffix ||
  match s with
  | EmptyString => false
  | String _ s' => str_endswith suffix s'
  end.

Fixpoint drop_prefix (p s : string) : option string :=
  match p, s with
  | EmptyString, _ => Some s
  | String a p', String b s' =>
      if PyStr.eqb_char a b then drop_prefix p' s' else None
  | String _ _, EmptyString => None
  end.

(** [os.path.join(dir, name)] for the arguments the scraper gives it: a
    directory that does not end in a slash and a file name without one. *)
Definition path_join (dir name : string) : string := dir +:+ "/" +:+ name.

(** [os.path.relpath(path, start)] for a [path] below [start]. *)
Definition relpath (path start : string) : string :=
  default path (drop_prefix (start +:+ "/") path).

(** [get_filename_from_url(url, filetype)] *)
Definition get_filename_from_url (url filetype : string) : result string :=
  let filetype :=
    if PyStr.startswith "." filetype then filetype else "." +:+ filetype in
  let? last := PyStr.getitem (PyStr.split "/" url) (-1) in
  Ok (last +:+ filetype).

(** [combine_metadata_and_content] *)
Definition combine_metadata_and_content
    (title subtitle date like_count content : string) : string :=
  let nl2 := PyStr.chr 10 +:+ PyStr.chr 10 in
  let metadata := "# " +:+ title +:+ nl2 in
  let metadata :=
    if str_eqb subtitle "" then metadata
    else metadata +:+ "## " +:+ subtitle +:+ nl2 in
  let metadata := metadata +:+ "**" +:+ date +:+ "**" +:+ nl2 in
  let metadata := metadata +:+ "**Likes:** " +:+ like_count +:+ nl2 in
  metadata +:+ content.

(** The page [save_to_html_file] wraps around the rendered Markdown.  The
    source computes the stylesheet path with [os.path.relpath], from the
    directory of the file to [assets/css/essay-styles.css] under the
    publication directory; for a file in the [html] directory of the
    publication, where [scrape_posts] puts it, that path is the constant
    below, and [save_to_html_file] is modelled for such files only. *)
Definition css_path : string := "../assets/css/essay-styles.css".

Definition html_page (content : string) : string :=
  let dq := PyStr.chr 34 in
  PyStr.join (PyStr.chr 10)
    ["<!DOCTYPE html>";
     "<html lang=" +:+ dq +:+ "en" +:+ dq +:+ ">";
     "<head>";
     "    <meta charset=" +:+ dq +:+ "UTF-8" +:+ dq +:+ ">";
     "    <meta name=" +:+ dq +:+ "viewport" +:+ dq +:+ " content=" +:+ dq
       +:+ "width=device-width, initial-scale=1.0" +:+ dq +:+ ">";
     "    <title>Markdown Content</title>";
     "    <link rel=" +:+ dq +:+ "stylesheet" +:+ dq +:+ " href=" +:+ dq
       +:+ css_path +:+ dq +:+ ">";
     "</head>";
     "<body>";
     "    <main class=" +:+ dq +:+ "markdown-content" +:+ dq +:+ ">";
     content;
     "    </main>";
     "</body>";
     "</html>"].

(** The script element of the template that receives the index, with
    [body] in it; the template has it empty. *)
Definition essays_script (body : string) : string :=
  let dq := PyStr.chr 34 in
  "<script type=" +:+ dq +:+ "application/json" +:+ dq +:+ " id=" +:+ dq
    +:+ "essaysData" +:+ dq +:+ ">" +:+ body +:+ "</script>".

(** The text [generate_html_file] writes to [index.html], from the text of
    the template, the author name and the records of the index:
    [json_dumps] is [json.dumps(essays_data, ensure_ascii=False, indent=4)],
    and the four replacements are made in the order of the source, the
    last one over the whole page, the embedded records included. *)
Definition index_html (json_dumps : list PostRecord -> string)
    (html_template author_name : string) (essays_data : list PostRecord)
  : string :=
  let embedded_json_data := json_dumps essays_data in
  let html_template := PyStr.replace "../assets/" "assets/" html_template in
  let html_with_data :=
    PyStr.replace (essays_script "") (essays_script embedded_json_data)
      (PyStr.replace "<!-- AUTHOR_NAME -->" author_name html_template) in
  PyStr.replace "author_name" author_name html_with_data.

(** The fields [__init__] sets on a scraper. *)
Record Scraper : Type := {
  base_substack_url : string;
  writer_name : string;
  base_output_dir : string;
  md_save_dir : string;
  html_save_dir : string;
  keywords : list string;
  post_urls : list string;
}.

(** What [extract_post_data] returns. *)
Record PostData : Type := {
  pd_title : string;
  pd_subtitle : string;
  pd_like_count : string;
  pd_date : string;
  pd_md_content : string;
}.

(** How one turn of the loop in [scrape_posts] leaves its [try] block:
    by [continue], or by running to its end with or without a new record. *)
Inductive turn : Type :=
  | Continue
  | Done (record : option PostRecord).

(** ** Sitemap and feed documents *)

Definition xtag_of (e : XmlElem) : string := match e with XElem t _ _ => t end.
Definition xtext_of (e : XmlElem) : option string := match e with XElem _ t _ => t end.
Definition xchildren_of (e : XmlElem) : list XmlElem :=
  match e with XElem _ _ c => c end.

(** The element and everything below it, in document order. *)
Fixpoint xdescend (e : XmlElem) : list XmlElem :=
  e :: match e with XElem _ _ children => flat_map xdescend children end.

(** [root.iter(tag)] *)
Definition xiter (root : XmlElem) (tag : string) : list XmlElem :=
  List.filter (fun e => str_eqb (xtag_of e) tag) (xdescend root).

(** [root.findall('.//' + tag)]: below the root, the root excluded. *)
Definition xfindall (root : XmlElem) (tag : string) : list XmlElem :=
  List.filter (fun e => str_eqb (xtag_of e) tag)
              (flat_map xdescend (xchildren_of root)).

(** [item.find(tag)]: the first child with that tag. *)
Definition xfind (e : XmlElem) (tag : string) : option XmlElem :=
  head (List.filter (fun c => str_eqb (xtag_of c) tag) (xchildren_of e)).

Definition sitemap_loc : string :=
  "{http://www.sitemaps.org/schemas/sitemap/0.9}loc".

(** The links [fetch_urls_from_feed] collects from a parsed feed. *)
Definition feed_links (root : XmlElem) : list string :=
  flat_map
    (fun item =>
       match xfind item "link" with
       | Some link =>
           match xtext_of link with
           | Some t => if str_eqb t "" then [] else [t]
           | None => []
           end
       | None => []
       end)
    (xfindall root "item").

(** The texts [fetch_urls_from_sitemap] collects; an element without text
    contributes [None]. *)
Definition sitemap_locs (root : XmlElem) : list (option string) :=
  xtext_of <$> xiter root sitemap_loc.

(** [filter_urls] on what discovery hands it.  With a non-empty keyword
    list the test [keyword not in url] is evaluated on every entry, and on
    [None] it raises [TypeError].  (The keyword list of a scraper is never
    empty; for an empty one the entries without text are left out here.) *)
Definition filter_discovered (urls : list (option string)) (kws : list string)
  : result (list string) :=
  match kws with
  | [] => Ok (omap id urls)
  | _ => match mapM id urls with
         | Some strs => Ok (filter_urls strs kws)
         | None => Raise TypeError
         end
  end.

Section WithEnv.

Context (env : Env).

Local Open Scope M_scope.

(** ** Primitive effects *)

(** [requests.get(url)] *)
Definition requests_get (url : string) : M Response :=
  modify (log_event (EvRequest url)) ;;
  match http_get env url with
  | Some response => ret response
  | None => raise ConnectionError
  end.

(** [os.path.exists(path)] *)
Definition path_exists (path : string) : M bool :=
  gets (fun w => bool_decide (is_Some (files w !! path))).

(** [with open(path, 'w') as file: file.write(content)] *)
Definition write_file (path content : string) : M unit :=
  if unwritable env path then raise (OSError path)
  else modify (fun w => set_files (<[path := content]> (files w)) w).

(** [sleep(seconds)], in milliseconds. *)
Definition sleep (ms : Z) : M unit := modify (advance_clock ms).

(** ** URL discovery *)

(** [fetch_urls_from_sitemap] *)
Definition fetch_urls_from_sitemap (base_substack_url : string)
  : M (list (option string)) :=
  let sitemap_url := base_substack_url +:+ "sitemap.xml" in
  response <- requests_get sitemap_url ;;
  if negb (ok response) then ret []
  else match xml response with
       | None => raise ParseError
       | Some root => ret (sitemap_locs root)
       end.

(** [fetch_urls_from_feed] *)
Definition fetch_urls_from_feed (base_substack_url : string)
  : M (list (option string)) :=
  let feed_url := base_substack_url +:+ "feed.xml" in
  response <- requests_get feed_url ;;
  if negb (ok response) then ret []
  else match xml response with
       | None => raise ParseError
       | Some root => ret (Some <$> feed_links root)
       end.

(** [get_all_post_urls] *)
Definition get_all_post_urls (base_substack_url : string) (kws : list string)
  : M (list string) :=
  urls <- fetch_urls_from_sitemap base_substack_url ;;
  urls <- match urls with
          | [] => fetch_urls_from_feed base_substack_url
          | _ => ret urls
          end ;;
  lift (filter_discovered urls kws).

(** [BaseSubstackScraper.__init__], as far as the fields of the scraper
    and discovery go.  The constructor also creates the three directories
    and replaces the assets folder of the publication by a copy of
    [./assets]; directories and assets are not part of the modelled state,
    so nothing is said here about them. *)
Definition init (base_substack_url : string) : M Scraper :=
  let base_substack_url :=
    if str_endswith "/" base_substack_url then base_substack_url
    else base_substack_url +:+ "/" in
  writer_name <- lift (extract_main_part base_substack_url) ;;
  let base_output_dir := "substacks/" +:+ writer_name in
  post_urls <- get_all_post_urls base_substack_url default_keywords ;;
  ret {| base_substack_url := base_substack_url;
         writer_name := writer_name;
         base_output_dir := base_output_dir;
         md_save_dir := base_output_dir +:+ "/markdown";
         html_save_dir := base_output_dir +:+ "/html";
         keywords := default_keywords;
         post_urls := post_urls |}.

(** ** Content extraction *)

(** [html_to_md] *)
Definition html_to_md (html_content : string) : string :=
  html2text_handle env html_content.

(** [md_to_html] *)
Definition md_to_html (md_content : string) : string :=
  markdown_markdown env md_content.

(** [str(x)] for an element or [None]. *)
Definition str_of (x : option Node) : string :=
  match x with
  | Some n => tag_str env n
  | None => "None"
  end.

(** [extract_post_data] *)
Definition extract_post_data (soup : Soup) : result PostData :=
  let? title_text := text_of (select_one soup sel_title) in
  let title := PyStr.strip title_text in
  let subtitle_element := select_one soup sel_subtitle in
  let subtitle :=
    match subtitle_element with
    | Some e => PyStr.strip (text e)
    | None => ""
    end in
  let date_element := find_class soup "div" date_class in
  let date :=
    match date_element with
    | Some e => PyStr.strip (text e)
    | None => "Date not found"
    end in
  let like_count_element := select_one soup sel_like_count in
  let like_count :=
    match like_count_element with
    | Some e =>
        if PyStr.isdigit (PyStr.strip (text e)) then PyStr.strip (text e)
        else "0"
    | None => "0"
    end in
  let content := str_of (select_one soup sel_available_content) in
  let md := html_to_md content in
  let md_content :=
    combine_metadata_and_content title subtitle date like_count md in
  Ok {| pd_title := title; pd_subtitle := subtitle;
        pd_like_count := like_count; pd_date := date;
        pd_md_content := md_content |}.

(** ** Persistence *)

(** [save_to_file] *)
Definition save_to_file (filepath content : string) : M unit :=
  there <- path_exists filepath ;;
  if there then ret tt
  else write_file filepath content.

(** [save_to_html_file], for a file in the [html] directory of the
    publication (see [css_path]). *)
Definition save_to_html_file (filepath content : string) : M unit :=
  write_file filepath (html_page content).

(** The merge of [save_essays_data_to_json]. *)
Definition merge_essays_data (existing_data : option (list PostRecord))
    (essays_data : list PostRecord) : list PostRecord :=
  match existing_data with
  | Some existing_data =>
      existing_data ++
      List.filter (fun data => negb (bool_decide (data ∈ existing_data)))
                  essays_data
  | None => essays_data
  end.

(** [save_essays_data_to_json]; the index, when it exists, is the array a
    run wrote. *)
Definition save_essays_data_to_json (essays_data : list PostRecord) : M unit :=
  modify (fun w =>
    set_json_index (Some (merge_essays_data (json_index w) essays_data)) w).

(** [generate_html_file]: reads the index and the template and writes the
    page; what is recorded of the page is the author name and the records
    it is generated from, its text being [index_html] of these and the
    template. *)
Definition generate_html_file (author_name output_dir : string) : M unit :=
  essays_data <- gets json_index ;;
  match essays_data with
  | None => raise (FileNotFoundError (path_join output_dir (author_name +:+ ".json")))
  | Some essays_data =>
      match html_template env with
      | None => raise (FileNotFoundError "author_template.html")
      | Some _ => modify (set_index_page (Some (author_name, essays_data)))
      end
  end.

(** ** The orchestrating loop

    [get_url_soup] is the abstract method of [BaseSubstackScraper]; the
    two subclasses below implement it. *)

Section Orchestrator.

Context (get_url_soup : string -> M (option Soup)) (self : Scraper).

(** The body of the [try] block of [scrape_posts] for one URL. *)
Definition process_post (url : string) : M turn :=
  md_filename <- lift (get_filename_from_url url ".md") ;;
  html_filename <- lift (get_filename_from_url url ".html") ;;
  let md_filepath := path_join (md_save_dir self) md_filename in
  let html_filepath := path_join (html_save_dir self) html_filename in
  there <- path_exists md_filepath ;;
  if negb there then
    soup <- get_url_soup url ;;
    match soup with
    | None => ret Continue
    | Some soup =>
        data <- lift (extract_post_data soup) ;;
        save_to_file md_filepath (pd_md_content data) ;;
        let html_content := md_to_html (pd_md_content data) in
        save_to_html_file html_filepath html_content ;;
        ret (Done (Some
          {| title := pd_title data;
             subtitle := pd_subtitle data;
             like_count := pd_like_count data;
             date := pd_date data;
             file_link := relpath md_filepath (base_output_dir self);
             html_link := relpath html_filepath (base_output_dir self) |}))
    end
  else ret (Done None).

(** The [try] block with its [except Exception] handler, which only prints. *)
Definition try_post (url : string) : M turn :=
  try_except (process_post url) (fun _ => ret (Done None)).

(** The [for] loop of [scrape_posts], from a position in [post_urls]. *)
Fixpoint scrape_loop (num_posts_to_scrape : Z) (urls : list string)
    (essays_data : list PostRecord) (count : Z) : M (list PostRecord) :=
  match urls with
  | [] => ret essays_data
  | url :: rest =>
      t <- try_post url ;;
      match t with
      | Continue => scrape_loop num_posts_to_scrape rest essays_data count
      | Done record =>
          let essays_data :=
            match record with
            | Some data => essays_data ++ [data]
            | None => essays_data
            end in
          let count := count + 1 in
          if negb (num_posts_to_scrape =? 0) && (count =? num_posts_to_scrape)
          then ret essays_data
          else scrape_loop num_posts_to_scrape rest essays_data count
      end
  end.

(** [scrape_posts] *)
Definition scrape_posts (num_posts_to_scrape : Z) : M unit :=
  essays_data <- scrape_loop num_posts_to_scrape (post_urls self) [] 0 ;;
  save_essays_data_to_json essays_data ;;
  generate_html_file (writer_name self) (base_output_dir self).

End Orchestrator.

(** ** The anonymous fetcher *)

(** The error both fetchers raise; its message goes on with the text of
    the cause, which is left out. *)
Definition fetch_error : exn := ValueError "Error fetching page".

(** [SubstackScraper.get_url_soup] *)
Definition SubstackScraper_get_url_soup (url : string) : M (option Soup) :=
  try_except
    (page <- requests_get url ;;
     let soup := html page in
     match find_class soup "h2" "paywall-title" with
     | Some _ => ret None
     | None => ret (Some soup)
     end)
    (fun _ => raise fetch_error).

(** ** The browser *)

(** [driver.get(url)] *)
Definition driver_get (url : string) : M unit :=
  modify (log_event (EvNavigate url)) ;;
  if driver_get_ok env url then modify (set_driver_url url)
  else raise WebDriverException.

(** The DOM of the current page, which is also what [driver.page_source]
    parses to. *)
Definition page_now : M Soup :=
  gets (fun w => driver_dom env (driver_url w) (clock w)).

(** [driver.find_elements(By.CSS_SELECTOR, sel)] *)
Definition find_elements (sel : selector) : M (list Node) :=
  dom <- page_now ;; ret (select dom sel).

Definition nonempty {A} (l : list A) : bool :=
  match l with [] => false | _ => true end.

(** The loop of [WebDriverWait(driver, timeout, poll).until(cond)]: test,
    sleep, give up once the clock has passed the deadline. *)
Fixpoint wait_loop (fuel : nat) (deadline poll : Z) (cond : M bool) : M unit :=
  match fuel with
  | O => raise TimeoutException
  | S fuel' =>
      b <- cond ;;
      if b then ret tt
      else
        sleep poll ;;
        now <- gets clock ;;
        if deadline <? now then raise TimeoutException
        else wait_loop fuel' deadline poll cond
  end.

Definition wait_until (timeout poll : Z) (cond : M bool) : M unit :=
  start <- gets clock ;;
  wait_loop (S (Z.to_nat (timeout / poll))) (start + timeout) poll cond.

(** The readiness test of [PremiumSubstackScraper.get_url_soup]. *)
Definition content_ready : M bool :=
  a <- find_elements sel_available_content ;;
  if nonempty a then ret true else
  b <- find_elements sel_post_title ;;
  if nonempty b then ret true else
  c <- find_elements sel_paywall_title ;;
  if nonempty c then ret true else
  d <- find_elements sel_post_content ;;
  ret (nonempty d).

(** [PremiumSubstackScraper.get_url_soup] *)
Definition PremiumSubstackScraper_get_url_soup (url : string) : M (option Soup) :=
  try_except
    (driver_get url ;;
     try_except
       (wait_until 5000 500 content_ready ;;
        loading_indicators <- find_elements sel_loading ;;
        if nonempty loading_indicators then sleep 1000 else ret tt)
       (fun _ => ret tt) ;;
     soup <- page_now ;;
     ret (Some soup))
    (fun _ => raise fetch_error).

(** ** Signing in *)

Definition sign_in_url : string := "https://substack.com/sign-in".

(** ['substack.com/sign-in' in url] *)
Definition on_sign_in (url : string) : bool :=
  PyStr.contains "substack.com/sign-in" url.

(** [range(start, stop, -step)] for a positive [step]. *)
Fixpoint range_down (fuel : nat) (start stop step : Z) : list Z :=
  match fuel with
  | O => []
  | S fuel' =>
      if stop <? start then start :: range_down fuel' (start - step) stop step
      else []
  end.

(** [range(120, 0, -10)] *)
Definition countdown : list Z := range_down 120 120 0 10.

(** What [driver.current_url] and [driver.find_elements] give at this
    moment; reading the page is taken not to fail. *)
Definition view_now : M SignInView :=
  gets (fun w => sign_in_view env (clock w)).

(** The steps of [login] from the password option to the click on the
    submit button: each waits for its element and raises when the wait
    times out. *)
Definition submit_credentials : M unit :=
  if sign_in_form_ok env then ret tt else raise TimeoutException.

(** The waiting loop of [login]; the result tells whether the method
    returned from inside the loop. *)
Fixpoint login_wait (remaining : list Z) : M bool :=
  match remaining with
  | [] => ret false
  | _ :: rest =>
      sleep 10000 ;;
      modify (fun w => log_event (EvPoll (clock w)) w) ;;
      view <- view_now ;;
      if negb (on_sign_in (current_url view)) then ret true
      else
        match error_container view with
        | Some (true, error_text) =>
            if PyStr.contains "captcha" (PyStr.lower error_text)
            then login_wait rest
            else ret false
        | _ => login_wait rest
        end
  end.

(** [is_login_failed] *)
Definition is_login_failed : M bool :=
  view <- view_now ;;
  match error_container view with
  | Some (true, _) => ret true
  | _ =>
      if on_sign_in (current_url view) then ret true
      else
        ret (existsb
               (fun '(displayed, error_text) =>
                  displayed && negb (str_eqb (PyStr.strip error_text) ""))
               (error_messages view))
  end.

Definition login_failed_message : string :=
  PyStr.join (PyStr.chr 10)
    ["Login failed. Possible issues:";
     "1. CAPTCHA not solved correctly";
     "2. Invalid credentials";
     "3. Account locked or suspended";
     "4. Substack login page structure changed";
     "Check the browser window for error messages."].

(** [PremiumSubstackScraper.login] *)
Definition login : M unit :=
  driver_get sign_in_url ;;
  returned <-
    try_except
      (submit_credentials ;; login_wait countdown)
      (fun _ => sleep 10000 ;; ret false) ;;
  if returned then ret tt
  else
    failed <- is_login_failed ;;
    if failed then raise (ValueError login_failed_message)
    else ret tt.

(** [PremiumSubstackScraper.__init__] *)
Definition premium_init (base_substack_url : string) : M Scraper :=
  self <- init base_substack_url ;;
  login ;;
  ret self.

(** One run of the pipeline, as [main] does it with the anonymous fetcher:
    discovery in the constructor, then [scrape_posts]. *)
Definition run (get_url_soup : string -> M (option Soup))
    (base_substack_url : string) (number : Z) : M unit :=
  self <- init base_substack_url ;;
  scrape_posts get_url_soup self number.

End WithEnv.

(** ** Vocabulary of the statements *)

(** One of the readiness markers of the authenticated fetch is in the page. *)
Definition markers_present (dom : Soup) : bool :=
  nonempty (select dom sel_available_content) ||
  nonempty (select dom sel_post_title) ||
  nonempty (select dom sel_paywall_title) ||
  nonempty (select dom sel_post_content).

(** Nothing on disk differs between the two states. *)
Definition same_disk (w w' : World) : Prop :=
  files w' = files w /\ json_index w' = json_index w /\
  index_page w' = index_page w.

(** The times at which the waiting loop of [login] looked at the location. *)
Definition poll_times (tr : list event) : list Z :=
  flat_map (fun e => match e with EvPoll t => [t] | _ => [] end) tr.


(** The view gives the waiting loop no reason to [break]: no displayed
    error, or one that mentions a captcha. *)
Definition keeps_waiting (v : SignInView) : bool :=
  match error_container v with
  | Some (true, error_text) => PyStr.contains "captcha" (PyStr.lower error_text)
  | _ => true
  end.



(** The last path segment of a URL, and the two files of a post. *)
Definition last_segment (url : string) : string :=
  List.last (PyStr.split "/" url) "".

Definition md_filepath (self : Scraper) (url : string) : string :=
  path_join (md_save_dir self) (last_segment url +:+ ".md").

Definition html_filepath (self : Scraper) (url : string) : string :=
  path_join (html_save_dir self) (last_segment url +:+ ".html").

(** The record [scrape_posts] appends for a post. *)
Definition post_record (self : Scraper) (url : string) (data : PostData)
  : PostRecord :=
  {| title := pd_title data;
     subtitle := pd_subtitle data;
     like_count := pd_like_count data;
     date := pd_date data;
     file_link := relpath (md_filepath self url) (base_output_dir self);
     html_link := relpath (html_filepath self url) (base_output_dir self) |}.

(** An unchanged source: what a fetch returns depends on the URL alone,
    and fetching leaves the disk as it is. *)
Definition source_determined (get_url_soup : string -> M (option Soup))
    (site : string -> result (option Soup)) : Prop :=
  forall url w, exists w',
    get_url_soup url w = (site url, w') /\ same_disk w w'.

(** What the anonymous fetcher returns for a URL, by the network alone. *)
Definition anonymous_site (env : Env) (url : string) : result (option Soup) :=
  match http_get env url with
  | None => Raise fetch_error
  | Some page =>
      match find_class (html page) "h2" "paywall-title" with
      | Some _ => Ok None
      | None => Ok (Some (html page))
      end
  end.

(** Every path present in [fs] is present in [fs']. *)
Definition files_kept (fs fs' : gmap string string) : Prop :=
  forall path, is_Some (fs !! path) -> is_Some (fs' !! path).

(** An attempt at the post, its Markdown file absent, ends before
    anything is written. *)
Definition attempt_inert (env : Env) (site : string -> result (option Soup))
    (self : Scraper) (url : string) : Prop :=
  match site url with
  | Ok (Some soup) =>
      match extract_post_data env soup with
      | Ok _ => unwritable env (md_filepath self url) = true
      | Raise _ => True
      end
  | _ => True
  end.

(** The post needs no more work: its Markdown file is there, or an
    attempt at it writes nothing. *)
Definition settled (env : Env) (site : string -> result (option Soup))
    (self : Scraper) (url : string) (fs : gmap string string) : Prop :=
  is_Some (fs !! md_filepath self url) \/ attempt_inert env site self url.

(** The directories are laid out as [__init__] lays them out. *)
Definition well_formed (self : Scraper) : Prop :=
  md_save_dir self = base_output_dir self +:+ "/markdown" /\
  html_save_dir self = base_output_dir self +:+ "/html".

(** Every record of the batch links a Markdown file that is on disk. *)
Definition linked (self : Scraper) (essays : list PostRecord)
    (fs : gmap string string) : Prop :=
  forall r, r ∈ essays ->
    exists url,
      file_link r = relpath (md_filepath self url) (base_output_dir self) /\
      is_Some (fs !! md_filepath self url).

(** The index, when there is one, lists no record twice. *)
Definition index_nodup (w : World) : Prop :=
  match json_index w with
  | Some records => NoDup records
  | None => True
  end.

(** ** Sample data for the concrete runs *)

Definition empty_world : World :=
  {| files := ∅; json_index := None; index_page := None;
     driver_url := ""; clock := 0; trace := [] |}.

Definition sample_record (name : string) : PostRecord :=
  {| title := name; subtitle := ""; like_count := "0";
     date := "Date not found";
     file_link := "markdown/" +:+ name +:+ ".md";
     html_link := "html/" +:+ name +:+ ".html" |}.

(** A page with a title, a like count that is not a number, and a body. *)
Definition sample_post (name : string) : Soup :=
  [Elem "html" [] []
     [Elem "body" [] []
        [Elem "h1" ["post-title"] [] [Text (" " +:+ name +:+ " ")];
         Elem "a" ["post-ufi-button"] []
           [Elem "span" ["label"] [] [Text "1.2K"]];
         Elem "div" ["available-content"] []
           [Elem "p" [] [] [Text "Body"]]]]].

(** A page without a heading: its extraction raises. *)
Definition sample_broken_post : Soup :=
  [Elem "html" [] [] [Elem "body" [] [] [Elem "p" [] [] [Text "Oops"]]]].

(** What extraction gives for [sample_post name] in a sample environment. *)
Definition sample_data (name : string) : PostData :=
  {| pd_title := name; pd_subtitle := ""; pd_like_count := "0";
     pd_date := "Date not found";
     pd_md_content :=
       combine_metadata_and_content name "" "Date not found" "0" "Body" |}.

Definition page_response (soup : Soup) : Response :=
  {| ok := true; status_code := 200; xml := None; html := soup |}.

Definition not_found : Response :=
  {| ok := false; status_code := 404; xml := None; html := [] |}.

(** An environment given by what the network answers; the library
    functions are the simplest ones, every path is writable, the template
    is there, and the browser shows nothing. *)
Definition sample_env (site : string -> option Response) : Env :=
  {| http_get := site;
     html2text_handle := fun s => s;
     markdown_markdown := fun s => s;
     tag_str := text;
     html_template := Some "<html></html>";
     unwritable := fun _ => false;
     driver_get_ok := fun _ => true;
     driver_dom := fun _ _ => [];
     sign_in_form_ok := true;
     sign_in_view := fun _ =>
       {| current_url := sign_in_url; error_container := None;
          error_messages := [] |} |}.

(** The environment [env] with a browser that shows [dom]. *)
Definition with_browser (env : Env) (dom : string -> Z -> Soup) : Env :=
  {| http_get := http_get env;
     html2text_handle := html2text_handle env;
     markdown_markdown := markdown_markdown env;
     tag_str := tag_str env;
     html_template := html_template env;
     unwritable := unwritable env;
     driver_get_ok := driver_get_ok env;
     driver_dom := dom;
     sign_in_form_ok := sign_in_form_ok env;
     sign_in_view := sign_in_view env |}.

(** A browser in which no readiness marker ever appears. *)
Definition stalled_env : Env :=
  with_browser (sample_env (fun _ => None)) (fun _ _ => sample_broken_post).

Definition sample_feed : XmlElem :=
  XElem "rss" None
    [XElem "channel" None
       [XElem "item" None
          [XElem "link" (Some "https://x.substack.com/p/hello") []];
        XElem "item" None
          [XElem "link" (Some "https://x.substack.com/about") []]]].

Definition feed_response : Response :=
  {| ok := true; status_code := 200; xml := Some sample_feed; html := [] |}.

(** A site whose sitemap is missing and whose feed lists two links. *)
Definition site_without_sitemap (url : string) : option Response :=
  if str_eqb url "https://x.substack.com/feed.xml" then Some feed_response
  else Some not_found.

(** A site whose sitemap is served with a success status but is not
    well-formed XML, and whose feed is as above. *)
Definition site_with_malformed_sitemap (url : string) : option Response :=
  if str_eqb url "https://x.substack.com/sitemap.xml"
  then Some {| ok := true; status_code := 200; xml := None; html := [] |}
  else site_without_sitemap url.

(** A site without a sitemap whose feed lists one post and the about
    page; the post is served, anything else is not found. *)
Definition sample_site (url : string) : option Response :=
  if str_eqb url "https://x.substack.com/p/hello"
  then Some (page_response (sample_post "Hello"))
  else site_without_sitemap url.

(** Three posts, the second of which has no heading. *)
Definition three_posts_site (url : string) : option Response :=
  if str_eqb url "https://x.substack.com/p/one"
  then Some (page_response (sample_post "One"))
  else if str_eqb url "https://x.substack.com/p/two"
  then Some (page_response sample_broken_post)
  else if str_eqb url "https://x.substack.com/p/three"
  then Some (page_response (sample_post "Three"))
  else Some not_found.

(** Two posts; the request for the first fails at the network level. *)
Definition flaky_site (url : string) : option Response :=
  if str_eqb url "https://x.substack.com/p/one" then None
  else if str_eqb url "https://x.substack.com/p/two"
  then Some (page_response (sample_post "Two"))
  else Some not_found.

(** A scraper of the site [x.substack.com] with the given posts. *)
Definition sample_self (urls : list string) : Scraper :=
  {| base_substack_url := "https://x.substack.com/";
     writer_name := "x";
     base_output_dir := "substacks/x";
     md_save_dir := "substacks/x/markdown";
     html_save_dir := "substacks/x/html";
     keywords := default_keywords;
     post_urls := urls |}.

(** ** Vocabulary of the further properties *)

(** What [html_page] puts before and after the content. *)
Definition html_page_head : string :=
  let dq := PyStr.chr 34 in
  PyStr.join (PyStr.chr 10)
    ["<!DOCTYPE html>";
     "<html lang=" +:+ dq +:+ "en" +:+ dq +:+ ">";
     "<head>";
     "    <meta charset=" +:+ dq +:+ "UTF-8" +:+ dq +:+ ">";
     "    <meta name=" +:+ dq +:+ "viewport" +:+ dq +:+ " content=" +:+ dq
       +:+ "width=device-width, initial-scale=1.0" +:+ dq +:+ ">";
     "    <title>Markdown Content</title>";
     "    <link rel=" +:+ dq +:+ "stylesheet" +:+ dq +:+ " href=" +:+ dq
       +:+ css_path +:+ dq +:+ ">";
     "</head>";
     "<body>";
     "    <main class=" +:+ dq +:+ "markdown-content" +:+ dq +:+ ">";
     ""].

Definition html_page_tail : string :=
  PyStr.join (PyStr.chr 10) [""; "    </main>"; "</body>"; "</html>"].

(** The first and the last character of a string. *)
Definition head_char (s : string) : option ascii :=
  match s with
  | EmptyString => None
  | String c _ => Some c
  end.

Fixpoint last_char (s : string) : option ascii :=
  match s with
  | EmptyString => None
  | String c EmptyString => Some c
  | String _ s' => last_char s'
  end.

(** No white space at either end. *)
Definition trimmed (s : string) : Prop :=
  (forall c, head_char s = Some c -> PyStr.is_space c = false) /\
  (forall c, last_char s = Some c -> PyStr.is_space c = false).

(** The text of [index.html], from what the state keeps of the page and
    the template. *)
Definition index_page_text (json_dumps : list PostRecord -> string)
    (env : Env) (w : World) : option string :=
  match index_page w, html_template env with
  | Some (author_name, essays_data), Some tpl =>
      Some (index_html json_dumps tpl author_name essays_data)
  | _, _ => None
  end.

(** Runs the monadic plumbing of a goal. *)
Ltac run_M :=
  unfold bind, ret, raise, lift, gets, modify, try_except; cbn.

(** ** Facts about the [str] builtins *)

Lemma getitem_neg {A} (l : list A) (k : nat) :
  (k < length l)%nat ->
  PyStr.getitem l (- Z.of_nat (S k)) =
    match reverse l !! k with Some x => Ok x | None => Raise IndexError end.
Proof.
  intros Hk. unfold PyStr.getitem.
  replace (- Z.of_nat (S k) <? 0) with true by (symmetry; apply Z.ltb_lt; lia).
  replace (Z.of_nat (length l) + - Z.of_nat (S k) <? 0) with false
    by (symmetry; apply Z.ltb_ge; lia).
  replace (Z.of_nat (length l) <=? Z.of_nat (length l) + - Z.of_nat (S k))
    with false by (symmetry; apply Z.leb_gt; lia).
  cbn [orb]. rewrite reverse_lookup by lia.
  replace (Z.to_nat (Z.of_nat (length l) + - Z.of_nat (S k)))
    with (length l - S k)%nat by lia.
  reflexivity.
Qed.




Lemma split_nonempty (sep : ascii) (s : string) : PyStr.split sep s <> [].
Proof.
  destruct s as [|a s]; cbn; [discriminate|].
  destruct (PyStr.eqb_char a sep); [discriminate|].
  destruct (PyStr.split sep s); discriminate.
Qed.

Lemma split_no_sep (sep : ascii) (s : string) :
  PyStr.mem_char sep s = false -> PyStr.split sep s = [s].
Proof.
  induction s as [|a s IH]; cbn; [reflexivity|].
  intros H. apply orb_false_iff in H as [Ha Hs].
  unfold PyStr.eqb_char in *. rewrite Ascii.eqb_sym in Ha. rewrite Ha.
  rewrite (IH Hs). reflexivity.
Qed.


(** ** [extract_main_part]: the code against its description *)

Lemma getitem_rev {A} (l : list A) (k : nat) (x : A) :
  reverse l !! k = Some x -> PyStr.getitem l (- Z.of_nat (S k)) = Ok x.
Proof.
  intros H. rewrite getitem_neg, H; [reflexivity|].
  apply lookup_lt_Some in H. rewrite length_reverse in H. exact H.
Qed.

Lemma getitem_m1 {A} (l : list A) (x : A) :
  reverse l !! 0%nat = Some x -> PyStr.getitem l (-1) = Ok x.
Proof. exact (getitem_rev l 0 x). Qed.











(** ** [filter_urls] *)

Lemma str_app_cons (a : ascii) (s t : string) :
  String a s +:+ t = String a (s +:+ t).
Proof. reflexivity. Qed.

Lemma str_app_assoc (s t u : string) : (s +:+ t) +:+ u = s +:+ t +:+ u.
Proof.
  induction s as [|a s IH]; [reflexivity|].
  rewrite !str_app_cons, IH. reflexivity.
Qed.

Lemma startswith_spec (p s : string) :
  PyStr.startswith p s = true <-> exists post, s = p +:+ post.
Proof.
  revert s. induction p as [|a p IH]; intros s.
  - cbn. split; [intros _; exists s; reflexivity | reflexivity].
  - destruct s as [|b s]; cbn.
    + split; [discriminate | intros [post H]; discriminate].
    + rewrite andb_true_iff, IH. unfold PyStr.eqb_char.
      rewrite Ascii.eqb_eq. split.
      * intros [-> [post ->]]. exists post. reflexivity.
      * intros [post H]. injection H as -> ->. eauto.
Qed.

Lemma contains_spec (k s : string) :
  PyStr.contains k s = true <-> occurs_in k s.
Proof.
  unfold occurs_in. induction s as [|b s IH].
  - cbn. rewrite orb_false_r, startswith_spec. split.
    + intros [post H]. exists "", post. exact H.
    + intros [[|c pre] [post H]]; [eauto | discriminate].
  - cbn [PyStr.contains]. rewrite orb_true_iff, IH, startswith_spec. split.
    + intros [[post H] | (pre & post & H)].
      * exists "", post. exact H.
      * exists (String b pre), post. rewrite H. reflexivity.
    + intros [[|c pre] [post H]].
      * left. exists post. exact H.
      * right. injection H as -> ->. eauto.
Qed.

Lemma filter_urls_elem (urls kws : list string) (u : string) :
  u ∈ filter_urls urls kws <->
  u ∈ urls /\ forall k, k ∈ kws -> ~ occurs_in k u.
Proof.
  unfold filter_urls. rewrite !list_elem_of_In, filter_In, forallb_forall.
  split; intros [Hu Hk]; (split; [exact Hu|]).
  - intros k Hin Hocc. apply list_elem_of_In in Hin.
    specialize (Hk k Hin). apply contains_spec in Hocc.
    rewrite Hocc in Hk. discriminate.
  - intros k Hin. apply list_elem_of_In in Hin.
    destruct (PyStr.contains k u) eqn:E; [|reflexivity].
    apply contains_spec in E. destruct (Hk k Hin E).
Qed.

(** C8. For every list of discovered URLs and every keyword list, a URL is
    in the filtered result exactly when it is in the input and contains no
    keyword; the result is the input with the excluded URLs dropped, order
    kept; with the default keywords a URL with [archive] as a path segment
    is excluded, and a URL containing none of about, archive, podcast is
    retained. *)
Theorem filter_urls_spec (urls kws : list string) (u : string) :
  (u ∈ filter_urls urls kws <->
     u ∈ urls /\ forall k, k ∈ kws -> ~ occurs_in k u) /\
  sublist (filter_urls urls kws) urls /\
  (forall k, k ∈ kws -> occurs_in k u -> u ∉ filter_urls urls kws) /\
  (forall pre post, u = pre +:+ "/archive" +:+ post ->
                    u ∉ filter_urls urls default_keywords) /\
  (u ∈ urls -> ~ occurs_in "about" u -> ~ occurs_in "archive" u ->
   ~ occurs_in "podcast" u -> u ∈ filter_urls urls default_keywords).
Proof.
  split; [apply filter_urls_elem|]. split; [|split; [|split]].
  - unfold filter_urls. induction urls as [|x urls IH]; cbn.
    + constructor.
    + destruct (forallb _ kws); [apply sublist_skip | apply sublist_cons];
        exact IH.
  - intros k Hk Hocc Hin. apply filter_urls_elem in Hin as [_ Hno].
    exact (Hno k Hk Hocc).
  - intros pre post -> Hin. apply filter_urls_elem in Hin as [_ Hno].
    apply (Hno "archive"); [unfold default_keywords; set_solver|].
    exists (pre +:+ "/"), post. rewrite str_app_assoc. reflexivity.
  - intros Hin Ha Hb Hc. apply filter_urls_elem. split; [exact Hin|].
    intros k Hk. unfold default_keywords in Hk.
    apply elem_of_cons in Hk as [->|Hk]; [exact Ha|].
    apply elem_of_cons in Hk as [->|Hk]; [exact Hb|].
    apply elem_of_cons in Hk as [->|Hk]; [exact Hc|].
    apply elem_of_nil in Hk. destruct Hk.
Qed.

(** ** Merging into the index *)

Lemma merge_essays_data_some (existing essays_data : list PostRecord) :
  merge_essays_data (Some existing) essays_data =
  existing ++ List.filter (fun d => negb (bool_decide (d ∈ existing))) essays_data.
Proof. reflexivity. Qed.

Lemma filter_sublist {A} (p : A -> bool) (l : list A) : sublist (List.filter p l) l.
Proof.
  induction l as [|x l IH]; cbn; [constructor|].
  destruct (p x); [apply sublist_skip | apply sublist_cons]; exact IH.
Qed.

Lemma elem_of_filter_bool {A} (p : A -> bool) (l : list A) (x : A) :
  x ∈ List.filter p l <-> x ∈ l /\ p x = true.
Proof. rewrite !list_elem_of_In. apply filter_In. Qed.

(** C5. Saving a batch loads the existing index, keeps every record of it
    in place, appends each record of the batch that is not equal, as a
    whole record, to one already in the existing index, in the batch's
    order, and writes the result back; with no index yet, the batch is
    written as it is; nothing else on disk is touched. *)
Theorem save_essays_data_merges (essays_data : list PostRecord) (w : World) :
  exists w',
    save_essays_data_to_json essays_data w = (Ok tt, w') /\
    files w' = files w /\
    (json_index w = None -> json_index w' = Some essays_data) /\
    (forall existing, json_index w = Some existing ->
       exists appended,
         json_index w' = Some (existing ++ appended) /\
         appended =
           List.filter (fun d => bool_decide (d ∉ existing)) essays_data /\
         sublist appended essays_data /\
         (forall d, d ∈ appended <-> d ∈ essays_data /\ d ∉ existing) /\
         (forall d, d ∈ existing -> d ∈ existing ++ appended) /\
         (forall d, d ∈ essays_data -> d ∈ existing ++ appended)).
Proof.
  eexists. split; [reflexivity|]. split; [reflexivity|]. split.
  - intros H. cbn. rewrite H. reflexivity.
  - intros existing H.
    exists (List.filter (fun d => bool_decide (d ∉ existing)) essays_data).
    split; [|split; [reflexivity|split; [apply filter_sublist|]]].
    + cbn. rewrite H, merge_essays_data_some. do 2 f_equal.
      induction essays_data as [|d l IH]; [reflexivity|]. cbn.
      rewrite IH. destruct (decide (d ∈ existing)) as [Hin|Hout].
      * rewrite (bool_decide_eq_true_2 _ Hin).
        rewrite bool_decide_eq_false_2 by (intros Hn; exact (Hn Hin)).
        reflexivity.
      * rewrite (bool_decide_eq_false_2 _ Hout).
        rewrite (bool_decide_eq_true_2 _ Hout). reflexivity.
    + assert (Hiff : forall d,
                d ∈ List.filter (fun d => bool_decide (d ∉ existing)) essays_data
                <-> d ∈ essays_data /\ d ∉ existing).
      { intros d. rewrite elem_of_filter_bool, bool_decide_eq_true. reflexivity. }
      split; [exact Hiff|]. split.
      * intros d Hd. apply elem_of_app. left. exact Hd.
      * intros d Hd. apply elem_of_app.
        destruct (decide (d ∈ existing)) as [Hin|Hout]; [left; exact Hin|].
        right. apply Hiff. split; assumption.
Qed.

Lemma save_essays_data_merges_witness :
  let w := set_json_index (Some [sample_record "a"]) empty_world in
  json_index (snd (save_essays_data_to_json
                     [sample_record "a"; sample_record "b"; sample_record "b"] w))
  = Some [sample_record "a"; sample_record "b"; sample_record "b"].
Proof.
  intros w.
  destruct (save_essays_data_merges
              [sample_record "a"; sample_record "b"; sample_record "b"] w)
    as (w' & Hrun & _ & _ & Hex).
  destruct (Hex [sample_record "a"] eq_refl) as (appended & Hj & Happ & _).
  rewrite Hrun. cbn [snd]. rewrite Hj, Happ. vm_compute. reflexivity.
Defined.

Lemma filter_urls_spec_witness :
  let urls := ["https://x.substack.com/p/hello";
               "https://x.substack.com/archive";
               "https://x.substack.com/about"] in
  ("https://x.substack.com/archive" ∉ filter_urls urls default_keywords) /\
  ("https://x.substack.com/p/hello" ∈ filter_urls urls default_keywords).
Proof.
  intros urls. split.
  - destruct (filter_urls_spec urls default_keywords
                "https://x.substack.com/archive") as (_ & _ & _ & Harch & _).
    apply (Harch "https://x.substack.com" ""). reflexivity.
  - destruct (filter_urls_spec urls default_keywords
                "https://x.substack.com/p/hello") as (_ & _ & _ & _ & Hkeep).
    apply Hkeep.
    + constructor.
    + intros H. apply contains_spec in H. vm_compute in H. discriminate.
    + intros H. apply contains_spec in H. vm_compute in H. discriminate.
    + intros H. apply contains_spec in H. vm_compute in H. discriminate.
Defined.

(** ** Extraction defaults *)

Lemma isdigit_false_iff (s : string) :
  PyStr.isdigit s = false <->
  s = "" \/ PyStr.forallb_str PyStr.is_digit s = false.
Proof.
  destruct s as [|a s]; cbn [PyStr.isdigit].
  - split; [left; reflexivity | reflexivity].
  - split; [right; assumption | intros [H|H]; [discriminate | assumption]].
Qed.

(** C9. For every fetched document, extraction either raises the
    attribute error, which it does when the document has no title element
    and no record is made at all, or returns a record whose subtitle is
    the empty string when the subtitle element is absent, whose date is
    [Date not found] when the date element is absent, and whose like count
    is [0] when the like-count element is absent or its stripped text does
    not pass [str.isdigit()]; an element that is present (and passes, for
    the like count) gives its stripped text. *)
Theorem extract_post_data_defaults (env : Env) (soup : Soup) :
  match extract_post_data env soup with
  | Raise e => e = AttributeError /\ select_one soup sel_title = None
  | Ok data =>
      (exists t, select_one soup sel_title = Some t /\
                 pd_title data = PyStr.strip (text t)) /\
      (select_one soup sel_subtitle = None -> pd_subtitle data = "") /\
      (find_class soup "div" date_class = None ->
       pd_date data = "Date not found") /\
      (select_one soup sel_like_count = None -> pd_like_count data = "0") /\
      (forall e, select_one soup sel_like_count = Some e ->
                 PyStr.isdigit (PyStr.strip (text e)) = false ->
                 pd_like_count data = "0") /\
      (forall e, select_one soup sel_subtitle = Some e ->
                 pd_subtitle data = PyStr.strip (text e)) /\
      (forall e, find_class soup "div" date_class = Some e ->
                 pd_date data = PyStr.strip (text e)) /\
      (forall e, select_one soup sel_like_count = Some e ->
                 PyStr.isdigit (PyStr.strip (text e)) = true ->
                 pd_like_count data = PyStr.strip (text e))
  end.
Proof.
  unfold extract_post_data.
  destruct (select_one soup sel_title) as [t|]; cbn [text_of rbind];
    [|split; reflexivity].
  cbn [pd_title pd_subtitle pd_date pd_like_count].
  split; [exists t; split; reflexivity|].
  repeat split.
  - intros ->. reflexivity.
  - intros ->. reflexivity.
  - intros ->. reflexivity.
  - intros e -> ->. reflexivity.
  - intros e ->. reflexivity.
  - intros e ->. reflexivity.
  - intros e -> ->. reflexivity.
Qed.

Lemma extract_post_data_defaults_witness :
  exists data,
    extract_post_data (sample_env (fun _ => None)) (sample_post "Hello") = Ok data /\
    pd_subtitle data = "" /\ pd_date data = "Date not found" /\
    pd_like_count data = "0".
Proof.
  pose proof (extract_post_data_defaults (sample_env (fun _ => None))
                (sample_post "Hello")) as H.
  destruct (extract_post_data (sample_env (fun _ => None)) (sample_post "Hello"))
    as [data|e] eqn:Hrun; [|vm_compute in Hrun; discriminate].
  destruct H as (_ & Hsub & Hdate & _ & Hlike & _).
  exists data. split; [reflexivity|]. split; [|split].
  - apply Hsub. reflexivity.
  - apply Hdate. reflexivity.
  - apply (Hlike (Elem "span" ["label"] [] [Text "1.2K"])); reflexivity.
Defined.

(** ** Discovery *)

Lemma filter_discovered_strs (l kws : list string) :
  filter_discovered (Some <$> l) kws = Ok (filter_urls l kws).
Proof.
  unfold filter_discovered.
  assert (Hm : mapM id (Some <$> l) = Some l).
  { induction l as [|x l IH]; [reflexivity|]. cbn. rewrite IH. reflexivity. }
  assert (Ho : omap id (Some <$> l) = l).
  { clear Hm. induction l as [|x l IH]; [reflexivity|]. csimpl. f_equal. exact IH. }
  destruct kws as [|k kws].
  - rewrite Ho. unfold filter_urls. f_equal. clear.
    induction l as [|x l IH]; [reflexivity|]. cbn. f_equal. exact IH.
  - rewrite Hm. reflexivity.
Qed.

Lemma fetch_urls_from_feed_run (env : Env) (base : string) (w : World) :
  let feed_url := base +:+ "feed.xml" in
  fetch_urls_from_feed env base w =
  (match http_get env feed_url with
   | None => Raise ConnectionError
   | Some fresp =>
       if ok fresp then
         match xml fresp with
         | Some root => Ok (Some <$> feed_links root)
         | None => Raise ParseError
         end
       else Ok []
   end, log_event (EvRequest feed_url) w).
Proof.
  unfold fetch_urls_from_feed, requests_get. run_M.
  destruct (http_get env (base +:+ "feed.xml")) as [fresp|]; [|reflexivity].
  destruct (ok fresp); cbn; [|reflexivity].
  destruct (xml fresp); reflexivity.
Qed.

Lemma fetch_urls_from_sitemap_run (env : Env) (base : string) (w : World) :
  let sitemap_url := base +:+ "sitemap.xml" in
  fetch_urls_from_sitemap env base w =
  (match http_get env sitemap_url with
   | None => Raise ConnectionError
   | Some resp =>
       if ok resp then
         match xml resp with
         | Some root => Ok (sitemap_locs root)
         | None => Raise ParseError
         end
       else Ok []
   end, log_event (EvRequest sitemap_url) w).
Proof.
  unfold fetch_urls_from_sitemap, requests_get. run_M.
  destruct (http_get env (base +:+ "sitemap.xml")) as [resp|]; [|reflexivity].
  destruct (ok resp); cbn; [|reflexivity].
  destruct (xml resp); reflexivity.
Qed.

Lemma get_all_post_urls_run (env : Env) (base : string) (kws : list string)
    (w : World) :
  get_all_post_urls env base kws w =
  match fetch_urls_from_sitemap env base w with
  | (Ok [], w1) =>
      match fetch_urls_from_feed env base w1 with
      | (Ok urls, w2) => (filter_discovered urls kws, w2)
      | (Raise e, w2) => (Raise e, w2)
      end
  | (Ok urls, w1) => (filter_discovered urls kws, w1)
  | (Raise e, w1) => (Raise e, w1)
  end.
Proof.
  unfold get_all_post_urls, bind at 1.
  destruct (fetch_urls_from_sitemap env base w) as [[urls|e] w1]; [|reflexivity].
  destruct urls as [|u urls].
  - unfold bind, lift.
    destruct (fetch_urls_from_feed env base w1) as [[urls|e] w2]; reflexivity.
  - reflexivity.
Qed.

(** C3 (amended). Discovery requests the sitemap first and the feed at
    most once after it, each at most once.  On a non-success status of the
    sitemap, or a sitemap that lists no URL, the feed is requested before
    the result is given; a non-success status at the feed then gives the
    empty URL set, and a parsed feed gives its filtered links.  A sitemap
    that lists URLs is used without touching the feed. *)
Theorem discovery_fallback (env : Env) (base : string) (kws : list string)
    (w : World) :
  let sitemap_url := base +:+ "sitemap.xml" in
  let feed_url := base +:+ "feed.xml" in
  exists r w',
    get_all_post_urls env base kws w = (r, w') /\
    (trace w' = trace w ++ [EvRequest sitemap_url] \/
     trace w' = trace w ++ [EvRequest sitemap_url; EvRequest feed_url]) /\
    (forall resp,
       http_get env sitemap_url = Some resp ->
       ok resp = false \/
         (ok resp = true /\ exists root, xml resp = Some root /\ sitemap_locs root = []) ->
       trace w' = trace w ++ [EvRequest sitemap_url; EvRequest feed_url] /\
       (forall fresp, http_get env feed_url = Some fresp ->
                      ok fresp = false -> r = Ok []) /\
       (forall fresp root, http_get env feed_url = Some fresp ->
                           ok fresp = true -> xml fresp = Some root ->
                           r = Ok (filter_urls (feed_links root) kws))) /\
    (forall resp root,
       http_get env sitemap_url = Some resp -> ok resp = true ->
       xml resp = Some root -> sitemap_locs root <> [] ->
       trace w' = trace w ++ [EvRequest sitemap_url] /\
       r = filter_discovered (sitemap_locs root) kws).
Proof.
  cbv zeta. rewrite get_all_post_urls_run, fetch_urls_from_sitemap_run.
  cbv zeta.
  assert (Hfeed : forall w1,
    trace w1 = trace w ++ [EvRequest (base +:+ "sitemap.xml")] ->
    exists r w',
      match fetch_urls_from_feed env base w1 with
      | (Ok urls, w2) => (filter_discovered urls kws, w2)
      | (Raise e, w2) => (Raise e, w2)
      end = (r, w') /\
      trace w' = trace w ++ [EvRequest (base +:+ "sitemap.xml");
                             EvRequest (base +:+ "feed.xml")] /\
      (forall fresp, http_get env (base +:+ "feed.xml") = Some fresp ->
                     ok fresp = false -> r = Ok []) /\
      (forall fresp root, http_get env (base +:+ "feed.xml") = Some fresp ->
                          ok fresp = true -> xml fresp = Some root ->
                          r = Ok (filter_urls (feed_links root) kws))).
  { intros w1 Hw1. rewrite fetch_urls_from_feed_run. cbv zeta.
    assert (Htr : trace (log_event (EvRequest (base +:+ "feed.xml")) w1)
                  = trace w ++ [EvRequest (base +:+ "sitemap.xml");
                                EvRequest (base +:+ "feed.xml")]).
    { cbn. rewrite Hw1, <- app_assoc. reflexivity. }
    destruct (http_get env (base +:+ "feed.xml")) as [fresp|] eqn:Hf.
    - destruct (ok fresp) eqn:Hok.
      + destruct (xml fresp) as [root|] eqn:Hx.
        * eexists _, _. split; [reflexivity|]. split; [exact Htr|]. split.
          -- intros ? [= <-] ?. congruence.
          -- intros ? ? [= <-] _ Hr. rewrite Hx in Hr. injection Hr as <-.
             apply filter_discovered_strs.
        * eexists _, _. split; [reflexivity|]. split; [exact Htr|]. split.
          -- intros ? [= <-] ?. congruence.
          -- intros ? ? [= <-] _ Hr. congruence.
      + eexists _, _. split; [reflexivity|]. split; [exact Htr|]. split.
        * intros ? [= <-] _. destruct kws; reflexivity.
        * intros ? ? [= <-] ?. congruence.
    - eexists _, _. split; [reflexivity|]. split; [exact Htr|].
      split; intros; discriminate. }
  destruct (http_get env (base +:+ "sitemap.xml")) as [resp|] eqn:Hs.
  - destruct (ok resp) eqn:Hok.
    + destruct (xml resp) as [root|] eqn:Hx.
      * destruct (sitemap_locs root) as [|u urls] eqn:Hl.
        -- destruct (Hfeed (log_event (EvRequest (base +:+ "sitemap.xml")) w)
                       eq_refl) as (r & w' & Hrun & Htr & Hf1 & Hf2).
           exists r, w'. split; [exact Hrun|]. split; [right; exact Htr|].
           split.
           ++ intros ? [= <-] _. auto.
           ++ intros ? ? [= <-] _ Hr. rewrite Hx in Hr. injection Hr as <-.
              rewrite Hl. intros Hne. destruct (Hne eq_refl).
        -- eexists _, _. split; [reflexivity|]. split; [left; reflexivity|].
           split.
           ++ intros ? [= <-] [Hc | (_ & root' & Hr & Hl')]; [congruence|].
              rewrite Hx in Hr. injection Hr as <-. congruence.
           ++ intros ? ? [= <-] _ Hr _. rewrite Hx in Hr. injection Hr as <-.
              rewrite Hl. split; reflexivity.
      * eexists _, _. split; [reflexivity|]. split; [left; reflexivity|].
        split.
        -- intros ? [= <-] [Hc | (_ & root' & Hr & _)]; congruence.
        -- intros ? ? [= <-] _ Hr. congruence.
    + destruct (Hfeed (log_event (EvRequest (base +:+ "sitemap.xml")) w)
                  eq_refl) as (r & w' & Hrun & Htr & Hf1 & Hf2).
      exists r, w'. split; [exact Hrun|]. split; [right; exact Htr|].
      split.
      * intros ? [= <-] _. auto.
      * intros ? ? [= <-] Hc. congruence.
  - eexists _, _. split; [reflexivity|]. split; [left; reflexivity|].
    split; intros; discriminate.
Qed.

Lemma discovery_fallback_witness :
  fst (get_all_post_urls (sample_env site_without_sitemap)
         "https://x.substack.com/" default_keywords empty_world)
  = Ok ["https://x.substack.com/p/hello"].
Proof.
  destruct (discovery_fallback (sample_env site_without_sitemap)
              "https://x.substack.com/" default_keywords empty_world)
    as (r & w' & Hrun & _ & Hfall & _).
  rewrite Hrun. cbn [fst].
  destruct (Hfall not_found eq_refl (or_introl eq_refl)) as (_ & _ & Hfeed).
  rewrite (Hfeed feed_response sample_feed eq_refl eq_refl eq_refl).
  reflexivity.
Defined.

(** C3, as first stated, fails: a sitemap that does not parse is not
    followed by the feed; the parse error leaves discovery after the one
    request, though the feed would have listed a post. *)
Lemma sitemap_parse_failure_counterexample :
  get_all_post_urls (sample_env site_with_malformed_sitemap)
    "https://x.substack.com/" default_keywords empty_world
  = (Raise ParseError,
     log_event (EvRequest "https://x.substack.com/sitemap.xml") empty_world) /\
  fst (get_all_post_urls (sample_env site_without_sitemap)
         "https://x.substack.com/" default_keywords empty_world)
  = Ok ["https://x.substack.com/p/hello"].
Proof. split; reflexivity. Qed.

(** ** The authenticated fetch *)

Lemma same_disk_refl (w : World) : same_disk w w.
Proof. repeat split. Qed.

Lemma same_disk_trans (w1 w2 w3 : World) :
  same_disk w1 w2 -> same_disk w2 w3 -> same_disk w1 w3.
Proof. unfold same_disk. intros (-> & -> & ->) (-> & -> & ->). repeat split. Qed.

Lemma content_ready_run (env : Env) (w : World) :
  content_ready env w =
  (Ok (markers_present (driver_dom env (driver_url w) (clock w))), w).
Proof.
  unfold content_ready, find_elements, page_now, markers_present. run_M.
  destruct (nonempty (select _ sel_available_content)); [reflexivity|].
  destruct (nonempty (select _ sel_post_title)); [reflexivity|].
  destruct (nonempty (select _ sel_paywall_title)); [reflexivity|].
  reflexivity.
Qed.

Lemma wait_loop_bounds (env : Env) (deadline : Z) (fuel : nat) (w : World) :
  clock w <= deadline ->
  exists r w',
    wait_loop fuel deadline 500 (content_ready env) w = (r, w') /\
    same_disk w w' /\ driver_url w' = driver_url w /\
    clock w <= clock w' <= deadline + 500 /\
    (forall a, r = Ok a -> clock w' <= deadline).
Proof.
  revert w. induction fuel as [|fuel IH]; intros w Hw.
  - exists (Raise TimeoutException), w. cbn.
    split; [reflexivity|]. split; [repeat split|].
    split; [reflexivity|]. split; [lia|]. intros a H. discriminate.
  - cbn [wait_loop]. unfold bind at 1. rewrite content_ready_run.
    destruct (markers_present _).
    + exists (Ok tt), w. split; [reflexivity|].
      split; [repeat split|]. split; [reflexivity|].
      split; [lia|]. intros _ _. exact Hw.
    + run_M. destruct (deadline <? clock w + 500) eqn:Hd.
      * eexists _, _. split; [reflexivity|]. cbn.
        split; [repeat split|]. split; [reflexivity|].
        split; [lia|]. intros a H. discriminate.
      * apply Z.ltb_ge in Hd.
        destruct (IH (advance_clock 500 w)) as (r & w' & Hrun & Hd' & Hu & Hc & Hok);
          [cbn; lia|].
        exists r, w'. split; [exact Hrun|]. cbn in Hc.
        split; [exact Hd'|]. split; [exact Hu|]. split; [lia|]. exact Hok.
Qed.

Lemma wait_loop_never (env : Env) (url : string) (start : Z) (fuel : nat)
    (w : World) :
  driver_url w = url ->
  (forall t, start <= t <= start + 5000 ->
             markers_present (driver_dom env url t) = false) ->
  (1 <= fuel <= 11)%nat ->
  clock w = start + 5500 - 500 * Z.of_nat fuel ->
  exists w',
    wait_loop fuel (start + 5000) 500 (content_ready env) w
    = (Raise TimeoutException, w') /\
    same_disk w w' /\ driver_url w' = url /\ clock w' = start + 5500.
Proof.
  revert w. induction fuel as [|fuel IH]; intros w Hu Hnever Hf Hc; [lia|].
  cbn [wait_loop]. unfold bind at 1. rewrite content_ready_run.
  rewrite Hu, Hnever by lia. run_M.
  destruct (start + 5000 <? clock w + 500) eqn:Hd.
  - apply Z.ltb_lt in Hd. eexists. split; [reflexivity|]. cbn.
    split; [repeat split|]. split; [exact Hu|]. lia.
  - apply Z.ltb_ge in Hd.
    destruct (IH (advance_clock 500 w)) as (w' & Hrun & Hd' & Hu' & Hc');
      [exact Hu | exact Hnever | lia | cbn; lia |].
    exists w'. split; [exact Hrun|]. split; [exact Hd'|]. split; assumption.
Qed.

(** C7 (amended). For every URL the browser can navigate to, the
    authenticated fetch polls for the readiness markers for at most five
    seconds (and sleeps one more second on a loading indicator), and then
    returns the page source as it is at that moment, as a document: when no
    marker appears within the five seconds the wait times out after 5.5
    seconds of polling, the timeout is swallowed, and the page source is
    still returned. *)
Theorem premium_fetch_returns_page_source (env : Env) (url : string) (w : World) :
  driver_get_ok env url = true ->
  exists w',
    PremiumSubstackScraper_get_url_soup env url w
    = (Ok (Some (driver_dom env url (clock w'))), w') /\
    same_disk w w' /\ driver_url w' = url /\
    clock w <= clock w' <= clock w + 6000 /\
    ((forall t, clock w <= t <= clock w + 5000 ->
                markers_present (driver_dom env url t) = false) ->
     clock w' = clock w + 5500).
Proof.
  intros Hnav.
  unfold PremiumSubstackScraper_get_url_soup, driver_get.
  unfold try_except at 1. unfold bind at 1. unfold bind at 1.
  unfold modify at 1. rewrite Hnav. unfold modify at 1.
  set (w0 := set_driver_url url (log_event (EvNavigate url) w)).
  unfold bind at 1. unfold try_except at 1. unfold bind at 1.
  unfold wait_until. unfold bind at 1. unfold gets at 1.
  change (Z.to_nat (5000 / 500)) with 10%nat.
  destruct (wait_loop_bounds env (clock w0 + 5000) 11 w0)
    as (r & w1 & Hrun & Hdisk & Hurl & Hclock & Hok); [lia|].
  rewrite Hrun.
  assert (Hnever : (forall t, clock w <= t <= clock w + 5000 ->
                       markers_present (driver_dom env url t) = false) ->
                   r = Raise TimeoutException /\ clock w1 = clock w + 5500).
  { intros Hn.
    destruct (wait_loop_never env url (clock w0) 11 w0) as (w' & Hrun' & _ & _ & Hc');
      [reflexivity | exact Hn | lia | lia |].
    rewrite Hrun in Hrun'. injection Hrun' as -> ->. split; [reflexivity|exact Hc']. }
  change (clock w0) with (clock w) in *. change (driver_url w0) with url in Hurl.
  assert (Hdisk0 : same_disk w w1).
  { destruct Hdisk as (H1 & H2 & H3). repeat split; assumption. }
  destruct r as [[]|e].
  - unfold find_elements, page_now. run_M.
    destruct (nonempty _).
    + exists (advance_clock 1000 w1).
      split; [cbn; rewrite Hurl; reflexivity|]. cbn.
      split; [exact Hdisk0|]. split; [exact Hurl|].
      specialize (Hok tt eq_refl). split; [lia|].
      intros Hn. destruct (Hnever Hn) as [? _]. discriminate.
    + exists w1. split; [cbn; rewrite Hurl; reflexivity|].
      split; [exact Hdisk0|]. split; [exact Hurl|].
      specialize (Hok tt eq_refl). split; [lia|].
      intros Hn. destruct (Hnever Hn) as [? _]. discriminate.
  - unfold page_now. run_M.
    exists w1. split; [rewrite Hurl; reflexivity|].
    split; [exact Hdisk0|]. split; [exact Hurl|]. split; [lia|].
    intros Hn. destruct (Hnever Hn) as [_ ?]. assumption.
Qed.

Lemma premium_fetch_returns_page_source_witness :
  exists w',
    PremiumSubstackScraper_get_url_soup stalled_env
      "https://x.substack.com/p/hello" empty_world
    = (Ok (Some sample_broken_post), w') /\
    clock w' = 5500.
Proof.
  destruct (premium_fetch_returns_page_source stalled_env
              "https://x.substack.com/p/hello" empty_world eq_refl)
    as (w' & Hrun & _ & _ & _ & Hnever).
  exists w'. split; [exact Hrun|].
  apply Hnever. intros t _. reflexivity.
Defined.

(** C7, as first stated, fails: with no marker ever in the page, the fetch
    does not return a skip signal ([None]) and does not raise; it returns
    the page it has, after the wait has timed out. *)
Lemma premium_timeout_counterexample :
  (forall t, markers_present
               (driver_dom stalled_env "https://x.substack.com/p/hello" t) = false) /\
  fst (PremiumSubstackScraper_get_url_soup stalled_env
         "https://x.substack.com/p/hello" empty_world)
  = Ok (Some sample_broken_post) /\
  clock (snd (PremiumSubstackScraper_get_url_soup stalled_env
                "https://x.substack.com/p/hello" empty_world)) = 5500.
Proof. split; [intros t; reflexivity|]. split; reflexivity. Qed.

(** ** Signing in *)

Lemma countdown_twelve :
  countdown = [120; 110; 100; 90; 80; 70; 60; 50; 40; 30; 20; 10].
Proof. reflexivity. Qed.

Lemma poll_times_app (a b : list event) :
  poll_times (a ++ b) = poll_times a ++ poll_times b.
Proof. unfold poll_times. apply flat_map_app. Qed.






(** ** One turn of the loop *)

Lemma get_filename_from_url_last (url ext : string) :
  PyStr.startswith "." ext = true ->
  get_filename_from_url url ext = Ok (last_segment url +:+ ext).
Proof.
  intros Hext. unfold get_filename_from_url, last_segment. rewrite Hext.
  pose proof (split_nonempty "/" url) as Hne.
  destruct (reverse (PyStr.split "/" url)) as [|x t] eqn:Hrev.
  - apply (f_equal reverse) in Hrev. rewrite reverse_involutive in Hrev.
    destruct (Hne Hrev).
  - rewrite (getitem_m1 _ x) by (rewrite Hrev; reflexivity).
    cbn [rbind]. do 2 f_equal.
    apply (f_equal reverse) in Hrev. rewrite reverse_involutive in Hrev.
    rewrite Hrev, reverse_cons. symmetry. apply last_last.
Qed.

Lemma process_post_unfold (env : Env) (g : string -> M (option Soup))
    (self : Scraper) (url : string) (w : World) :
  process_post env g self url w =
  if bool_decide (is_Some (files w !! md_filepath self url))
  then (Ok (Done None), w)
  else
    match g url w with
    | (Raise e, w1) => (Raise e, w1)
    | (Ok None, w1) => (Ok Continue, w1)
    | (Ok (Some soup), w1) =>
        match extract_post_data env soup with
        | Raise e => (Raise e, w1)
        | Ok data =>
            match save_to_file env (md_filepath self url) (pd_md_content data) w1 with
            | (Raise e, w2) => (Raise e, w2)
            | (Ok _, w2) =>
                match save_to_html_file env (html_filepath self url)
                        (md_to_html env (pd_md_content data)) w2 with
                | (Raise e, w3) => (Raise e, w3)
                | (Ok _, w3) => (Ok (Done (Some (post_record self url data))), w3)
                end
            end
        end
    end.
Proof.
  unfold process_post, post_record, md_filepath, html_filepath.
  rewrite !get_filename_from_url_last by reflexivity.
  unfold bind at 1. unfold lift at 1. unfold bind at 1. unfold lift at 1.
  unfold bind at 1. unfold path_exists, gets.
  destruct (bool_decide (is_Some (files w !! _)));
    cbn [negb]; [reflexivity|].
  unfold bind at 1. destruct (g url w) as [[[soup|]|e] w1]; reflexivity.
Qed.

Lemma files_kept_refl (fs : gmap string string) : files_kept fs fs.
Proof. intros p H. exact H. Qed.

Lemma files_kept_trans (a b c : gmap string string) :
  files_kept a b -> files_kept b c -> files_kept a c.
Proof. intros H1 H2 p H. apply H2, H1, H. Qed.

Lemma files_kept_insert (fs : gmap string string) (p c : string) :
  files_kept fs (<[p := c]> fs).
Proof.
  intros q H. destruct (decide (p = q)) as [->|Hne].
  - rewrite lookup_insert_eq. eauto.
  - rewrite lookup_insert_ne by exact Hne. exact H.
Qed.

Lemma save_to_file_run (env : Env) (p c : string) (w : World) :
  save_to_file env p c w =
  if bool_decide (is_Some (files w !! p)) then (Ok tt, w)
  else if unwritable env p then (Raise (OSError p), w)
  else (Ok tt, set_files (<[p := c]> (files w)) w).
Proof.
  unfold save_to_file, path_exists, write_file. run_M.
  destruct (bool_decide _); [reflexivity|].
  destruct (unwritable env p); reflexivity.
Qed.

Lemma save_to_html_file_run (env : Env) (p c : string) (w : World) :
  save_to_html_file env p c w =
  if unwritable env p then (Raise (OSError p), w)
  else (Ok tt, set_files (<[p := html_page c]> (files w)) w).
Proof.
  unfold save_to_html_file, write_file.
  destruct (unwritable env p); reflexivity.
Qed.

Lemma settled_kept (env : Env) (site : string -> result (option Soup))
    (self : Scraper) (url : string) (fs fs' : gmap string string) :
  files_kept fs fs' -> settled env site self url fs ->
  settled env site self url fs'.
Proof. intros Hk [H|H]; [left; apply Hk, H | right; exact H]. Qed.

Section Turns.

Context (env : Env) (g : string -> M (option Soup))
        (site : string -> result (option Soup)) (self : Scraper).
Hypothesis Hg : source_determined g site.

(** Whatever a turn does, it ends without an exception; it only adds
    files; afterwards the post is settled. *)
Lemma try_post_turn (url : string) (w : World) :
  exists t w',
    try_post env g self url w = (Ok t, w') /\
    files_kept (files w) (files w') /\
    json_index w' = json_index w /\ index_page w' = index_page w /\
    settled env site self url (files w') /\
    (files w !! md_filepath self url = None -> site url = Ok None ->
     t = Continue) /\
    (forall r, t = Done (Some r) ->
       files w !! md_filepath self url = None /\
       is_Some (files w' !! md_filepath self url) /\
       exists data, r = post_record self url data).
Proof.
  unfold try_post, try_except. rewrite process_post_unfold.
  destruct (bool_decide (is_Some (files w !! md_filepath self url))) eqn:Hmd.
  { apply bool_decide_eq_true in Hmd.
    exists (Done None), w. split; [reflexivity|].
    split; [apply files_kept_refl|]. split; [reflexivity|]. split; [reflexivity|].
    split; [left; exact Hmd|]. split.
    - intros Hnone. rewrite Hnone in Hmd. destruct Hmd as [? ?]. discriminate.
    - intros r H. discriminate. }
  apply bool_decide_eq_false in Hmd.
  assert (Hnone : files w !! md_filepath self url = None).
  { destruct (files w !! md_filepath self url) eqn:E; [|reflexivity].
    destruct Hmd. eauto. }
  destruct (Hg url w) as (w1 & Hrun & Hf1 & Hj1 & Hi1). rewrite Hrun.
  assert (Hk1 : files_kept (files w) (files w1))
    by (rewrite Hf1; apply files_kept_refl).
  unfold settled, attempt_inert.
  destruct (site url) as [[soup|]|e] eqn:Hsite.
  - destruct (extract_post_data env soup) as [data|e] eqn:Hex.
    + rewrite save_to_file_run, Hf1.
      rewrite bool_decide_eq_false_2 by exact Hmd.
      destruct (unwritable env (md_filepath self url)) eqn:Hum.
      * exists (Done None), w1. repeat split; auto; try discriminate.
      * rewrite save_to_html_file_run.
        cbn [files set_files].
        destruct (unwritable env (html_filepath self url)) eqn:Huh.
        -- eexists (Done None), _. split; [reflexivity|]. cbn.
           split; [apply files_kept_insert|].
           split; [exact Hj1|]. split; [exact Hi1|].
           split; [left; rewrite lookup_insert_eq; eauto|].
           split; [discriminate|]. intros r H. discriminate.
        -- eexists (Done (Some (post_record self url data))), _.
           split; [reflexivity|]. cbn.
           assert (Hin : is_Some
                     (<[html_filepath self url :=
                          html_page (md_to_html env (pd_md_content data))]>
                        (<[md_filepath self url := pd_md_content data]> (files w))
                      !! md_filepath self url)).
           { apply files_kept_insert. rewrite lookup_insert_eq. eauto. }
           split; [eapply files_kept_trans; apply files_kept_insert|].
           split; [exact Hj1|]. split; [exact Hi1|].
           split; [left; exact Hin|].
           split; [discriminate|]. intros r [= <-].
           split; [exact Hnone|]. split; [exact Hin|]. eauto.
    + exists (Done None), w1. repeat split; auto; try discriminate.
  - exists Continue, w1. repeat split; auto; try discriminate.
  - exists (Done None), w1. repeat split; auto; try discriminate.
Qed.

(** A turn at a settled post changes nothing on disk and adds no record. *)
Lemma try_post_settled (url : string) (w : World) :
  settled env site self url (files w) ->
  exists t w',
    try_post env g self url w = (Ok t, w') /\ same_disk w w' /\
    ((t = Continue /\ files w !! md_filepath self url = None /\
      site url = Ok None) \/
     t = Done None).
Proof.
  intros Hs. unfold try_post, try_except. rewrite process_post_unfold.
  destruct (bool_decide (is_Some (files w !! md_filepath self url))) eqn:Hmd.
  { exists (Done None), w. split; [reflexivity|].
    split; [apply same_disk_refl|]. right. reflexivity. }
  apply bool_decide_eq_false in Hmd.
  assert (Hnone : files w !! md_filepath self url = None).
  { destruct (files w !! md_filepath self url) eqn:E; [|reflexivity].
    destruct Hmd. eauto. }
  destruct Hs as [Hs|Hs]; [destruct (Hmd Hs)|].
  destruct (Hg url w) as (w1 & Hrun & Hd). rewrite Hrun.
  unfold attempt_inert in Hs.
  destruct (site url) as [[soup|]|e] eqn:Hsite.
  - destruct (extract_post_data env soup) as [data|e] eqn:Hex.
    + rewrite save_to_file_run. destruct Hd as (Hf1 & Hj1 & Hi1).
      rewrite Hf1, bool_decide_eq_false_2 by exact Hmd. rewrite Hs.
      exists (Done None), w1. split; [reflexivity|].
      split; [repeat split; assumption|]. right. reflexivity.
    + exists (Done None), w1. split; [reflexivity|]. split; [exact Hd|].
      right. reflexivity.
  - exists Continue, w1. split; [reflexivity|]. split; [exact Hd|].
    left. repeat split; [exact Hnone].
  - exists (Done None), w1. split; [reflexivity|]. split; [exact Hd|].
    right. reflexivity.
Qed.

End Turns.

(** ** The loop *)

Lemma try_post_total (env : Env) (g : string -> M (option Soup))
    (self : Scraper) (url : string) (w : World) :
  exists t w', try_post env g self url w = (Ok t, w').
Proof.
  unfold try_post, try_except.
  destruct (process_post env g self url w) as [[t|e] w']; eauto.
Qed.

Lemma scrape_loop_cons (env : Env) (g : string -> M (option Soup))
    (self : Scraper) (n : Z) (url : string) (rest : list string)
    (essays : list PostRecord) (count : Z) (w : World) :
  scrape_loop env g self n (url :: rest) essays count w =
  match try_post env g self url w with
  | (Ok Continue, w') => scrape_loop env g self n rest essays count w'
  | (Ok (Done record), w') =>
      let essays' :=
        match record with Some data => essays ++ [data] | None => essays end in
      if negb (n =? 0) && (count + 1 =? n) then (Ok essays', w')
      else scrape_loop env g self n rest essays' (count + 1) w'
  | (Raise e, w') => (Raise e, w')
  end.
Proof.
  cbn [scrape_loop]. unfold bind at 1.
  destruct (try_post env g self url w) as [[[|record]|e] w']; try reflexivity.
  cbv zeta. destruct (negb (n =? 0) && (count + 1 =? n)); reflexivity.
Qed.

Lemma scrape_loop_total (env : Env) (g : string -> M (option Soup))
    (self : Scraper) (n : Z) (urls : list string) :
  forall (essays : list PostRecord) (count : Z) (w : World),
  exists essays' w',
    scrape_loop env g self n urls essays count w = (Ok essays', w').
Proof.
  induction urls as [|url rest IH]; intros essays count w.
  - eexists _, _. reflexivity.
  - rewrite scrape_loop_cons.
    destruct (try_post_total env g self url w) as (t & w' & ->).
    destruct t as [|record]; [apply IH|].
    cbv zeta. destruct (negb (n =? 0) && (count + 1 =? n)); [|apply IH].
    eexists _, _. reflexivity.
Qed.

Section Passes.

Context (env : Env) (g : string -> M (option Soup))
        (site : string -> result (option Soup)) (self : Scraper) (n : Z).
Hypothesis Hg : source_determined g site.

Lemma scrape_loop_kept (urls : list string) :
  forall essays count w essays' w',
    scrape_loop env g self n urls essays count w = (Ok essays', w') ->
    files_kept (files w) (files w') /\
    json_index w' = json_index w /\ index_page w' = index_page w.
Proof.
  induction urls as [|url rest IH]; intros essays count w essays' w' Hrun.
  - injection Hrun as <- <-. split; [apply files_kept_refl|]. split; reflexivity.
  - rewrite scrape_loop_cons in Hrun.
    destruct (try_post_turn env g site self Hg url w)
      as (t & wa & Ht & Hk & Hj & Hi & _).
    rewrite Ht in Hrun.
    assert (Hrest : forall e c,
      scrape_loop env g self n rest e c wa = (Ok essays', w') ->
      files_kept (files w) (files w') /\
      json_index w' = json_index w /\ index_page w' = index_page w).
    { intros e c H. destruct (IH _ _ _ _ _ H) as (Hk' & Hj' & Hi').
      split; [eapply files_kept_trans; eassumption|].
      split; congruence. }
    destruct t as [|record]; [eapply Hrest; eassumption|].
    cbv zeta in Hrun.
    destruct (negb (n =? 0) && (count + 1 =? n)); [|eapply Hrest; eassumption].
    injection Hrun as <- <-. repeat split; assumption.
Qed.

(** A pass over URLs that an earlier pass has already gone over, on a disk
    that kept that pass's files, adds no record and changes nothing. *)
Lemma second_pass (urls : list string) :
  forall essays1 c1 w e1 w1 essays2 c2 w2,
    scrape_loop env g self n urls essays1 c1 w = (Ok e1, w1) ->
    files_kept (files w1) (files w2) ->
    0 <= c1 <= c2 -> (0 < n -> c2 < n) ->
    exists w2',
      scrape_loop env g self n urls essays2 c2 w2 = (Ok essays2, w2') /\
      same_disk w2 w2'.
Proof.
  induction urls as [|url rest IH];
    intros essays1 c1 w e1 w1 essays2 c2 w2 Hrun Hkept Hc Hn.
  - exists w2. split; [reflexivity | apply same_disk_refl].
  - rewrite scrape_loop_cons in Hrun. rewrite scrape_loop_cons.
    destruct (try_post_turn env g site self Hg url w)
      as (t1 & wa & Ht1 & Hka & _ & _ & Hsettled & Hclass & _).
    rewrite Ht1 in Hrun.
    (* the first pass kept the files of [wa] up to [w1] *)
    assert (Hka1 : files_kept (files wa) (files w1)).
    { destruct t1 as [|record].
      - exact (proj1 (scrape_loop_kept _ _ _ _ _ _ Hrun)).
      - cbv zeta in Hrun.
        destruct (negb (n =? 0) && (c1 + 1 =? n)).
        + injection Hrun as <- <-. apply files_kept_refl.
        + exact (proj1 (scrape_loop_kept _ _ _ _ _ _ Hrun)). }
    assert (Hs2 : settled env site self url (files w2)).
    { eapply settled_kept; [|exact Hsettled].
      eapply files_kept_trans; eassumption. }
    destruct (try_post_settled env g site self Hg url w2 Hs2)
      as (t2 & wb & Ht2 & Hdb & Hcase).
    rewrite Ht2.
    assert (Hkb : files_kept (files w1) (files wb)).
    { destruct Hdb as (-> & _). exact Hkept. }
    assert (Hfin : forall w2', same_disk wb w2' -> same_disk w2 w2').
    { intros w2'. apply same_disk_trans. exact Hdb. }
    destruct Hcase as [(-> & Hnone2 & Hsite) | ->].
    + (* the second pass says continue: so did the first *)
      assert (Hnone : files w !! md_filepath self url = None).
      { destruct (files w !! md_filepath self url) eqn:E; [|reflexivity].
        assert (His : is_Some (files w2 !! md_filepath self url)).
        { apply Hkept, Hka1, Hka. rewrite E. eauto. }
        rewrite Hnone2 in His. destruct His as [? ?]. discriminate. }
      rewrite (Hclass Hnone Hsite) in Hrun.
      destruct (IH _ _ _ _ _ essays2 c2 wb Hrun Hkb Hc Hn) as (w2' & Hr & Hd).
      exists w2'. split; [exact Hr | apply Hfin, Hd].
    + cbv zeta.
      destruct (negb (n =? 0) && (c2 + 1 =? n)) eqn:Hbreak2.
      * exists wb. split; [reflexivity | exact Hdb].
      * assert (Hn' : 0 < n -> c2 + 1 < n).
        { intros Hpos. specialize (Hn Hpos).
          apply andb_false_iff in Hbreak2 as [H|H].
          - apply negb_false_iff, Z.eqb_eq in H. lia.
          - apply Z.eqb_neq in H. lia. }
        destruct t1 as [|record].
        -- destruct (IH _ _ _ _ _ essays2 (c2 + 1) wb Hrun Hkb) as (w2' & Hr & Hd);
             [lia | exact Hn' |].
           exists w2'. split; [exact Hr | apply Hfin, Hd].
        -- cbv zeta in Hrun.
           destruct (negb (n =? 0) && (c1 + 1 =? n)) eqn:Hbreak1.
           ++ exfalso. apply andb_true_iff in Hbreak1 as [H0 H1].
              apply negb_true_iff, Z.eqb_neq in H0. apply Z.eqb_eq in H1.
              assert (0 < n) by lia. specialize (Hn' H). lia.
           ++ destruct (IH _ _ _ _ _ essays2 (c2 + 1) wb Hrun Hkb)
                as (w2' & Hr & Hd); [lia | exact Hn' |].
              exists w2'. split; [exact Hr | apply Hfin, Hd].
Qed.

End Passes.

(** ** Records of one pass are distinct *)

Lemma drop_prefix_app (p s : string) : drop_prefix p (p +:+ s) = Some s.
Proof.
  induction p as [|a p IH]; [reflexivity|].
  rewrite str_app_cons. cbn [drop_prefix]. unfold PyStr.eqb_char.
  rewrite Ascii.eqb_refl. exact IH.
Qed.

Lemma relpath_md (self : Scraper) (url : string) :
  well_formed self ->
  relpath (md_filepath self url) (base_output_dir self)
  = "markdown/" +:+ last_segment url +:+ ".md".
Proof.
  intros [Hwf _]. unfold relpath, md_filepath, path_join. rewrite Hwf.
  replace ((base_output_dir self +:+ "/markdown") +:+ "/" +:+ last_segment url +:+ ".md")
    with ((base_output_dir self +:+ "/") +:+ "markdown/" +:+ last_segment url +:+ ".md").
  - rewrite drop_prefix_app. reflexivity.
  - rewrite !str_app_assoc. reflexivity.
Qed.

Lemma relpath_md_inj (self : Scraper) (u u' : string) :
  well_formed self ->
  relpath (md_filepath self u) (base_output_dir self)
  = relpath (md_filepath self u') (base_output_dir self) ->
  md_filepath self u = md_filepath self u'.
Proof.
  intros Hwf. rewrite !relpath_md by exact Hwf. intros H.
  apply (inj (String.app "markdown/")) in H.
  unfold md_filepath, path_join. rewrite H. reflexivity.
Qed.

Section Distinct.

Context (env : Env) (g : string -> M (option Soup))
        (site : string -> result (option Soup)) (self : Scraper) (n : Z).
Hypothesis Hg : source_determined g site.
Hypothesis Hwf : well_formed self.

Lemma scrape_loop_nodup (urls : list string) :
  forall essays count w essays' w',
    scrape_loop env g self n urls essays count w = (Ok essays', w') ->
    NoDup essays -> linked self essays (files w) ->
    NoDup essays' /\ linked self essays' (files w').
Proof.
  induction urls as [|url rest IH]; intros essays count w essays' w' Hrun Hnd Hl.
  - injection Hrun as <- <-. split; assumption.
  - rewrite scrape_loop_cons in Hrun.
    destruct (try_post_turn env g site self Hg url w)
      as (t & wa & Ht & Hk & _ & _ & _ & _ & Hrec).
    rewrite Ht in Hrun.
    assert (Hla : linked self essays (files wa)).
    { intros r Hr. destruct (Hl r Hr) as (u & Hu & Hin).
      exists u. split; [exact Hu | apply Hk, Hin]. }
    destruct t as [|record]; [exact (IH _ _ _ _ _ Hrun Hnd Hla)|].
    cbv zeta in Hrun.
    assert (Hnew : NoDup (match record with
                          | Some data => essays ++ [data]
                          | None => essays
                          end) /\
                   linked self (match record with
                                | Some data => essays ++ [data]
                                | None => essays
                                end) (files wa)).
    { destruct record as [r|]; [|split; assumption].
      destruct (Hrec r eq_refl) as (Hnone & Hin & data & ->).
      split.
      - apply NoDup_app. split; [exact Hnd|]. split; [|apply NoDup_singleton].
        intros r Hr Hr'. apply list_elem_of_singleton in Hr'. subst r.
        destruct (Hl _ Hr) as (u & Hu & Hu').
        cbn [file_link post_record] in Hu.
        apply (relpath_md_inj self url u Hwf) in Hu.
        rewrite <- Hu, Hnone in Hu'. destruct Hu' as [? ?]. discriminate.
      - intros r Hr. apply elem_of_app in Hr as [Hr|Hr]; [apply Hla, Hr|].
        apply list_elem_of_singleton in Hr. subst r.
        exists url. split; [reflexivity | exact Hin]. }
    destruct Hnew as [Hnd' Hl'].
    destruct (negb (n =? 0) && (count + 1 =? n)).
    + injection Hrun as <- <-. split; assumption.
    + exact (IH _ _ _ _ _ Hrun Hnd' Hl').
Qed.

End Distinct.

Lemma merge_essays_data_nodup (existing : option (list PostRecord))
    (essays : list PostRecord) :
  match existing with Some l => NoDup l | None => True end ->
  NoDup essays -> NoDup (merge_essays_data existing essays).
Proof.
  intros Hex Hnd. destruct existing as [l|]; [|exact Hnd].
  cbn [merge_essays_data]. apply NoDup_app. split; [exact Hex|]. split.
  - intros r Hr Hr'. apply elem_of_filter_bool in Hr' as [_ Hr'].
    apply negb_true_iff, bool_decide_eq_false in Hr'. exact (Hr' Hr).
  - apply NoDup_ListNoDup, List.NoDup_filter, NoDup_ListNoDup, Hnd.
Qed.

(** ** Discovery and the constructor do not depend on the disk *)

Lemma get_all_post_urls_pure (env : Env) (base : string) (kws : list string) :
  exists r, forall v, exists v',
    get_all_post_urls env base kws v = (r, v') /\ same_disk v v'.
Proof.
  exists (fst (get_all_post_urls env base kws empty_world)). intros v.
  rewrite !get_all_post_urls_run, !fetch_urls_from_sitemap_run. cbv zeta.
  destruct (http_get env (base +:+ "sitemap.xml")) as [resp|].
  - assert (Hfeed : forall v0 v1,
      same_disk v v1 ->
      exists v',
        match fetch_urls_from_feed env base v1 with
        | (Ok urls, w2) => (filter_discovered urls kws, w2)
        | (Raise e, w2) => (Raise e, w2)
        end
        = (fst match fetch_urls_from_feed env base v0 with
               | (Ok urls, w2) => (filter_discovered urls kws, w2)
               | (Raise e, w2) => (Raise e, w2)
               end, v') /\ same_disk v v').
    { intros v0 v1 Hd. rewrite !fetch_urls_from_feed_run. cbv zeta.
      destruct (http_get env (base +:+ "feed.xml")) as [fresp|].
      - destruct (ok fresp); [destruct (xml fresp)|];
          (eexists; split; [reflexivity | exact Hd]).
      - eexists; split; [reflexivity | exact Hd]. }
    destruct (ok resp).
    + destruct (xml resp) as [root|].
      * destruct (sitemap_locs root) as [|u urls].
        -- apply Hfeed. repeat split.
        -- eexists. split; [reflexivity | repeat split].
      * eexists. split; [reflexivity | repeat split].
    + apply Hfeed. repeat split.
  - eexists. split; [reflexivity | repeat split].
Qed.

Lemma init_pure (env : Env) (base : string) :
  exists r,
    (forall self, r = Ok self -> well_formed self) /\
    forall v, exists v', init env base v = (r, v') /\ same_disk v v'.
Proof.
  unfold init.
  set (base' := if str_endswith "/" base then base else base +:+ "/").
  destruct (extract_main_part base') as [name|e] eqn:Hname.
  - destruct (get_all_post_urls_pure env base' default_keywords) as (r & Hr).
    destruct r as [urls|e].
    + eexists. split; [|intros v; destruct (Hr v) as (v' & Hrun & Hd);
        exists v'; split; [|exact Hd];
        unfold bind at 1; unfold lift at 1; unfold bind at 1; rewrite Hrun;
        reflexivity].
      intros self [= <-]. split; reflexivity.
    + exists (Raise e). split; [intros self H; discriminate|].
      intros v. destruct (Hr v) as (v' & Hrun & Hd).
      exists v'. split; [|exact Hd].
      unfold bind at 1. unfold lift at 1. unfold bind at 1. rewrite Hrun.
      reflexivity.
  - exists (Raise e). split; [intros self H; discriminate|].
    intros v. exists v. split; [reflexivity | apply same_disk_refl].
Qed.

(** ** [scrape_posts] after its loop *)

Lemma scrape_posts_run (env : Env) (g : string -> M (option Soup))
    (self : Scraper) (n : Z) (w : World) (essays : list PostRecord)
    (wl : World) :
  scrape_loop env g self n (post_urls self) [] 0 w = (Ok essays, wl) ->
  scrape_posts env g self n w =
  let merged := merge_essays_data (json_index wl) essays in
  let wj := set_json_index (Some merged) wl in
  match html_template env with
  | Some _ => (Ok tt, set_index_page (Some (writer_name self, merged)) wj)
  | None => (Raise (FileNotFoundError "author_template.html"), wj)
  end.
Proof.
  intros Hloop. unfold scrape_posts. unfold bind at 1. rewrite Hloop.
  unfold save_essays_data_to_json, generate_html_file. run_M.
  destruct (html_template env); reflexivity.
Qed.

(** ** Idempotence *)

Lemma try_post_checkpoint (env : Env) (g : string -> M (option Soup))
    (self : Scraper) (url : string) (w : World) :
  is_Some (files w !! md_filepath self url) ->
  try_post env g self url w = (Ok (Done None), w).
Proof.
  intros H. unfold try_post, try_except. rewrite process_post_unfold.
  rewrite bool_decide_eq_true_2 by exact H. reflexivity.
Qed.

Lemma index_nodup_same (w w' : World) :
  json_index w' = json_index w -> index_nodup w -> index_nodup w'.
Proof. unfold index_nodup. intros ->. auto. Qed.

(** C2. With an unchanged source, running the pipeline (discovery, the
    loop, the index) a second time on the disk the first run left changes
    no file, no index record and not the index page, and ends as the first
    run ended; an index without duplicates stays without duplicates.  The
    Markdown file is the checkpoint: when it is on disk the turn for that
    post ends at once whatever the fetcher, which is never called, and
    [save_to_file] on a path that exists changes nothing. *)
Theorem pipeline_idempotent (env : Env) (g : string -> M (option Soup))
    (site : string -> result (option Soup)) (base : string) (n : Z)
    (w : World) :
  source_determined g site ->
  exists r1 w1 r2 w2,
    run env g base n w = (r1, w1) /\
    run env g base n w1 = (r2, w2) /\
    r2 = r1 /\
    same_disk w1 w2 /\
    (index_nodup w -> index_nodup w1 /\ index_nodup w2) /\
    (forall (g' : string -> M (option Soup)) self url v,
       is_Some (files v !! md_filepath self url) ->
       try_post env g' self url v = (Ok (Done None), v)) /\
    (forall path content v,
       is_Some (files v !! path) ->
       save_to_file env path content v = (Ok tt, v)).
Proof.
  intros Hg.
  assert (Htail :
    (forall (g' : string -> M (option Soup)) self url v,
       is_Some (files v !! md_filepath self url) ->
       try_post env g' self url v = (Ok (Done None), v)) /\
    (forall path content v,
       is_Some (files v !! path) ->
       save_to_file env path content v = (Ok tt, v))).
  { split.
    - intros g' self url v H. apply try_post_checkpoint, H.
    - intros path content v H. rewrite save_to_file_run.
      rewrite bool_decide_eq_true_2 by exact H. reflexivity. }
  destruct (init_pure env base) as (r & Hwf & Hinit).
  destruct (Hinit w) as (wi & Hi & Hdi). unfold run.
  destruct r as [self|e].
  - specialize (Hwf self eq_refl).
    destruct (scrape_loop_total env g self n (post_urls self) [] 0 wi)
      as (essays & wl & Hloop).
    destruct (scrape_loop_kept env g site self n Hg _ _ _ _ _ _ Hloop)
      as (Hkl & Hjl & Hpl).
    pose proof (scrape_posts_run env g self n wi essays wl Hloop) as Hposts.
    cbv zeta in Hposts.
    set (merged := merge_essays_data (json_index wl) essays) in *.
    assert (Hnd : index_nodup w -> NoDup merged).
    { intros Hw. apply merge_essays_data_nodup.
      - rewrite Hjl. destruct Hdi as (_ & Hj & _). rewrite Hj. exact Hw.
      - destruct (scrape_loop_nodup env g site self n Hg Hwf _ _ _ _ _ _ Hloop)
          as [H _]; [constructor | intros r Hr; inversion Hr | exact H]. }
    (* the second run, from any state with the first run's files and index *)
    assert (Hsecond : forall w1,
      files w1 = files wl -> json_index w1 = Some merged ->
      exists wl2,
        (self <- init env base ;; scrape_posts env g self n)%M w1 =
        (let wj := set_json_index (Some merged) wl2 in
         match html_template env with
         | Some _ => (Ok tt, set_index_page (Some (writer_name self, merged)) wj)
         | None => (Raise (FileNotFoundError "author_template.html"), wj)
         end) /\
        files wl2 = files w1 /\ index_page wl2 = index_page w1).
    { intros w1 Hf1 Hj1.
      destruct (Hinit w1) as (wi2 & Hi2 & Hf2 & Hj2 & Hp2).
      unfold bind at 1. rewrite Hi2.
      destruct (second_pass env g site self n Hg _ _ _ _ _ _ [] 0 wi2 Hloop)
        as (wl2 & Hloop2 & Hfl2 & Hjl2 & Hpl2).
      - rewrite Hf2, Hf1. apply files_kept_refl.
      - lia.
      - auto.
      - exists wl2. split.
        + rewrite (scrape_posts_run env g self n wi2 [] wl2 Hloop2).
          rewrite Hjl2, Hj2, Hj1. cbn [merge_essays_data List.filter].
          rewrite app_nil_r. reflexivity.
        + split; congruence. }
    unfold bind at 1. rewrite Hi, Hposts.
    destruct (html_template env) as [tpl|] eqn:Htpl.
    + destruct (Hsecond (set_index_page (Some (writer_name self, merged))
                           (set_json_index (Some merged) wl)) eq_refl eq_refl)
        as (wl2 & Hrun2 & Hfl2 & Hpl2).
      eexists _, _, _, _. split; [reflexivity|]. split; [exact Hrun2|].
      split; [reflexivity|]. split; [repeat split; exact Hfl2|].
      split; [|exact Htail].
      intros Hw. split; exact (Hnd Hw).
    + destruct (Hsecond (set_json_index (Some merged) wl) eq_refl eq_refl)
        as (wl2 & Hrun2 & Hfl2 & Hpl2).
      eexists _, _, _, _. split; [reflexivity|]. split; [exact Hrun2|].
      split; [reflexivity|]. split; [repeat split; assumption|].
      split; [|exact Htail].
      intros Hw. split; exact (Hnd Hw).
  - destruct (Hinit wi) as (wi2 & Hi2 & Hdi2).
    exists (Raise e), wi, (Raise e), wi2.
    split; [unfold bind; rewrite Hi; reflexivity|].
    split; [unfold bind; rewrite Hi2; reflexivity|].
    split; [reflexivity|]. split; [exact Hdi2|]. split; [|exact Htail].
    intros Hw. destruct Hdi as (_ & Hj & _). destruct Hdi2 as (_ & Hj2 & _).
    split.
    + exact (index_nodup_same _ _ Hj Hw).
    + apply (index_nodup_same w wi2); [congruence | exact Hw].
Qed.

Lemma substack_source_determined (env : Env) :
  source_determined (SubstackScraper_get_url_soup env) (anonymous_site env).
Proof.
  intros url w. unfold SubstackScraper_get_url_soup, anonymous_site, requests_get.
  run_M. destruct (http_get env url) as [page|].
  - cbn. destruct (find_class (html page) "h2" "paywall-title");
      (eexists; split; [reflexivity | repeat split]).
  - eexists; split; [reflexivity | repeat split].
Qed.

Lemma pipeline_idempotent_witness :
  let env := sample_env sample_site in
  exists w1 w2,
    run env (SubstackScraper_get_url_soup env) "https://x.substack.com" 0
      empty_world = (Ok tt, w1) /\
    run env (SubstackScraper_get_url_soup env) "https://x.substack.com" 0 w1
      = (Ok tt, w2) /\
    same_disk w1 w2 /\ index_nodup w2.
Proof.
  intros env.
  destruct (pipeline_idempotent env (SubstackScraper_get_url_soup env)
              (anonymous_site env) "https://x.substack.com" 0 empty_world
              (substack_source_determined env))
    as (r1 & w1 & r2 & w2 & H1 & H2 & -> & Hd & Hnd & _).
  assert (Hr : fst (run env (SubstackScraper_get_url_soup env)
                      "https://x.substack.com" 0 empty_world) = Ok tt)
    by (vm_compute; reflexivity).
  rewrite H1 in Hr. cbn [fst] in Hr. subst r1.
  exists w1, w2. split; [exact H1|]. split; [exact H2|]. split; [exact Hd|].
  apply Hnd. exact I.
Defined.

(** ** Failures stay inside their turn *)

Lemma md_html_distinct (self : Scraper) (u u' : string) :
  well_formed self -> md_filepath self u <> html_filepath self u'.
Proof.
  intros [Hm Hh]. unfold md_filepath, html_filepath, path_join.
  rewrite Hm, Hh, !str_app_assoc. intros H.
  apply (inj (String.app (base_output_dir self))) in H. discriminate.
Qed.

Section Isolation.

Context (env : Env) (g : string -> M (option Soup))
        (site : string -> result (option Soup)) (self : Scraper).
Hypothesis Hg : source_determined g site.

Lemma try_post_fresh (url : string) (soup : Soup) (data : PostData) (w : World) :
  files w !! md_filepath self url = None ->
  site url = Ok (Some soup) -> extract_post_data env soup = Ok data ->
  unwritable env (md_filepath self url) = false ->
  unwritable env (html_filepath self url) = false ->
  exists w',
    try_post env g self url w = (Ok (Done (Some (post_record self url data))), w') /\
    json_index w' = json_index w /\
    (forall p, p <> md_filepath self url -> p <> html_filepath self url ->
               files w' !! p = files w !! p).
Proof.
  intros Hnone Hsite Hex Hum Huh.
  unfold try_post, try_except. rewrite process_post_unfold.
  rewrite bool_decide_eq_false_2
    by (rewrite Hnone; intros [? ?]; discriminate).
  destruct (Hg url w) as (w1 & Hrun & Hf1 & Hj1 & _).
  rewrite Hrun, Hsite, Hex, save_to_file_run, Hf1.
  rewrite bool_decide_eq_false_2
    by (rewrite Hnone; intros [? ?]; discriminate).
  rewrite Hum, save_to_html_file_run, Huh.
  eexists. split; [reflexivity|]. cbn. split; [exact Hj1|].
  intros p Hp1 Hp2. rewrite !lookup_insert_ne by congruence. reflexivity.
Qed.

Lemma try_post_extract_raises (url : string) (soup : Soup) (e : exn) (w : World) :
  site url = Ok (Some soup) -> extract_post_data env soup = Raise e ->
  exists w', try_post env g self url w = (Ok (Done None), w') /\ same_disk w w'.
Proof.
  intros Hsite Hex. unfold try_post, try_except. rewrite process_post_unfold.
  destruct (bool_decide _).
  - exists w. split; [reflexivity | apply same_disk_refl].
  - destruct (Hg url w) as (w1 & Hrun & Hd). rewrite Hrun, Hsite, Hex.
    exists w1. split; [reflexivity | exact Hd].
Qed.

End Isolation.

(** C1. In [scrape_posts], for every list of post URLs and every fetcher:
    a turn of the loop never ends in an exception; when fetching,
    extraction or persistence raises, the turn ends as a skip, counted, and
    the loop goes on with the next URL; the loop as a whole never raises,
    and the batch call raises only when the index page cannot be generated
    after the loop (no template), never because of a post.  In particular,
    with three posts not yet on disk under distinct names, no index yet,
    no limit below three, and the extraction of the second raising, the
    call returns normally and the index holds exactly the records of the
    first and third posts. *)
Theorem partial_failure_isolation (env : Env) (g : string -> M (option Soup))
    (self : Scraper) (n : Z) (w : World) :
  (forall url v, exists t v', try_post env g self url v = (Ok t, v')) /\
  (forall url v e v',
     process_post env g self url v = (Raise e, v') ->
     try_post env g self url v = (Ok (Done None), v')) /\
  (forall url rest essays count v e v',
     process_post env g self url v = (Raise e, v') ->
     scrape_loop env g self n (url :: rest) essays count v =
     if negb (n =? 0) && (count + 1 =? n) then (Ok essays, v')
     else scrape_loop env g self n rest essays (count + 1) v') /\
  (exists essays w',
     scrape_loop env g self n (post_urls self) [] 0 w = (Ok essays, w')) /\
  (exists r w',
     scrape_posts env g self n w = (r, w') /\
     (r = Ok tt \/
      (r = Raise (FileNotFoundError "author_template.html") /\
       html_template env = None)) /\
     (is_Some (html_template env) -> r = Ok tt)) /\
  (forall site u1 u2 u3 s1 s2 s3 d1 d3 e2,
     source_determined g site -> well_formed self ->
     post_urls self = [u1; u2; u3] -> (n = 0 \/ 3 <= n) ->
     is_Some (html_template env) ->
     site u1 = Ok (Some s1) -> extract_post_data env s1 = Ok d1 ->
     site u2 = Ok (Some s2) -> extract_post_data env s2 = Raise e2 ->
     site u3 = Ok (Some s3) -> extract_post_data env s3 = Ok d3 ->
     files w !! md_filepath self u1 = None ->
     files w !! md_filepath self u3 = None ->
     md_filepath self u1 <> md_filepath self u3 ->
     unwritable env (md_filepath self u1) = false ->
     unwritable env (html_filepath self u1) = false ->
     unwritable env (md_filepath self u3) = false ->
     unwritable env (html_filepath self u3) = false ->
     json_index w = None ->
     exists w',
       scrape_posts env g self n w = (Ok tt, w') /\
       json_index w' = Some [post_record self u1 d1; post_record self u3 d3]).
Proof.
  assert (Hskip : forall url v e v',
     process_post env g self url v = (Raise e, v') ->
     try_post env g self url v = (Ok (Done None), v')).
  { intros url v e v' H. unfold try_post, try_except. rewrite H. reflexivity. }
  split; [intros url v; apply try_post_total|]. split; [exact Hskip|].
  split.
  { intros url rest essays count v e v' H.
    rewrite scrape_loop_cons, (Hskip _ _ _ _ H). reflexivity. }
  split; [apply scrape_loop_total|]. split.
  { destruct (scrape_loop_total env g self n (post_urls self) [] 0 w)
      as (essays & wl & Hloop).
    rewrite (scrape_posts_run env g self n w essays wl Hloop). cbv zeta.
    destruct (html_template env) as [tpl|].
    - eexists _, _. split; [reflexivity|]. split; [left; reflexivity|].
      reflexivity.
    - eexists _, _. split; [reflexivity|]. split; [right; split; reflexivity|].
      intros [? ?]. discriminate. }
  intros site u1 u2 u3 s1 s2 s3 d1 d3 e2 Hg Hwf Hurls Hn [tpl Htpl]
         Hs1 Hx1 Hs2 Hx2 Hs3 Hx3 Hn1 Hn3 Hne Hu1 Hu1' Hu3 Hu3' Hj.
  destruct (try_post_fresh env g site self Hg u1 s1 d1 w Hn1 Hs1 Hx1 Hu1 Hu1')
    as (w1 & Ht1 & Hj1 & Hf1).
  destruct (try_post_extract_raises env g site self Hg u2 s2 e2 w1 Hs2 Hx2)
    as (w2 & Ht2 & Hf2 & Hj2 & _).
  assert (Hn3' : files w2 !! md_filepath self u3 = None).
  { rewrite Hf2, Hf1; [exact Hn3 | congruence |].
    apply md_html_distinct, Hwf. }
  destruct (try_post_fresh env g site self Hg u3 s3 d3 w2 Hn3' Hs3 Hx3 Hu3 Hu3')
    as (w3 & Ht3 & Hj3 & _).
  assert (Hloop : scrape_loop env g self n (post_urls self) [] 0 w
                  = (Ok [post_record self u1 d1; post_record self u3 d3], w3)).
  { rewrite Hurls, scrape_loop_cons, Ht1. cbv zeta.
    replace (negb (n =? 0) && (0 + 1 =? n)) with false
      by (symmetry; apply andb_false_iff; right; apply Z.eqb_neq; lia).
    rewrite scrape_loop_cons, Ht2. cbv zeta.
    replace (negb (n =? 0) && (0 + 1 + 1 =? n)) with false
      by (symmetry; apply andb_false_iff; right; apply Z.eqb_neq; lia).
    rewrite scrape_loop_cons, Ht3. cbv zeta.
    destruct (negb (n =? 0) && (0 + 1 + 1 + 1 =? n)); reflexivity. }
  rewrite (scrape_posts_run env g self n w _ w3 Hloop), Htpl. cbv zeta.
  eexists. split; [reflexivity|]. cbn.
  rewrite Hj3, Hj2, Hj1, Hj. reflexivity.
Qed.

Lemma partial_failure_isolation_witness :
  let env := sample_env three_posts_site in
  let self := sample_self ["https://x.substack.com/p/one";
                           "https://x.substack.com/p/two";
                           "https://x.substack.com/p/three"] in
  exists w',
    scrape_posts env (SubstackScraper_get_url_soup env) self 0 empty_world
    = (Ok tt, w') /\
    json_index w' =
      Some [post_record self "https://x.substack.com/p/one" (sample_data "One");
            post_record self "https://x.substack.com/p/three" (sample_data "Three")].
Proof.
  intros env self.
  destruct (partial_failure_isolation env (SubstackScraper_get_url_soup env)
              self 0 empty_world) as (_ & _ & _ & _ & _ & Hthree).
  apply (Hthree (anonymous_site env)
           "https://x.substack.com/p/one" "https://x.substack.com/p/two"
           "https://x.substack.com/p/three"
           (sample_post "One") sample_broken_post (sample_post "Three")
           (sample_data "One") (sample_data "Three") AttributeError).
  - apply substack_source_determined.
  - split; reflexivity.
  - reflexivity.
  - left. reflexivity.
  - eexists. reflexivity.
  - reflexivity.
  - reflexivity.
  - reflexivity.
  - reflexivity.
  - reflexivity.
  - reflexivity.
  - reflexivity.
  - reflexivity.
  - vm_compute. discriminate.
  - reflexivity.
  - reflexivity.
  - reflexivity.
  - reflexivity.
  - reflexivity.
Defined.

(** ** Failed fetches *)

(** C4 (amended). When the request or the navigation itself fails, the
    fetch operation raises its error rather than returning a document or
    the skip signal [None]; in [scrape_posts] that error is caught at the
    end of the turn like any other: the post is skipped with no record,
    the turn is counted, and the loop goes on with the next URL. *)
Theorem fetch_failure_is_skipped (env : Env) (self : Scraper) (n : Z)
    (url : string) (w : World) :
  (http_get env url = None ->
   SubstackScraper_get_url_soup env url w
   = (Raise fetch_error, log_event (EvRequest url) w)) /\
  (driver_get_ok env url = false ->
   PremiumSubstackScraper_get_url_soup env url w
   = (Raise fetch_error, log_event (EvNavigate url) w)) /\
  (forall (g : string -> M (option Soup)) e w1 rest essays count,
     files w !! md_filepath self url = None ->
     g url w = (Raise e, w1) ->
     try_post env g self url w = (Ok (Done None), w1) /\
     scrape_loop env g self n (url :: rest) essays count w =
     if negb (n =? 0) && (count + 1 =? n) then (Ok essays, w1)
     else scrape_loop env g self n rest essays (count + 1) w1).
Proof.
  split; [|split].
  - intros H. unfold SubstackScraper_get_url_soup, requests_get. run_M.
    rewrite H. reflexivity.
  - intros H. unfold PremiumSubstackScraper_get_url_soup, driver_get. run_M.
    rewrite H. reflexivity.
  - intros g e w1 rest essays count Hnone Hg.
    assert (Ht : try_post env g self url w = (Ok (Done None), w1)).
    { unfold try_post, try_except. rewrite process_post_unfold.
      rewrite bool_decide_eq_false_2
        by (rewrite Hnone; intros [? ?]; discriminate).
      rewrite Hg. reflexivity. }
    split; [exact Ht|]. rewrite scrape_loop_cons, Ht. reflexivity.
Qed.

Lemma fetch_failure_is_skipped_witness :
  let env := sample_env flaky_site in
  let self := sample_self ["https://x.substack.com/p/one";
                           "https://x.substack.com/p/two"] in
  try_post env (SubstackScraper_get_url_soup env) self
    "https://x.substack.com/p/one" empty_world
  = (Ok (Done None),
     log_event (EvRequest "https://x.substack.com/p/one") empty_world).
Proof.
  intros env self.
  destruct (fetch_failure_is_skipped env self 0
              "https://x.substack.com/p/one" empty_world) as (Hraise & _ & Hskip).
  destruct (Hskip (SubstackScraper_get_url_soup env) fetch_error
              (log_event (EvRequest "https://x.substack.com/p/one") empty_world)
              [] [] 0 eq_refl (Hraise eq_refl)) as [Ht _].
  exact Ht.
Defined.

(** C4, as first stated, fails: the request for the first post fails at
    the network level and the fetch raises, yet nothing leaves the turn;
    [scrape_posts] returns normally and the second post is scraped and
    indexed. *)
Lemma fetch_hard_error_counterexample :
  let env := sample_env flaky_site in
  let self := sample_self ["https://x.substack.com/p/one";
                           "https://x.substack.com/p/two"] in
  let run := scrape_posts env (SubstackScraper_get_url_soup env) self 0
               empty_world in
  fst (SubstackScraper_get_url_soup env "https://x.substack.com/p/one"
         empty_world) = Raise fetch_error /\
  fst run = Ok tt /\
  json_index (snd run)
  = Some [post_record self "https://x.substack.com/p/two" (sample_data "Two")].
Proof. repeat split; vm_compute; reflexivity. Qed.

(** * Further properties of the code *)

(** ** [filter_urls]: composition and the empty keyword *)

Lemma filter_filter_and {A} (p q : A -> bool) (l : list A) :
  List.filter q (List.filter p l) = List.filter (fun x => p x && q x) l.
Proof.
  induction l as [|x l IH]; [reflexivity|]. cbn.
  destruct (p x); cbn; [destruct (q x); cbn; rewrite IH; reflexivity | exact IH].
Qed.

(** X1. Filtering with two keyword lists one after the other is filtering
    with both at once; so filtering twice with the same keywords is
    filtering once, and an empty keyword list keeps every URL. *)
Theorem filter_urls_compose (urls kws1 kws2 : list string) :
  filter_urls (filter_urls urls kws1) kws2 = filter_urls urls (kws1 ++ kws2) /\
  filter_urls (filter_urls urls kws1) kws1 = filter_urls urls kws1 /\
  filter_urls urls [] = urls.
Proof.
  unfold filter_urls. split; [|split].
  - rewrite filter_filter_and. apply filter_ext. intros u.
    rewrite forallb_app. reflexivity.
  - rewrite filter_filter_and. apply filter_ext. intros u.
    destruct (forallb _ kws1); reflexivity.
  - induction urls as [|u urls IH]; [reflexivity|]. cbn. f_equal. exact IH.
Qed.

(** X2. A keyword list that contains the empty string filters out every
    URL, since the empty string occurs in every string. *)
Theorem filter_urls_empty_keyword (urls kws : list string) :
  "" ∈ kws -> filter_urls urls kws = [].
Proof.
  intros Hin. unfold filter_urls.
  assert (Hall : forall u,
            forallb (fun keyword => negb (PyStr.contains keyword u)) kws = false).
  { intros u. apply not_true_is_false. intros H.
    rewrite forallb_forall in H. apply list_elem_of_In in Hin.
    specialize (H "" Hin). destruct u; discriminate. }
  induction urls as [|u urls IH]; [reflexivity|]. cbn. rewrite Hall. exact IH.
Qed.

Lemma filter_urls_empty_keyword_witness :
  filter_urls ["https://x.substack.com/p/hello"] ["about"; ""] = [].
Proof. apply filter_urls_empty_keyword. set_solver. Defined.

(** ** [get_filename_from_url] *)

Lemma split_app_sep_gen (sep : ascii) (a b : string) :
  PyStr.split sep (a +:+ String sep b) = PyStr.split sep a ++ PyStr.split sep b.
Proof.
  induction a as [|c a IH].
  - change ("" +:+ String sep b) with (String sep b). cbn.
    unfold PyStr.eqb_char. rewrite Ascii.eqb_refl. reflexivity.
  - rewrite str_app_cons. cbn [PyStr.split]. rewrite IH.
    destruct (PyStr.eqb_char c sep); [reflexivity|].
    pose proof (split_nonempty sep a) as Hne.
    destruct (PyStr.split sep a) as [|w ws]; [destruct (Hne eq_refl)|].
    reflexivity.
Qed.

Lemma last_segment_slug (pre slug : string) :
  PyStr.mem_char "/" slug = false ->
  last_segment (pre +:+ "/" +:+ slug) = slug.
Proof.
  intros Hslug. unfold last_segment.
  change ("/" +:+ slug) with (String "/" slug).
  rewrite split_app_sep_gen, (split_no_sep _ _ Hslug). apply last_last.
Qed.

(** X3. [get_filename_from_url] never raises; for a URL whose part after
    the last slash is [slug] it gives [slug] followed by the file type, a
    file type given without its dot getting one; so a URL that ends in a
    slash gives the bare file type as the name. *)
Theorem get_filename_from_url_slug (pre slug filetype : string) :
  PyStr.mem_char "/" slug = false ->
  get_filename_from_url (pre +:+ "/" +:+ slug) filetype =
    Ok (slug +:+ (if PyStr.startswith "." filetype then filetype
                  else "." +:+ filetype)) /\
  get_filename_from_url (pre +:+ "/" +:+ slug) "md" =
    get_filename_from_url (pre +:+ "/" +:+ slug) ".md" /\
  get_filename_from_url (pre +:+ "/") ".md" = Ok ".md" /\
  (forall url, exists name, get_filename_from_url url filetype = Ok name).
Proof.
  intros Hslug.
  assert (Hgen : forall url ft,
    get_filename_from_url url ft =
    Ok (last_segment url +:+ (if PyStr.startswith "." ft then ft else "." +:+ ft))).
  { intros url ft. destruct (PyStr.startswith "." ft) eqn:Hft.
    - apply get_filename_from_url_last, Hft.
    - unfold get_filename_from_url. rewrite Hft.
      change (get_filename_from_url url ("." +:+ ft)
              = Ok (last_segment url +:+ "." +:+ ft)).
      apply get_filename_from_url_last. reflexivity. }
  split; [|split; [|split]].
  - rewrite Hgen, last_segment_slug by exact Hslug. reflexivity.
  - rewrite !Hgen. reflexivity.
  - rewrite Hgen. change (pre +:+ "/") with (pre +:+ "/" +:+ "").
    rewrite last_segment_slug by reflexivity. reflexivity.
  - intros url. eexists. apply Hgen.
Qed.

Lemma get_filename_from_url_slug_witness :
  get_filename_from_url "https://x.substack.com/p/my-essay-title" ".md"
  = Ok "my-essay-title.md" /\
  get_filename_from_url "https://x.substack.com/p/my-essay-title" "html"
  = Ok "my-essay-title.html".
Proof.
  split.
  - apply (get_filename_from_url_slug "https://x.substack.com/p"
             "my-essay-title" ".md"). reflexivity.
  - apply (get_filename_from_url_slug "https://x.substack.com/p"
             "my-essay-title" "html"). reflexivity.
Defined.

(** ** Posts that share their last path segment *)

Lemma try_post_record_on_disk (env : Env) (g : string -> M (option Soup))
    (self : Scraper) (url : string) (w w' : World) (r : PostRecord) :
  try_post env g self url w = (Ok (Done (Some r)), w') ->
  is_Some (files w' !! md_filepath self url).
Proof.
  unfold try_post, try_except. rewrite process_post_unfold.
  destruct (bool_decide _); [intros [= <-]; discriminate|].
  destruct (g url w) as [[[soup|]|e] w1]; try (intros H; discriminate).
  destruct (extract_post_data env soup) as [data|e]; [|intros H; discriminate].
  rewrite save_to_file_run.
  destruct (bool_decide (is_Some (files w1 !! md_filepath self url))) eqn:Hmd.
  - apply bool_decide_eq_true in Hmd. rewrite save_to_html_file_run.
    destruct (unwritable env (html_filepath self url)); [intros H; discriminate|].
    intros [= _ <-]. cbn. apply files_kept_insert, Hmd.
  - destruct (unwritable env (md_filepath self url)); [intros H; discriminate|].
    rewrite save_to_html_file_run.
    destruct (unwritable env (html_filepath self url)); [intros H; discriminate|].
    intros [= _ <-]. cbn. apply files_kept_insert.
    rewrite lookup_insert_eq. eauto.
Qed.

(** X4. Two post URLs with the same last path segment share their
    Markdown file: once the first has been scraped, the turn for the second
    ends at once, without a fetch, a file or a record, whatever the fetcher
    would have returned.  (All URLs that end in a slash share the segment
    that is empty.) *)
Theorem same_segment_is_skipped (env : Env) (g g' : string -> M (option Soup))
    (self : Scraper) (url url' : string) (w w' : World) (r : PostRecord) :
  last_segment url = last_segment url' ->
  try_post env g self url w = (Ok (Done (Some r)), w') ->
  md_filepath self url' = md_filepath self url /\
  try_post env g' self url' w' = (Ok (Done None), w').
Proof.
  intros Hseg Hrun.
  assert (Hmd : md_filepath self url' = md_filepath self url)
    by (unfold md_filepath; rewrite Hseg; reflexivity).
  split; [exact Hmd|]. apply try_post_checkpoint. rewrite Hmd.
  eapply try_post_record_on_disk, Hrun.
Qed.

Lemma same_segment_is_skipped_witness :
  let env := sample_env three_posts_site in
  let self := sample_self [] in
  let w' := snd (try_post env (SubstackScraper_get_url_soup env) self
                   "https://x.substack.com/p/one" empty_world) in
  try_post env (SubstackScraper_get_url_soup env) self
    "https://x.substack.com/archive/one" w'
  = (Ok (Done None), w').
Proof.
  intros env self w'.
  eapply (same_segment_is_skipped env (SubstackScraper_get_url_soup env)
            (SubstackScraper_get_url_soup env) self
            "https://x.substack.com/p/one" "https://x.substack.com/archive/one"
            empty_world w'
            (post_record self "https://x.substack.com/p/one" (sample_data "One"))).
  - reflexivity.
  - vm_compute. reflexivity.
Defined.

(** ** [save_to_file] and [save_to_html_file] *)

Lemma str_length_app (a b : string) :
  String.length (a +:+ b) = (String.length a + String.length b)%nat.
Proof.
  induction a as [|c a IH]; [reflexivity|].
  rewrite str_app_cons. cbn [String.length]. rewrite IH. reflexivity.
Qed.

Lemma str_app_inv_r (a b s : string) : a +:+ s = b +:+ s -> a = b.
Proof.
  revert b. induction a as [|c a IH]; intros b H.
  - destruct b as [|d b]; [reflexivity|].
    apply (f_equal String.length) in H.
    rewrite !str_length_app in H. cbn in H. lia.
  - destruct b as [|d b].
    + apply (f_equal String.length) in H.
      rewrite !str_length_app in H. cbn in H. lia.
    + rewrite !str_app_cons in H. injection H as -> H.
      f_equal. apply IH, H.
Qed.

Lemma html_page_shape (content : string) :
  html_page content = html_page_head +:+ content +:+ html_page_tail.
Proof. reflexivity. Qed.

(** X5. The first write wins: [save_to_file] on a path that is absent and
    writable stores the content and touches no other path, and a later
    [save_to_file] on that path, with whatever content, changes nothing. *)
Theorem save_to_file_first_write_wins (env : Env) (path c1 c2 : string)
    (w : World) :
  files w !! path = None -> unwritable env path = false ->
  exists w1,
    save_to_file env path c1 w = (Ok tt, w1) /\
    files w1 !! path = Some c1 /\
    (forall q, q <> path -> files w1 !! q = files w !! q) /\
    json_index w1 = json_index w /\
    save_to_file env path c2 w1 = (Ok tt, w1).
Proof.
  intros Hnone Hw. rewrite save_to_file_run, Hw.
  rewrite bool_decide_eq_false_2 by (rewrite Hnone; intros [? ?]; discriminate).
  exists (set_files (<[path := c1]> (files w)) w). split; [reflexivity|].
  split; [apply lookup_insert_eq|]. split.
  - intros q Hq. apply lookup_insert_ne. congruence.
  - split; [reflexivity|]. rewrite save_to_file_run.
    rewrite bool_decide_eq_true_2; [reflexivity|].
    cbn. rewrite lookup_insert_eq. eauto.
Qed.

Lemma save_to_file_first_write_wins_witness :
  exists w1,
    save_to_file (sample_env (fun _ => None)) "a.md" "first" empty_world
    = (Ok tt, w1) /\
    files w1 !! "a.md" = Some "first" /\
    save_to_file (sample_env (fun _ => None)) "a.md" "second" w1 = (Ok tt, w1).
Proof.
  destruct (save_to_file_first_write_wins (sample_env (fun _ => None))
              "a.md" "first" "second" empty_world eq_refl eq_refl)
    as (w1 & H1 & H2 & _ & _ & H3).
  exists w1. split; [exact H1|]. split; [exact H2 | exact H3].
Defined.

(** X6. [save_to_html_file], unlike [save_to_file], writes over what is
    there.  For the HTML file of a post, in a publication laid out by the
    constructor: after two writes to a writable path the file holds the
    page of the second content, and no other path is touched, so no
    Markdown file of the publication; the page wraps the content between a
    fixed head and tail, so it determines the content; on an unwritable
    path the call raises and changes nothing. *)
Theorem save_to_html_file_overwrites (env : Env) (self : Scraper)
    (url c1 c2 : string) (w : World) :
  well_formed self -> base_output_dir self <> "" ->
  (unwritable env (html_filepath self url) = false ->
   exists w1 w2,
     save_to_html_file env (html_filepath self url) c1 w = (Ok tt, w1) /\
     save_to_html_file env (html_filepath self url) c2 w1 = (Ok tt, w2) /\
     files w2 !! html_filepath self url = Some (html_page c2) /\
     (forall q, q <> html_filepath self url -> files w2 !! q = files w !! q) /\
     (forall url', files w2 !! md_filepath self url'
                   = files w !! md_filepath self url')) /\
  (unwritable env (html_filepath self url) = true ->
   save_to_html_file env (html_filepath self url) c1 w
   = (Raise (OSError (html_filepath self url)), w)) /\
  (html_page c1 = html_page c2 -> c1 = c2).
Proof.
  intros Hwf _. split; [|split].
  - intros Hw. rewrite !save_to_html_file_run, Hw.
    eexists _, _. split; [reflexivity|].
    rewrite save_to_html_file_run, Hw. split; [reflexivity|]. cbn.
    split; [apply lookup_insert_eq|].
    assert (Hq : forall q, q <> html_filepath self url ->
      <[html_filepath self url := html_page c2]>
        (<[html_filepath self url := html_page c1]> (files w)) !! q
      = files w !! q).
    { intros q Hq. rewrite !lookup_insert_ne by congruence. reflexivity. }
    split; [exact Hq|].
    intros url'. apply Hq, md_html_distinct, Hwf.
  - intros Hw. rewrite save_to_html_file_run, Hw. reflexivity.
  - rewrite !html_page_shape. intros H.
    apply (inj (String.app html_page_head)) in H.
    apply str_app_inv_r in H. exact H.
Qed.

Lemma save_to_html_file_overwrites_witness :
  let self := sample_self [] in
  exists w1 w2,
    save_to_html_file (sample_env (fun _ => None))
      "substacks/x/html/one.html" "one" empty_world = (Ok tt, w1) /\
    save_to_html_file (sample_env (fun _ => None))
      "substacks/x/html/one.html" "two" w1 = (Ok tt, w2) /\
    files w2 !! "substacks/x/html/one.html" = Some (html_page "two").
Proof.
  intros self.
  destruct (save_to_html_file_overwrites (sample_env (fun _ => None)) self
              "https://x.substack.com/p/one" "one" "two" empty_world)
    as (H & _).
  - split; reflexivity.
  - discriminate.
  - destruct (H eq_refl) as (w1 & w2 & H1 & H2 & H3 & _).
    exists w1, w2. split; [exact H1|]. split; [exact H2 | exact H3].
Defined.

(** ** [extract_post_data]: failure, fields, white space *)

(** X7. Extraction fails for exactly one reason: the document has no title
    element ([h1.post-title] or [h2]); the error is then the attribute
    error of reading the text of [None].  A missing subtitle, date, like
    count or content container never makes it fail. *)
Theorem extract_post_data_fails_iff (env : Env) (soup : Soup) :
  (select_one soup sel_title = None ->
   extract_post_data env soup = Raise AttributeError) /\
  (forall e, extract_post_data env soup = Raise e ->
             select_one soup sel_title = None /\ e = AttributeError) /\
  (forall t, select_one soup sel_title = Some t ->
             exists data, extract_post_data env soup = Ok data).
Proof.
  unfold extract_post_data.
  destruct (select_one soup sel_title) as [t|]; cbn [text_of rbind].
  - split; [discriminate|]. split; [intros e H; discriminate|].
    intros t' _. eexists. reflexivity.
  - split; [reflexivity|]. split; [|intros t H; discriminate].
    intros e [= <-]. split; reflexivity.
Qed.

Lemma extract_post_data_fails_iff_witness :
  extract_post_data (sample_env (fun _ => None)) sample_broken_post
  = Raise AttributeError.
Proof.
  apply (extract_post_data_fails_iff (sample_env (fun _ => None))
           sample_broken_post).
  reflexivity.
Defined.

(** X8. The like count of an extracted post always passes
    [str.isdigit()]: it is a non-empty run of digits, whatever the page
    shows. *)
Theorem extract_post_data_like_count_digits (env : Env) (soup : Soup)
    (data : PostData) :
  extract_post_data env soup = Ok data ->
  PyStr.isdigit (pd_like_count data) = true.
Proof.
  unfold extract_post_data.
  destruct (select_one soup sel_title) as [t|]; cbn [text_of rbind];
    [|discriminate].
  intros [= <-]. cbn [pd_like_count].
  destruct (select_one soup sel_like_count) as [e|]; [|reflexivity].
  destruct (PyStr.isdigit (PyStr.strip (text e))) eqn:Hd;
    [exact Hd | reflexivity].
Qed.

Lemma extract_post_data_like_count_digits_witness :
  let two := String (ascii_of_nat 178) "" in
  let soup :=
    [Elem "h2" [] [] [Text "Squared"];
     Elem "a" ["post-ufi-button"] []
       [Elem "span" ["label"] [] [Text (" " +:+ two)]]] in
  exists data,
    extract_post_data (sample_env (fun _ => None)) soup = Ok data /\
    pd_like_count data = two /\
    PyStr.isdigit (pd_like_count data) = true.
Proof.
  intros two soup.
  destruct (extract_post_data (sample_env (fun _ => None)) soup)
    as [data|e] eqn:Hrun; [|vm_compute in Hrun; discriminate].
  exists data. split; [reflexivity|]. split.
  - assert (Hd : Ok data = extract_post_data (sample_env (fun _ => None)) soup)
      by (rewrite Hrun; reflexivity).
    vm_compute in Hd. injection Hd as ->. reflexivity.
  - exact (extract_post_data_like_count_digits _ soup data Hrun).
Defined.

(** X9. A page that has a title but no [div.available-content] is
    extracted without error: the body of its Markdown is the conversion of
    the text [None], under the usual header. *)
Theorem extract_post_data_without_container (env : Env) (soup : Soup) (t : Node) :
  select_one soup sel_title = Some t ->
  select_one soup sel_available_content = None ->
  exists data,
    extract_post_data env soup = Ok data /\
    pd_md_content data =
      combine_metadata_and_content (pd_title data) (pd_subtitle data)
        (pd_date data) (pd_like_count data) (html2text_handle env "None").
Proof.
  intros Ht Hc. unfold extract_post_data. rewrite Ht, Hc. cbn [text_of rbind].
  eexists. split; reflexivity.
Qed.

Lemma extract_post_data_without_container_witness :
  exists data,
    extract_post_data (sample_env (fun _ => None))
      [Elem "h2" [] [] [Text "Video"]] = Ok data /\
    pd_md_content data =
      combine_metadata_and_content "Video" "" "Date not found" "0" "None".
Proof.
  destruct (extract_post_data_without_container (sample_env (fun _ => None))
              [Elem "h2" [] [] [Text "Video"]]
              (Elem "h2" [] [] [Text "Video"]) eq_refl eq_refl)
    as (data & Hrun & Hmd).
  exists data. split; [exact Hrun|]. rewrite Hmd.
  assert (Hd : Ok data = extract_post_data (sample_env (fun _ => None))
                           [Elem "h2" [] [] [Text "Video"]])
    by (symmetry; exact Hrun).
  vm_compute in Hd. injection Hd as ->. reflexivity.
Defined.

Lemma lstrip_head (p : ascii -> bool) (s : string) (c : ascii) :
  head_char (PyStr.lstrip_by p s) = Some c -> p c = false.
Proof.
  induction s as [|a s IH]; cbn; [discriminate|].
  destruct (p a) eqn:Hp; [exact IH|]. cbn. intros [= <-]. exact Hp.
Qed.

Lemma rstrip_last (p : ascii -> bool) (s : string) (c : ascii) :
  last_char (PyStr.rstrip_by p s) = Some c -> p c = false.
Proof.
  induction s as [|a s IH]; cbn [PyStr.rstrip_by]; [discriminate|].
  destruct (PyStr.rstrip_by p s) as [|x r].
  - destruct (p a) eqn:Hp; cbn; [discriminate|]. intros [= <-]. exact Hp.
  - exact IH.
Qed.

Lemma rstrip_head (p : ascii -> bool) (s : string) (c : ascii) :
  head_char (PyStr.rstrip_by p s) = Some c -> head_char s = Some c.
Proof.
  destruct s as [|a s]; cbn [PyStr.rstrip_by]; [discriminate|].
  destruct (PyStr.rstrip_by p s) as [|x r].
  - destruct (p a); cbn; [discriminate | auto].
  - cbn. auto.
Qed.

Lemma strip_trimmed (s : string) : trimmed (PyStr.strip s).
Proof.
  unfold trimmed, PyStr.strip. split; intros c H.
  - apply rstrip_head in H. eapply lstrip_head, H.
  - eapply rstrip_last, H.
Qed.

(** X10. The title, subtitle, date and like count of an extracted post
    carry no white space at either end. *)
Theorem extract_post_data_trimmed (env : Env) (soup : Soup) (data : PostData) :
  extract_post_data env soup = Ok data ->
  trimmed (pd_title data) /\ trimmed (pd_subtitle data) /\
  trimmed (pd_date data) /\ trimmed (pd_like_count data).
Proof.
  unfold extract_post_data.
  destruct (select_one soup sel_title) as [t|]; cbn [text_of rbind];
    [|discriminate].
  intros [= <-]. cbn [pd_title pd_subtitle pd_date pd_like_count].
  split; [apply strip_trimmed|]. split; [|split].
  - destruct (select_one soup sel_subtitle); [apply strip_trimmed|].
    split; intros c H; discriminate.
  - destruct (find_class soup "div" date_class); [apply strip_trimmed|].
    split; intros c [= <-]; reflexivity.
  - destruct (select_one soup sel_like_count) as [e|].
    + destruct (PyStr.isdigit _); [apply strip_trimmed|].
      split; intros c [= <-]; reflexivity.
    + split; intros c [= <-]; reflexivity.
Qed.

Lemma extract_post_data_trimmed_witness :
  trimmed (pd_title (sample_data "Hello")).
Proof.
  apply (extract_post_data_trimmed (sample_env (fun _ => None))
           (sample_post "Hello") (sample_data "Hello")).
  reflexivity.
Defined.

(** ** [save_essays_data_to_json]: repeated and disjoint batches *)

Lemma filter_all_false {A} (p : A -> bool) (l : list A) :
  (forall x, x ∈ l -> p x = false) -> List.filter p l = [].
Proof.
  induction l as [|x l IH]; intros H; [reflexivity|]. cbn.
  rewrite (H x) by constructor. apply IH. intros y Hy. apply H.
  constructor. exact Hy.
Qed.

Lemma filter_all_true {A} (p : A -> bool) (l : list A) :
  (forall x, x ∈ l -> p x = true) -> List.filter p l = l.
Proof.
  induction l as [|x l IH]; intros H; [reflexivity|]. cbn.
  rewrite (H x) by constructor. f_equal. apply IH. intros y Hy. apply H.
  constructor. exact Hy.
Qed.

(** X11. Saving the same batch a second time changes nothing: the index
    after two saves is the index after one, whether or not there was an
    index before. *)
Theorem save_essays_data_twice (essays_data : list PostRecord) (w : World) :
  let w1 := snd (save_essays_data_to_json essays_data w) in
  save_essays_data_to_json essays_data w1 = (Ok tt, w1).
Proof.
  cbv zeta. unfold save_essays_data_to_json, modify. cbn [snd].
  f_equal. unfold set_json_index. cbn. f_equal. f_equal.
  set (merged := merge_essays_data (json_index w) essays_data).
  rewrite <- (app_nil_r merged) at 2. f_equal.
  apply filter_all_false. intros d Hd. apply negb_false_iff, bool_decide_eq_true.
  unfold merged. destruct (json_index w) as [existing|]; cbn; [|exact Hd].
  apply elem_of_app. destruct (decide (d ∈ existing)) as [Hin|Hout];
    [left; exact Hin|].
  right. apply elem_of_filter_bool. split; [exact Hd|].
  apply negb_true_iff, bool_decide_eq_false. exact Hout.
Qed.

(** X12. A batch none of whose records is in the existing index is
    appended as it is, in its order: records repeated inside the batch are
    all kept, so the merge by itself does not make the index free of
    duplicates. *)
Theorem save_essays_data_disjoint (existing essays_data : list PostRecord)
    (w : World) :
  json_index w = Some existing ->
  (forall d, d ∈ essays_data -> d ∉ existing) ->
  json_index (snd (save_essays_data_to_json essays_data w))
  = Some (existing ++ essays_data) /\
  (NoDup (existing ++ essays_data) -> NoDup essays_data).
Proof.
  intros Hj Hdis. split.
  - cbn. rewrite Hj. cbn [merge_essays_data]. do 2 f_equal.
    apply filter_all_true. intros d Hd.
    apply negb_true_iff, bool_decide_eq_false, Hdis, Hd.
  - intros H. apply NoDup_app in H as (_ & _ & H). exact H.
Qed.

Lemma save_essays_data_disjoint_witness :
  let w := set_json_index (Some [sample_record "a"]) empty_world in
  json_index (snd (save_essays_data_to_json
                     [sample_record "b"; sample_record "b"] w))
  = Some [sample_record "a"; sample_record "b"; sample_record "b"].
Proof.
  intros w.
  apply (save_essays_data_disjoint [sample_record "a"]
           [sample_record "b"; sample_record "b"] w eq_refl).
  intros d Hd Hin.
  apply list_elem_of_singleton in Hin. subst d.
  apply elem_of_cons in Hd as [Hd|Hd]; [discriminate|].
  apply elem_of_cons in Hd as [Hd|Hd]; [discriminate|].
  apply elem_of_nil in Hd. exact Hd.
Defined.

(** ** What a turn and a run leave on disk *)

Lemma relpath_html (self : Scraper) (url : string) :
  well_formed self ->
  relpath (html_filepath self url) (base_output_dir self)
  = "html/" +:+ last_segment url +:+ ".html".
Proof.
  intros [_ Hwf]. unfold relpath, html_filepath, path_join. rewrite Hwf.
  replace ((base_output_dir self +:+ "/html") +:+ "/" +:+ last_segment url +:+ ".html")
    with ((base_output_dir self +:+ "/") +:+ "html/" +:+ last_segment url +:+ ".html").
  - rewrite drop_prefix_app. reflexivity.
  - rewrite !str_app_assoc. reflexivity.
Qed.

Section Disk.

Context (env : Env) (g : string -> M (option Soup))
        (site : string -> result (option Soup)) (self : Scraper).
Hypothesis Hg : source_determined g site.

(** The four ways a turn can go, with the disk it leaves. *)
Lemma try_post_cases (url : string) (w : World) :
  exists t w',
    try_post env g self url w = (Ok t, w') /\
    json_index w' = json_index w /\ index_page w' = index_page w /\
    ((is_Some (files w !! md_filepath self url) /\
      t = Done None /\ files w' = files w) \/
     (files w !! md_filepath self url = None /\
      attempt_inert env site self url /\
      (t = Continue \/ t = Done None) /\ files w' = files w) \/
     (files w !! md_filepath self url = None /\
      exists soup data,
        site url = Ok (Some soup) /\ extract_post_data env soup = Ok data /\
        unwritable env (md_filepath self url) = false /\
        ((unwritable env (html_filepath self url) = true /\ t = Done None /\
          files w' = <[md_filepath self url := pd_md_content data]> (files w)) \/
         (unwritable env (html_filepath self url) = false /\
          t = Done (Some (post_record self url data)) /\
          files w' =
            <[html_filepath self url :=
                html_page (md_to_html env (pd_md_content data))]>
              (<[md_filepath self url := pd_md_content data]> (files w)))))).
Proof.
  unfold try_post, try_except. rewrite process_post_unfold.
  destruct (bool_decide (is_Some (files w !! md_filepath self url))) eqn:Hmd.
  { apply bool_decide_eq_true in Hmd. exists (Done None), w.
    split; [reflexivity|]. split; [reflexivity|]. split; [reflexivity|].
    left. repeat split; auto. }
  apply bool_decide_eq_false in Hmd.
  assert (Hnone : files w !! md_filepath self url = None).
  { destruct (files w !! md_filepath self url) eqn:E; [|reflexivity].
    destruct Hmd. eauto. }
  destruct (Hg url w) as (w1 & Hrun & Hf1 & Hj1 & Hi1). rewrite Hrun.
  unfold attempt_inert.
  destruct (site url) as [[soup|]|e] eqn:Hsite.
  - destruct (extract_post_data env soup) as [data|e] eqn:Hex.
    + rewrite save_to_file_run, Hf1.
      rewrite bool_decide_eq_false_2 by exact Hmd.
      destruct (unwritable env (md_filepath self url)) eqn:Hum.
      * exists (Done None), w1. split; [reflexivity|].
        split; [exact Hj1|]. split; [exact Hi1|].
        right. left. repeat split; auto.
      * rewrite save_to_html_file_run. cbn [files set_files].
        destruct (unwritable env (html_filepath self url)) eqn:Huh.
        -- eexists (Done None), _. split; [reflexivity|].
           split; [exact Hj1|]. split; [exact Hi1|].
           right. right. split; [exact Hnone|]. exists soup, data.
           split; [reflexivity|]. split; [exact Hex|]. split; [reflexivity|].
           left. split; [reflexivity|]. split; [reflexivity|].
           cbn. try rewrite Hf1. reflexivity.
        -- eexists (Done (Some (post_record self url data))), _.
           split; [reflexivity|].
           split; [exact Hj1|]. split; [exact Hi1|].
           right. right. split; [exact Hnone|]. exists soup, data.
           split; [reflexivity|]. split; [exact Hex|]. split; [reflexivity|].
           right. split; [reflexivity|]. split; [reflexivity|].
           cbn. try rewrite Hf1. reflexivity.
    + exists (Done None), w1. split; [reflexivity|].
      split; [exact Hj1|]. split; [exact Hi1|].
      right. left. repeat split; auto.
  - exists Continue, w1. split; [reflexivity|].
    split; [exact Hj1|]. split; [exact Hi1|].
    right. left. repeat split; auto.
  - exists (Done None), w1. split; [reflexivity|].
    split; [exact Hj1|]. split; [exact Hi1|].
    right. left. repeat split; auto.
Qed.

(** A turn leaves every file that exists as it is, the HTML file of its
    own post apart. *)
Lemma try_post_preserves (url : string) (w : World) (t : turn) (w' : World)
    (path : string) :
  try_post env g self url w = (Ok t, w') ->
  is_Some (files w !! path) -> path <> html_filepath self url ->
  files w' !! path = files w !! path.
Proof.
  intros Hrun Hin Hne.
  destruct (try_post_cases url w) as (t0 & w0 & Hrun0 & _ & _ & Hcases).
  rewrite Hrun in Hrun0. injection Hrun0 as <- <-.
  assert (Hmd : files w !! md_filepath self url = None ->
                path <> md_filepath self url).
  { intros Hnone ->. rewrite Hnone in Hin. destruct Hin as [? ?]. discriminate. }
  destruct Hcases as [(_ & _ & ->) | [(_ & _ & _ & ->) | (Hnone & soup & data & _ & _ & _ & Hw)]];
    try reflexivity.
  destruct Hw as [(_ & _ & ->) | (_ & _ & ->)].
  - rewrite lookup_insert_ne by (intros E; apply (Hmd Hnone); congruence).
    reflexivity.
  - rewrite lookup_insert_ne by congruence.
    rewrite lookup_insert_ne by (intros E; apply (Hmd Hnone); congruence).
    reflexivity.
Qed.

End Disk.

Section Runs.

Context (env : Env) (g : string -> M (option Soup))
        (site : string -> result (option Soup)) (self : Scraper) (n : Z).
Hypothesis Hg : source_determined g site.

Lemma scrape_loop_preserves (urls : list string) :
  forall essays count w essays' w' path,
    scrape_loop env g self n urls essays count w = (Ok essays', w') ->
    is_Some (files w !! path) ->
    (forall url, url ∈ urls -> path <> html_filepath self url) ->
    files w' !! path = files w !! path.
Proof.
  induction urls as [|url rest IH];
    intros essays count w essays' w' path Hrun Hin Hne.
  - injection Hrun as <- <-. reflexivity.
  - rewrite scrape_loop_cons in Hrun.
    destruct (try_post_total env g self url w) as (t & wa & Ht).
    rewrite Ht in Hrun.
    assert (Ha : files wa !! path = files w !! path).
    { eapply try_post_preserves; eauto. apply Hne. constructor. }
    assert (Hrest : forall e c,
      scrape_loop env g self n rest e c wa = (Ok essays', w') ->
      files w' !! path = files w !! path).
    { intros e c H. rewrite <- Ha. eapply IH; [exact H | rewrite Ha; exact Hin |].
      intros u Hu. apply Hne. constructor. exact Hu. }
    destruct t as [|record]; [eapply Hrest; eassumption|].
    cbv zeta in Hrun.
    destruct (negb (n =? 0) && (count + 1 =? n)); [|eapply Hrest; eassumption].
    injection Hrun as <- <-. exact Ha.
Qed.

Lemma scrape_loop_bound (urls : list string) :
  forall essays count w essays' w',
    scrape_loop env g self n urls essays count w = (Ok essays', w') ->
    (length essays' <= length essays + length urls)%nat /\
    (0 <= count < n ->
     Z.of_nat (length essays') <= Z.of_nat (length essays) + (n - count)).
Proof.
  induction urls as [|url rest IH]; intros essays count w essays' w' Hrun.
  - injection Hrun as <- <-. cbn. split; lia.
  - rewrite scrape_loop_cons in Hrun.
    destruct (try_post_total env g self url w) as (t & wa & Ht).
    rewrite Ht in Hrun.
    destruct t as [|record].
    + destruct (IH _ _ _ _ _ Hrun) as [H1 H2]. cbn [length]. split; [lia|exact H2].
    + cbv zeta in Hrun.
      set (essays1 := match record with
                      | Some data => essays ++ [data]
                      | None => essays
                      end) in *.
      assert (Hl : (length essays1 <= length essays + 1)%nat).
      { unfold essays1. destruct record; [rewrite length_app; cbn|]; lia. }
      destruct (negb (n =? 0) && (count + 1 =? n)) eqn:Hbreak.
      * injection Hrun as <- <-. cbn [length]. split; lia.
      * destruct (IH _ _ _ _ _ Hrun) as [H1 H2]. cbn [length].
        split; [lia|]. intros Hc.
        assert (count + 1 < n).
        { apply andb_false_iff in Hbreak as [H|H].
          - apply negb_false_iff, Z.eqb_eq in H. lia.
          - apply Z.eqb_neq in H. lia. }
        specialize (H2 ltac:(lia)). lia.
Qed.

Lemma scrape_loop_settles (urls : list string) :
  n <= 0 ->
  forall essays count w essays' w',
    0 <= count ->
    scrape_loop env g self n urls essays count w = (Ok essays', w') ->
    forall url, url ∈ urls -> settled env site self url (files w').
Proof.
  intros Hn. induction urls as [|url rest IH];
    intros essays count w essays' w' Hc Hrun u Hu.
  - apply elem_of_nil in Hu. destruct Hu.
  - rewrite scrape_loop_cons in Hrun.
    destruct (try_post_turn env g site self Hg url w)
      as (t & wa & Ht & _ & _ & _ & Hs & _).
    rewrite Ht in Hrun.
    assert (Hrest : forall e c, 0 <= c ->
      scrape_loop env g self n rest e c wa = (Ok essays', w') ->
      settled env site self u (files w')).
    { intros e c Hc' H. apply elem_of_cons in Hu as [->|Hu].
      - eapply settled_kept; [|exact Hs].
        exact (proj1 (scrape_loop_kept env g site self n Hg _ _ _ _ _ _ H)).
      - eapply IH; eauto. }
    destruct t as [|record]; [apply (Hrest _ _ Hc Hrun)|].
    cbv zeta in Hrun.
    replace (negb (n =? 0) && (count + 1 =? n)) with false in Hrun.
    + eapply (Hrest _ (count + 1)); [lia | exact Hrun].
    + symmetry. apply andb_false_iff. right. apply Z.eqb_neq. lia.
Qed.

End Runs.

Lemma scrape_posts_shape (env : Env) (g : string -> M (option Soup))
    (self : Scraper) (n : Z) (w : World) :
  exists essays wl r w',
    scrape_loop env g self n (post_urls self) [] 0 w = (Ok essays, wl) /\
    scrape_posts env g self n w = (r, w') /\
    files w' = files wl /\
    json_index w' = Some (merge_essays_data (json_index wl) essays) /\
    (r = Ok tt ->
     index_page w' =
       Some (writer_name self, merge_essays_data (json_index wl) essays)) /\
    (r <> Ok tt -> index_page w' = index_page wl) /\
    (is_Some (html_template env) -> r = Ok tt).
Proof.
  destruct (scrape_loop_total env g self n (post_urls self) [] 0 w)
    as (essays & wl & Hloop).
  exists essays, wl. rewrite (scrape_posts_run env g self n w essays wl Hloop).
  cbv zeta. destruct (html_template env) as [tpl|].
  - eexists _, _. split; [exact Hloop|]. split; [reflexivity|].
    split; [reflexivity|]. split; [reflexivity|]. split; [reflexivity|].
    split; [intros H; destruct (H eq_refl) | reflexivity].
  - eexists _, _. split; [exact Hloop|]. split; [reflexivity|].
    split; [reflexivity|]. split; [reflexivity|]. split; [discriminate|].
    split; [reflexivity|]. intros [? ?]. discriminate.
Qed.

(** X13. When a turn adds a record, the post's two files are on disk and
    agree: the Markdown file holds the extracted Markdown and the HTML file
    holds the page around the rendering of exactly that Markdown; the
    record links both by their paths relative to the publication
    directory. *)
Theorem scraped_post_on_disk (env : Env) (g : string -> M (option Soup))
    (site : string -> result (option Soup)) (self : Scraper) (url : string)
    (w w' : World) (r : PostRecord) :
  source_determined g site -> well_formed self ->
  try_post env g self url w = (Ok (Done (Some r)), w') ->
  exists soup data,
    site url = Ok (Some soup) /\ extract_post_data env soup = Ok data /\
    r = post_record self url data /\
    files w' !! md_filepath self url = Some (pd_md_content data) /\
    files w' !! html_filepath self url
      = Some (html_page (md_to_html env (pd_md_content data))) /\
    file_link r = "markdown/" +:+ last_segment url +:+ ".md" /\
    html_link r = "html/" +:+ last_segment url +:+ ".html".
Proof.
  intros Hg Hwf Hrun.
  destruct (try_post_cases env g site self Hg url w)
    as (t & w0 & Hrun0 & _ & _ & Hcases).
  rewrite Hrun in Hrun0. injection Hrun0 as <- <-.
  destruct Hcases as [(_ & H & _) | [(_ & _ & [H|H] & _) | (_ & soup & data & Hs & Hx & _ & Hw)]];
    try discriminate.
  destruct Hw as [(_ & H & _) | (_ & [= ->] & ->)]; [discriminate|].
  exists soup, data. split; [exact Hs|]. split; [exact Hx|].
  split; [reflexivity|]. split; [|split; [|split]].
  - rewrite lookup_insert_ne by (apply not_eq_sym, md_html_distinct, Hwf).
    apply lookup_insert_eq.
  - apply lookup_insert_eq.
  - apply relpath_md, Hwf.
  - apply relpath_html, Hwf.
Qed.

Lemma scraped_post_on_disk_witness :
  let env := sample_env three_posts_site in
  let self := sample_self [] in
  let run := try_post env (SubstackScraper_get_url_soup env) self
               "https://x.substack.com/p/one" empty_world in
  files (snd run) !! "substacks/x/html/one.html"
  = Some (html_page (pd_md_content (sample_data "One"))).
Proof.
  intros env self run.
  destruct (scraped_post_on_disk env (SubstackScraper_get_url_soup env)
              (anonymous_site env) self "https://x.substack.com/p/one"
              empty_world (snd run)
              (post_record self "https://x.substack.com/p/one" (sample_data "One"))
              (substack_source_determined env))
    as (soup & data & Hs & Hx & _ & _ & Hhtml & _).
  - split; reflexivity.
  - vm_compute. reflexivity.
  - injection Hs as <-.
    assert (Hd : Ok data = Ok (sample_data "One"))
      by (rewrite <- Hx; vm_compute; reflexivity).
    injection Hd as ->. exact Hhtml.
Defined.

(** X14. A run never rewrites a Markdown file: with the directories laid
    out by the constructor, a Markdown file of the publication that is
    there before a run of [scrape_posts] holds the same content after it,
    whatever the posts of the run and whatever the fetcher gives. *)
Theorem scrape_posts_keeps_existing_files (env : Env)
    (g : string -> M (option Soup)) (site : string -> result (option Soup))
    (self : Scraper) (n : Z) (w : World) (url content : string) :
  source_determined g site -> well_formed self ->
  files w !! md_filepath self url = Some content ->
  files (snd (scrape_posts env g self n w)) !! md_filepath self url
  = Some content.
Proof.
  intros Hg Hwf Hpath.
  destruct (scrape_posts_shape env g self n w)
    as (essays & wl & r & w' & Hloop & Hrun & Hf & _).
  rewrite Hrun. cbn [snd]. rewrite Hf, <- Hpath.
  eapply (scrape_loop_preserves env g site self n Hg); eauto.
  intros u _. apply md_html_distinct, Hwf.
Qed.

Lemma scrape_posts_keeps_existing_files_witness :
  let env := sample_env three_posts_site in
  let self := sample_self ["https://x.substack.com/p/one"] in
  let w := set_files {[ "substacks/x/markdown/one.md" := "kept" ]} empty_world in
  files (snd (scrape_posts env (SubstackScraper_get_url_soup env) self 0 w))
    !! "substacks/x/markdown/one.md" = Some "kept".
Proof.
  intros env self w.
  apply (scrape_posts_keeps_existing_files env
           (SubstackScraper_get_url_soup env) (anonymous_site env) self 0 w
           "https://x.substack.com/p/one" "kept"
           (substack_source_determined env)).
  - split; reflexivity.
  - reflexivity.
Defined.

Lemma merge_essays_data_length (existing : option (list PostRecord))
    (essays : list PostRecord) :
  (length (merge_essays_data existing essays)
   <= length (default [] existing) + length essays)%nat.
Proof.
  destruct existing as [l|]; cbn; [|lia].
  rewrite length_app.
  pose proof (sublist_length _ _ (filter_sublist
    (fun d => negb (bool_decide (d ∈ l))) essays)). lia.
Qed.

(** X15. With a positive limit, a run of [scrape_posts] adds at most that
    many records to the index; in any case it adds at most one per
    discovered URL. *)
Theorem scrape_posts_limit (env : Env) (g : string -> M (option Soup))
    (site : string -> result (option Soup)) (self : Scraper) (n : Z)
    (w : World) :
  source_determined g site ->
  exists index,
    json_index (snd (scrape_posts env g self n w)) = Some index /\
    (length index
     <= length (default [] (json_index w)) + length (post_urls self))%nat /\
    (0 < n ->
     Z.of_nat (length index)
     <= Z.of_nat (length (default [] (json_index w))) + n).
Proof.
  intros Hg.
  destruct (scrape_posts_shape env g self n w)
    as (essays & wl & r & w' & Hloop & Hrun & _ & Hj & _).
  rewrite Hrun. cbn [snd]. eexists. split; [exact Hj|].
  destruct (scrape_loop_kept env g site self n Hg _ _ _ _ _ _ Hloop)
    as (_ & Hjl & _).
  destruct (scrape_loop_bound env g self n _ _ _ _ _ _ Hloop) as [H1 H2].
  pose proof (merge_essays_data_length (json_index wl) essays) as Hm.
  rewrite Hjl in *. cbn [length] in H1, H2. split; [lia|].
  intros Hn. specialize (H2 ltac:(lia)). lia.
Qed.

Lemma scrape_posts_limit_witness :
  let env := sample_env three_posts_site in
  let self := sample_self ["https://x.substack.com/p/one";
                           "https://x.substack.com/p/three"] in
  exists index,
    json_index (snd (scrape_posts env (SubstackScraper_get_url_soup env)
                       self 1 empty_world)) = Some index /\
    Z.of_nat (length index) <= 1.
Proof.
  intros env self.
  destruct (scrape_posts_limit env (SubstackScraper_get_url_soup env)
              (anonymous_site env) self 1 empty_world
              (substack_source_determined env))
    as (index & Hj & _ & Hn).
  exists index. split; [exact Hj|]. apply (Hn ltac:(lia)).
Defined.

(** X16. Without a limit (zero or negative), a run leaves every
    discovered post settled: its Markdown file is on disk, or an attempt at
    it ends before anything is written (the fetch raises or gives the skip
    signal, extraction raises, or the Markdown path cannot be written); in
    particular every post that can be fetched, extracted and written has
    its Markdown file on disk afterwards. *)
Theorem scrape_posts_unlimited_settles (env : Env)
    (g : string -> M (option Soup)) (site : string -> result (option Soup))
    (self : Scraper) (n : Z) (w : World) (url : string) :
  source_determined g site -> n <= 0 -> url ∈ post_urls self ->
  settled env site self url (files (snd (scrape_posts env g self n w))) /\
  (forall soup data,
     site url = Ok (Some soup) -> extract_post_data env soup = Ok data ->
     unwritable env (md_filepath self url) = false ->
     is_Some (files (snd (scrape_posts env g self n w))
              !! md_filepath self url)).
Proof.
  intros Hg Hn Hu.
  destruct (scrape_posts_shape env g self n w)
    as (essays & wl & r & w' & Hloop & Hrun & Hf & _).
  rewrite Hrun. cbn [snd]. rewrite Hf.
  assert (Hs : settled env site self url (files wl)).
  { eapply (scrape_loop_settles env g site self n Hg); eauto. lia. }
  split; [exact Hs|].
  intros soup data Hsite Hex Hum. destruct Hs as [Hs|Hs]; [exact Hs|].
  unfold attempt_inert in Hs. rewrite Hsite, Hex, Hum in Hs. discriminate.
Qed.

Lemma scrape_posts_unlimited_settles_witness :
  let env := sample_env three_posts_site in
  let self := sample_self ["https://x.substack.com/p/one";
                           "https://x.substack.com/p/two";
                           "https://x.substack.com/p/three"] in
  is_Some (files (snd (scrape_posts env (SubstackScraper_get_url_soup env)
                         self 0 empty_world))
           !! md_filepath self "https://x.substack.com/p/three").
Proof.
  intros env self.
  destruct (scrape_posts_unlimited_settles env
              (SubstackScraper_get_url_soup env) (anonymous_site env) self 0
              empty_world "https://x.substack.com/p/three"
              (substack_source_determined env)) as [_ H].
  - lia.
  - unfold self. cbn. set_solver.
  - apply (H (sample_post "Three") (sample_data "Three")); reflexivity.
Defined.

Lemma replace_absent (old new s : string) :
  old <> "" -> PyStr.contains old s = false -> PyStr.replace old new s = s.
Proof.
  intros Hne. destruct old as [|a old]; [destruct (Hne eq_refl)|].
  unfold PyStr.replace.
  induction s as [|c s IH]; [reflexivity|].
  cbn [PyStr.contains]. intros [Hs Hc]%orb_false_iff.
  cbn [PyStr.replace_from]. rewrite Hs, (IH Hc). reflexivity.
Qed.

(** X17. When [scrape_posts] returns normally, the index page is the one
    [generate_html_file] makes from the template, the writer's name and
    the whole index as it now is on disk: the records that were there
    before the run, in place, followed by the new ones.  The records go
    into the page at the empty script element of the template only: when
    the template, with the asset paths and the author marker replaced,
    does not hold that element, the page carries no record. *)
Theorem scrape_posts_index_page (json_dumps : list PostRecord -> string)
    (env : Env) (g : string -> M (option Soup))
    (site : string -> result (option Soup)) (self : Scraper) (n : Z)
    (w w' : World) :
  source_determined g site ->
  scrape_posts env g self n w = (Ok tt, w') ->
  exists tpl index,
    html_template env = Some tpl /\
    json_index w' = Some index /\
    index_page_text json_dumps env w'
    = Some (index_html json_dumps tpl (writer_name self) index) /\
    (forall existing, json_index w = Some existing ->
       exists added, index = existing ++ added) /\
    (PyStr.contains (essays_script "")
       (PyStr.replace "<!-- AUTHOR_NAME -->" (writer_name self)
          (PyStr.replace "../assets/" "assets/" tpl)) = false ->
     index_html json_dumps tpl (writer_name self) index
     = PyStr.replace "author_name" (writer_name self)
         (PyStr.replace "<!-- AUTHOR_NAME -->" (writer_name self)
            (PyStr.replace "../assets/" "assets/" tpl))).
Proof.
  intros Hg Hrun.
  destruct (scrape_posts_shape env g self n w)
    as (essays & wl & r & w0 & Hloop & Hrun0 & _ & Hj & Hp & _).
  rewrite Hrun in Hrun0. injection Hrun0 as <- <-.
  destruct (scrape_loop_kept env g site self n Hg _ _ _ _ _ _ Hloop)
    as (_ & Hjl & _).
  assert (Htpl : exists tpl, html_template env = Some tpl).
  { rewrite (scrape_posts_run env g self n w essays wl Hloop) in Hrun.
    cbv zeta in Hrun. destruct (html_template env) as [tpl|]; [eauto|].
    discriminate Hrun. }
  destruct Htpl as (tpl & Htpl). exists tpl. eexists.
  split; [exact Htpl|]. split; [exact Hj|]. split; [|split].
  - unfold index_page_text. rewrite (Hp eq_refl), Htpl. reflexivity.
  - intros existing Hex. rewrite Hjl, Hex. cbn. eauto.
  - intros Habs. unfold index_html. cbv zeta.
    rewrite (replace_absent (essays_script "")); [reflexivity | | exact Habs].
    intros H. vm_compute in H. discriminate H.
Qed.

Lemma scrape_posts_index_page_witness :
  let env := sample_env three_posts_site in
  let self := sample_self ["https://x.substack.com/p/one"] in
  let w := set_json_index (Some [sample_record "old"]) empty_world in
  let w' := snd (scrape_posts env (SubstackScraper_get_url_soup env) self 0 w) in
  (exists added, json_index w' = Some ([sample_record "old"] ++ added)) /\
  index_page_text (fun _ => "[]") env w' = Some "<html></html>".
Proof.
  intros env self w w'.
  destruct (scrape_posts_index_page (fun _ => "[]") env
              (SubstackScraper_get_url_soup env) (anonymous_site env) self 0 w w'
              (substack_source_determined env))
    as (tpl & index & Htpl & Hj & Htext & Hpre & Habs).
  - vm_compute. reflexivity.
  - injection Htpl as <-. split.
    + destruct (Hpre [sample_record "old"] eq_refl) as (added & ->).
      exists added. exact Hj.
    + rewrite Htext, Habs by reflexivity. reflexivity.
Defined.

(** X18. A run over no posts still writes the index and the index page:
    an existing index is kept as it is, and without one an empty index is
    created; no file is touched. *)
Theorem scrape_posts_no_posts (env : Env) (g : string -> M (option Soup))
    (self : Scraper) (n : Z) (w : World) (tpl : string) :
  post_urls self = [] -> html_template env = Some tpl ->
  exists w',
    scrape_posts env g self n w = (Ok tt, w') /\
    files w' = files w /\
    json_index w' = Some (default [] (json_index w)) /\
    index_page w' = Some (writer_name self, default [] (json_index w)).
Proof.
  intros Hurls Htpl.
  assert (Hloop : scrape_loop env g self n (post_urls self) [] 0 w = (Ok [], w))
    by (rewrite Hurls; reflexivity).
  rewrite (scrape_posts_run env g self n w [] w Hloop), Htpl. cbv zeta.
  assert (Hm : merge_essays_data (json_index w) [] = default [] (json_index w)).
  { destruct (json_index w) as [l|]; cbn; [apply app_nil_r | reflexivity]. }
  rewrite Hm. eexists. split; [reflexivity|]. repeat split.
Qed.

Lemma scrape_posts_no_posts_witness :
  let env := sample_env (fun _ => None) in
  exists w',
    scrape_posts env (SubstackScraper_get_url_soup env) (sample_self []) 0
      empty_world = (Ok tt, w') /\
    json_index w' = Some [].
Proof.
  intros env.
  destruct (scrape_posts_no_posts env (SubstackScraper_get_url_soup env)
              (sample_self []) 0 empty_world "<html></html>" eq_refl eq_refl)
    as (w' & Hrun & _ & Hj & _).
  exists w'. split; [exact Hrun | exact Hj].
Defined.

(** ** The two fetchers *)

(** X19. The anonymous fetch makes one request and looks at nothing but
    the body of the answer: it never hands on a document that contains the
    paywall marker, it gives the skip signal exactly for those, it raises
    only when the request itself fails, and a page served with an error
    status is handed on like any other. *)
Theorem anonymous_fetch_outcomes (env : Env) (url : string) (w : World) :
  exists r,
    SubstackScraper_get_url_soup env url w = (r, log_event (EvRequest url) w) /\
    (forall soup, r = Ok (Some soup) ->
       find_class soup "h2" "paywall-title" = None /\
       exists page, http_get env url = Some page /\ html page = soup) /\
    (r = Ok None ->
       exists page, http_get env url = Some page /\
                    is_Some (find_class (html page) "h2" "paywall-title")) /\
    (forall e, r = Raise e -> e = fetch_error /\ http_get env url = None) /\
    (forall page, http_get env url = Some page -> ok page = false ->
       find_class (html page) "h2" "paywall-title" = None ->
       r = Ok (Some (html page))).
Proof.
  unfold SubstackScraper_get_url_soup, requests_get. run_M.
  destruct (http_get env url) as [page|] eqn:Hget; cbn.
  - destruct (find_class (html page) "h2" "paywall-title") as [m|] eqn:Hf; cbn.
    + eexists. split; [reflexivity|]. split; [intros soup H; discriminate|].
      split; [intros _; exists page; split; [reflexivity | rewrite Hf; eauto]|].
      split; [intros e H; discriminate|].
      intros page' [= <-] _ H. rewrite Hf in H. discriminate.
    + eexists. split; [reflexivity|]. split.
      * intros soup [= <-]. split; [exact Hf|]. exists page. split; reflexivity.
      * split; [intros H; discriminate|]. split; [intros e H; discriminate|].
        intros page' [= <-] _ _. reflexivity.
  - eexists. split; [reflexivity|]. split; [intros soup H; discriminate|].
    split; [intros H; discriminate|]. split.
    + intros e [= <-]. split; reflexivity.
    + intros page H. discriminate.
Qed.

Lemma anonymous_fetch_outcomes_witness :
  let env := sample_env (fun _ => Some {| ok := false; status_code := 404;
                                          xml := None;
                                          html := sample_post "Gone" |}) in
  fst (SubstackScraper_get_url_soup env "https://x.substack.com/p/gone"
         empty_world) = Ok (Some (sample_post "Gone")).
Proof.
  intros env.
  destruct (anonymous_fetch_outcomes env "https://x.substack.com/p/gone"
              empty_world) as (r & Hrun & _ & _ & _ & H404).
  rewrite Hrun. cbn [fst]. apply (H404 _ eq_refl); reflexivity.
Defined.

(** X20. When a readiness marker is already in the page after the
    navigation, the authenticated fetch does not wait: it returns the page
    at once, or after the one second it sleeps when a loading indicator is
    in the page. *)
Theorem premium_fetch_ready_at_once (env : Env) (url : string) (w : World) :
  driver_get_ok env url = true ->
  markers_present (driver_dom env url (clock w)) = true ->
  exists w',
    PremiumSubstackScraper_get_url_soup env url w
    = (Ok (Some (driver_dom env url (clock w'))), w') /\
    clock w' =
      clock w +
      (if nonempty (select (driver_dom env url (clock w)) sel_loading)
       then 1000 else 0) /\
    driver_url w' = url.
Proof.
  intros Hnav Hready.
  unfold PremiumSubstackScraper_get_url_soup, driver_get.
  unfold try_except at 1. unfold bind at 1. unfold bind at 1.
  unfold modify at 1. rewrite Hnav. unfold modify at 1.
  set (w0 := set_driver_url url (log_event (EvNavigate url) w)).
  unfold bind at 1. unfold try_except at 1. unfold bind at 1.
  unfold wait_until. unfold bind at 1. unfold gets at 1.
  change (Z.to_nat (5000 / 500)) with 10%nat.
  cbn [wait_loop]. unfold bind at 1. rewrite content_ready_run.
  change (driver_url w0) with url. change (clock w0) with (clock w).
  rewrite Hready. unfold ret at 1.
  unfold find_elements, page_now. run_M.
  destruct (nonempty (select (driver_dom env url (clock w)) sel_loading)).
  - exists (advance_clock 1000 w0). split; [reflexivity|]. split; reflexivity.
  - exists w0. split; [reflexivity|].
    split; [cbn; lia | reflexivity].
Qed.

Lemma premium_fetch_ready_at_once_witness :
  let env := with_browser (sample_env (fun _ => None))
               (fun _ _ => sample_post "Hello") in
  exists w',
    PremiumSubstackScraper_get_url_soup env "https://x.substack.com/p/hello"
      empty_world = (Ok (Some (sample_post "Hello")), w') /\
    clock w' = 0.
Proof.
  intros env.
  destruct (premium_fetch_ready_at_once env "https://x.substack.com/p/hello"
              empty_world eq_refl eq_refl) as (w' & Hrun & Hc & _).
  exists w'. split; [exact Hrun | exact Hc].
Defined.

(** ** [login]: the short ways out *)

Lemma login_wait_first (env : Env) (i : Z) (rest : list Z) (w : World) :
  let w1 := log_event (EvPoll (clock w + 10000)) (advance_clock 10000 w) in
  let view := sign_in_view env (clock w + 10000) in
  login_wait env (i :: rest) w =
  if negb (on_sign_in (current_url view)) then (Ok true, w1)
  else if keeps_waiting view then login_wait env rest w1
  else (Ok false, w1).
Proof.
  cbv zeta. cbn [login_wait]. unfold view_now, keeps_waiting. run_M.
  destruct (on_sign_in _); cbn [negb]; [|reflexivity].
  destruct (error_container _) as [[[|] error_text]|]; try reflexivity.
  destruct (PyStr.contains "captcha" (PyStr.lower error_text)); reflexivity.
Qed.

Lemma login_after_form (env : Env) (w : World) :
  driver_get_ok env sign_in_url = true -> sign_in_form_ok env = true ->
  let w0 := set_driver_url sign_in_url (log_event (EvNavigate sign_in_url) w) in
  login env w =
  match login_wait env countdown w0 with
  | (Ok true, w1) => (Ok tt, w1)
  | (Ok false, w1) =>
      match is_login_failed env w1 with
      | (Ok true, w2) => (Raise (ValueError login_failed_message), w2)
      | (Ok false, w2) => (Ok tt, w2)
      | (Raise e, w2) => (Raise e, w2)
      end
  | (Raise e, w1) =>
      match is_login_failed env (advance_clock 10000 w1) with
      | (Ok true, w2) => (Raise (ValueError login_failed_message), w2)
      | (Ok false, w2) => (Ok tt, w2)
      | (Raise e, w2) => (Raise e, w2)
      end
  end.
Proof.
  intros Hnav Hform. cbv zeta. unfold login, driver_get.
  unfold bind at 1. unfold bind at 1. unfold modify at 1. rewrite Hnav.
  unfold modify at 1. unfold bind at 1. unfold try_except, submit_credentials.
  rewrite Hform.
  change ((ret tt ;; login_wait env countdown)%M
            (set_driver_url sign_in_url (log_event (EvNavigate sign_in_url) w)))
    with (login_wait env countdown
            (set_driver_url sign_in_url (log_event (EvNavigate sign_in_url) w))).
  destruct (login_wait env countdown _) as [[[|]|e] w1]; try reflexivity.
  - unfold bind. destruct (is_login_failed env w1) as [[[|]|e] w2]; reflexivity.
  - unfold bind at 1. unfold bind at 1. unfold sleep, modify, ret.
    unfold bind. destruct (is_login_failed env _) as [[[|]|e'] w2]; reflexivity.
Qed.

(** X21. When the location has left the sign-in page at the first look,
    ten seconds after the form was submitted, [login] returns at once,
    successfully, after that one look: it waits no further and does not
    run its final check. *)
Theorem login_succeeds_at_first_poll (env : Env) (w : World) :
  driver_get_ok env sign_in_url = true -> sign_in_form_ok env = true ->
  on_sign_in (current_url (sign_in_view env (clock w + 10000))) = false ->
  exists w',
    login env w = (Ok tt, w') /\
    clock w' = clock w + 10000 /\
    poll_times (trace w') = poll_times (trace w) ++ [clock w + 10000].
Proof.
  intros Hnav Hform Hoff. rewrite login_after_form by assumption. cbv zeta.
  rewrite countdown_twelve, login_wait_first. cbv zeta.
  cbn [clock set_driver_url log_event]. rewrite Hoff. cbn [negb].
  eexists. split; [reflexivity|]. split; [reflexivity|].
  cbn. rewrite !poll_times_app. cbn. rewrite !app_nil_r. reflexivity.
Qed.

Lemma login_succeeds_at_first_poll_witness :
  let env :=
    {| http_get := fun _ => None; html2text_handle := fun s => s;
       markdown_markdown := fun s => s; tag_str := text;
       html_template := None; unwritable := fun _ => false;
       driver_get_ok := fun _ => true; driver_dom := fun _ _ => [];
       sign_in_form_ok := true;
       sign_in_view := fun _ =>
         {| current_url := "https://substack.com/home";
            error_container := None; error_messages := [] |} |} in
  exists w', login env empty_world = (Ok tt, w') /\ clock w' = 10000.
Proof.
  intros env.
  destruct (login_succeeds_at_first_poll env empty_world eq_refl eq_refl eq_refl)
    as (w' & Hrun & Hc & _).
  exists w'. split; [exact Hrun | exact Hc].
Defined.

(** X22. When, at the first look, the page is still the sign-in page and
    shows an error that does not mention a captcha, [login] stops waiting
    and raises the login failure then, ten seconds in, not at the end of
    the budget. *)
Theorem login_breaks_on_error (env : Env) (w : World) (error_text : string) :
  driver_get_ok env sign_in_url = true -> sign_in_form_ok env = true ->
  on_sign_in (current_url (sign_in_view env (clock w + 10000))) = true ->
  error_container (sign_in_view env (clock w + 10000)) = Some (true, error_text) ->
  PyStr.contains "captcha" (PyStr.lower error_text) = false ->
  exists w',
    login env w = (Raise (ValueError login_failed_message), w') /\
    clock w' = clock w + 10000 /\
    poll_times (trace w') = poll_times (trace w) ++ [clock w + 10000].
Proof.
  intros Hnav Hform Hon Herr Hcap. rewrite login_after_form by assumption.
  cbv zeta. rewrite countdown_twelve, login_wait_first. cbv zeta.
  cbn [clock set_driver_url log_event]. rewrite Hon. cbn [negb].
  unfold keeps_waiting. rewrite Herr, Hcap.
  unfold is_login_failed, view_now. run_M. rewrite Herr.
  eexists. split; [reflexivity|]. split; [reflexivity|].
  cbn. rewrite !poll_times_app. cbn. rewrite !app_nil_r. reflexivity.
Qed.

Lemma login_breaks_on_error_witness :
  let env :=
    {| http_get := fun _ => None; html2text_handle := fun s => s;
       markdown_markdown := fun s => s; tag_str := text;
       html_template := None; unwritable := fun _ => false;
       driver_get_ok := fun _ => true; driver_dom := fun _ _ => [];
       sign_in_form_ok := true;
       sign_in_view := fun _ =>
         {| current_url := sign_in_url;
            error_container := Some (true, "Wrong password");
            error_messages := [] |} |} in
  exists w',
    login env empty_world = (Raise (ValueError login_failed_message), w') /\
    clock w' = 10000.
Proof.
  intros env.
  destruct (login_breaks_on_error env empty_world "Wrong password"
              eq_refl eq_refl eq_refl eq_refl eq_refl)
    as (w' & Hrun & Hc & _).
  exists w'. split; [exact Hrun | exact Hc].
Defined.

(** X23. When a step of the sign-in form fails, [login] does not look at
    the location in a loop: it sleeps ten seconds once and lets its final
    check decide; still on the sign-in page it raises the login failure,
    and on another page that shows no error it returns normally. *)
Theorem login_when_form_fails (env : Env) (w : World) :
  driver_get_ok env sign_in_url = true -> sign_in_form_ok env = false ->
  exists r w',
    login env w = (r, w') /\
    clock w' = clock w + 10000 /\
    poll_times (trace w') = poll_times (trace w) /\
    (on_sign_in (current_url (sign_in_view env (clock w + 10000))) = true ->
     r = Raise (ValueError login_failed_message)) /\
    (on_sign_in (current_url (sign_in_view env (clock w + 10000))) = false ->
     error_container (sign_in_view env (clock w + 10000)) = None ->
     error_messages (sign_in_view env (clock w + 10000)) = [] ->
     r = Ok tt).
Proof.
  intros Hnav Hform. unfold login, driver_get.
  unfold bind at 1. unfold bind at 1. unfold modify at 1. rewrite Hnav.
  unfold modify at 1. unfold bind at 1. unfold try_except, submit_credentials.
  rewrite Hform.
  set (w0 := set_driver_url sign_in_url (log_event (EvNavigate sign_in_url) w)).
  change ((raise TimeoutException ;; login_wait env countdown)%M w0)
    with (@Raise bool TimeoutException, w0).
  change ((sleep 10000 ;; ret false)%M w0)
    with (Ok false, advance_clock 10000 w0).
  cbv iota beta. unfold is_login_failed, view_now. run_M.
  assert (Hp : poll_times ((trace w ++ [EvNavigate sign_in_url]) ++ [EvSleep 10000])
               = poll_times (trace w)).
  { rewrite !poll_times_app. cbn. rewrite !app_nil_r. reflexivity. }
  destruct (error_container (sign_in_view env (clock w + 10000)))
    as [[[|] error_text]|] eqn:Herr.
  - eexists _, _. split; [reflexivity|]. split; [reflexivity|].
    split; [exact Hp|]. split; [reflexivity|]. intros _ H. discriminate.
  - destruct (on_sign_in _) eqn:Hon.
    + eexists _, _. split; [reflexivity|]. split; [reflexivity|].
      split; [exact Hp|]. split; [reflexivity|]. intros H. discriminate.
    + destruct (existsb _ _);
        (eexists _, _; split; [reflexivity|]; split; [reflexivity|];
         split; [exact Hp|]; split; [discriminate|]; intros _ H; discriminate).
  - destruct (on_sign_in _) eqn:Hon.
    + eexists _, _. split; [reflexivity|]. split; [reflexivity|].
      split; [exact Hp|]. split; [reflexivity|]. intros H. discriminate.
    + destruct (existsb _ _) eqn:He.
      * eexists _, _. split; [reflexivity|]. split; [reflexivity|].
        split; [exact Hp|]. split; [discriminate|].
        intros _ _ Hm. rewrite Hm in He. discriminate.
      * eexists _, _. split; [reflexivity|]. split; [reflexivity|].
        split; [exact Hp|]. split; [discriminate|]. reflexivity.
Qed.

Lemma login_when_form_fails_witness :
  let env :=
    {| http_get := fun _ => None; html2text_handle := fun s => s;
       markdown_markdown := fun s => s; tag_str := text;
       html_template := None; unwritable := fun _ => false;
       driver_get_ok := fun _ => true; driver_dom := fun _ _ => [];
       sign_in_form_ok := false;
       sign_in_view := fun _ =>
         {| current_url := "https://substack.com/home";
            error_container := None; error_messages := [] |} |} in
  exists w', login env empty_world = (Ok tt, w') /\ clock w' = 10000.
Proof.
  intros env.
  destruct (login_when_form_fails env empty_world eq_refl eq_refl)
    as (r & w' & Hrun & Hc & _ & _ & Hok).
  rewrite (Hok eq_refl eq_refl eq_refl) in Hrun.
  exists w'. split; [exact Hrun | exact Hc].
Defined.

(** ** The constructor and discovery *)

Lemma str_endswith_slash (base : string) : str_endswith "/" (base +:+ "/") = true.
Proof.
  induction base as [|c base IH]; [reflexivity|].
  rewrite str_app_cons. cbn [str_endswith]. rewrite IH. apply orb_true_r.
Qed.

(** X24. The constructor does not care whether the base URL is given with
    its final slash: for a base URL that does not end in a slash, the
    scraper built from it is the scraper built from that URL followed by a
    slash. *)
Theorem init_trailing_slash (env : Env) (base : string) (w : World) :
  str_endswith "/" base = false ->
  init env (base +:+ "/") w = init env base w.
Proof.
  intros H. unfold init. rewrite H, str_endswith_slash. reflexivity.
Qed.

Lemma init_trailing_slash_witness :
  init (sample_env sample_site) "https://x.substack.com/" empty_world
  = init (sample_env sample_site) "https://x.substack.com" empty_world.
Proof.
  apply (init_trailing_slash (sample_env sample_site) "https://x.substack.com").
  reflexivity.
Defined.

Lemma filter_discovered_ok (l : list (option string)) (kws urls : list string) :
  filter_discovered l kws = Ok urls ->
  forall u k, u ∈ urls -> k ∈ kws -> ~ occurs_in k u.
Proof.
  unfold filter_discovered. destruct kws as [|k0 kws].
  - intros _ u k _ Hk. apply elem_of_nil in Hk. destruct Hk.
  - destruct (mapM id l) as [strs|]; [|discriminate].
    intros [= <-] u k Hu Hk. apply filter_urls_elem in Hu as [_ Hno].
    apply Hno, Hk.
Qed.

Lemma get_all_post_urls_ok (env : Env) (base : string) (kws : list string)
    (w w' : World) (urls : list string) :
  get_all_post_urls env base kws w = (Ok urls, w') ->
  exists l, filter_discovered l kws = Ok urls.
Proof.
  rewrite get_all_post_urls_run, fetch_urls_from_sitemap_run. cbv zeta.
  assert (Hfeed : forall w1,
    match fetch_urls_from_feed env base w1 with
    | (Ok urls0, w2) => (filter_discovered urls0 kws, w2)
    | (Raise e, w2) => (Raise e, w2)
    end = (Ok urls, w') -> exists l, filter_discovered l kws = Ok urls).
  { intros w1. rewrite fetch_urls_from_feed_run. cbv zeta.
    destruct (http_get env (base +:+ "feed.xml")) as [fresp|]; [|discriminate].
    destruct (ok fresp); [destruct (xml fresp); [|discriminate]|];
      intros [= H _]; eauto. }
  destruct (http_get env (base +:+ "sitemap.xml")) as [resp|]; [|discriminate].
  destruct (ok resp); [|apply Hfeed].
  destruct (xml resp) as [root|]; [|discriminate].
  destruct (sitemap_locs root) as [|u l] eqn:Hl; [apply Hfeed|].
  intros [= H _]. eauto.
Qed.

(** X25. A scraper that the constructor returns has a base URL that ends
    in a slash, a writer name that is the site name of that URL, its
    directories under [substacks/] and the writer name, and post URLs none
    of which contains [about], [archive] or [podcast]. *)
Theorem init_invariants (env : Env) (base : string) (w w' : World)
    (self : Scraper) :
  init env base w = (Ok self, w') ->
  str_endswith "/" (base_substack_url self) = true /\
  extract_main_part (base_substack_url self) = Ok (writer_name self) /\
  base_output_dir self = "substacks/" +:+ writer_name self /\
  well_formed self /\
  keywords self = default_keywords /\
  (forall u k, u ∈ post_urls self -> k ∈ keywords self -> ~ occurs_in k u).
Proof.
  unfold init.
  set (base' := if str_endswith "/" base then base else base +:+ "/").
  assert (Hend : str_endswith "/" base' = true).
  { unfold base'. destruct (str_endswith "/" base) eqn:E;
      [exact E | apply str_endswith_slash]. }
  unfold bind at 1. unfold lift at 1.
  destruct (extract_main_part base') as [name|e] eqn:Hname; [|discriminate].
  unfold bind at 1.
  destruct (get_all_post_urls env base' default_keywords w) as [[urls|e] w1] eqn:Hurls;
    [|discriminate].
  intros [= <- <-]. cbn.
  split; [exact Hend|]. split; [exact Hname|]. split; [reflexivity|].
  split; [split; reflexivity|]. split; [reflexivity|].
  destruct (get_all_post_urls_ok _ _ _ _ _ _ Hurls) as (l & Hl).
  exact (filter_discovered_ok l default_keywords urls Hl).
Qed.

Lemma init_invariants_witness :
  exists self w',
    init (sample_env sample_site) "https://x.substack.com" empty_world
    = (Ok self, w') /\
    writer_name self = "x" /\
    post_urls self = ["https://x.substack.com/p/hello"] /\
    well_formed self.
Proof.
  destruct (init (sample_env sample_site) "https://x.substack.com" empty_world)
    as [[self|e] w'] eqn:Hrun; [|vm_compute in Hrun; discriminate].
  destruct (init_invariants _ _ _ _ _ Hrun) as (_ & _ & _ & Hwf & _).
  exists self, w'. split; [reflexivity|].
  assert (Hs : Ok self = fst (init (sample_env sample_site)
                                "https://x.substack.com" empty_world))
    by (rewrite Hrun; reflexivity).
  vm_compute in Hs. injection Hs as ->.
  split; [reflexivity|]. split; [reflexivity | exact Hwf].
Defined.

(** X26. A sitemap entry without text breaks discovery: when the sitemap
    is served and parsed and one of its [loc] elements is empty, the
    keyword test raises a type error out of discovery, after the one
    request for the sitemap; the feed is not tried. *)
Theorem sitemap_loc_without_text (env : Env) (base : string) (w : World)
    (resp : Response) (root : XmlElem) :
  http_get env (base +:+ "sitemap.xml") = Some resp ->
  ok resp = true -> xml resp = Some root ->
  None ∈ sitemap_locs root ->
  get_all_post_urls env base default_keywords w
  = (Raise TypeError, log_event (EvRequest (base +:+ "sitemap.xml")) w).
Proof.
  intros Hget Hok Hxml Hnone.
  rewrite get_all_post_urls_run, fetch_urls_from_sitemap_run. cbv zeta.
  rewrite Hget, Hok, Hxml.
  destruct (sitemap_locs root) as [|u l] eqn:Hl.
  - apply elem_of_nil in Hnone. destruct Hnone.
  - unfold filter_discovered, default_keywords.
    replace (mapM id (u :: l)) with (@None (list string)); [reflexivity|].
    symmetry. apply mapM_None. apply Exists_exists. exists None.
    split; [exact Hnone | reflexivity].
Qed.

Lemma sitemap_loc_without_text_witness :
  let root := XElem "urlset" None
                [XElem "url" None [XElem sitemap_loc None []]] in
  let env := sample_env (fun _ => Some {| ok := true; status_code := 200;
                                          xml := Some root; html := [] |}) in
  fst (get_all_post_urls env "https://x.substack.com/" default_keywords
         empty_world) = Raise TypeError.
Proof.
  intros root env.
  rewrite (sitemap_loc_without_text env "https://x.substack.com/" empty_world
             _ root eq_refl eq_refl eq_refl); [reflexivity|].
  vm_compute. constructor.
Defined.

(** ** The site name *)











(** ** What uses up the limit *)

Lemma try_post_on_disk (env : Env) (g : string -> M (option Soup))
    (self : Scraper) (url : string) (w : World) :
  is_Some (files w !! md_filepath self url) ->
  try_post env g self url w = (Ok (Done None), w).
Proof.
  intros H. unfold try_post, try_except. rewrite process_post_unfold.
  rewrite bool_decide_eq_true_2 by exact H. reflexivity.
Qed.

Lemma try_post_absent (env : Env) (g : string -> M (option Soup))
    (self : Scraper) (url : string) (w : World) :
  files w !! md_filepath self url = None ->
  try_post env g self url w =
  match g url w with
  | (Ok None, w1) => (Ok Continue, w1)
  | (Raise _, w1) => (Ok (Done None), w1)
  | (Ok (Some soup), w1) =>
      try_except
        (fun w1 =>
           match extract_post_data env soup with
           | Raise e => (Raise e, w1)
           | Ok data =>
               match save_to_file env (md_filepath self url)
                       (pd_md_content data) w1 with
               | (Raise e, w2) => (Raise e, w2)
               | (Ok _, w2) =>
                   match save_to_html_file env (html_filepath self url)
                           (md_to_html env (pd_md_content data)) w2 with
                   | (Raise e, w3) => (Raise e, w3)
                   | (Ok _, w3) =>
                       (Ok (Done (Some (post_record self url data))), w3)
                   end
               end
           end)
        (fun _ => ret (Done None)) w1
  end.
Proof.
  intros H. unfold try_post, try_except. rewrite process_post_unfold.
  rewrite bool_decide_eq_false_2
    by (rewrite H; intros [x Hx]; discriminate Hx).
  destruct (g url w) as [[[soup|]|e] w1]; reflexivity.
Qed.

Lemma scrape_loop_on_disk (env : Env) (g : string -> M (option Soup))
    (self : Scraper) (n : Z) (essays : list PostRecord) (w : World) :
  forall (k : nat) (urls : list string) (count : Z),
  0 <= count -> n = count + Z.of_nat (S k) ->
  (S k <= length urls)%nat ->
  (forall u, u ∈ take (S k) urls -> is_Some (files w !! md_filepath self u)) ->
  scrape_loop env g self n urls essays count w = (Ok essays, w).
Proof.
  induction k as [|k IH]; intros urls count Hc Hn Hlen Hdisk;
    (destruct urls as [|url rest]; [cbn [length] in Hlen; lia|]);
    rewrite scrape_loop_cons,
      (try_post_on_disk env g self url w (Hdisk url ltac:(left)));
    cbv zeta.
  - replace (n =? 0) with false by (symmetry; apply Z.eqb_neq; lia).
    replace (count + 1 =? n) with true by (symmetry; apply Z.eqb_eq; lia).
    reflexivity.
  - replace (count + 1 =? n) with false by (symmetry; apply Z.eqb_neq; lia).
    rewrite andb_false_r. apply IH.
    + lia.
    + lia.
    + cbn [length] in Hlen. lia.
    + intros u Hu. apply Hdisk. right. exact Hu.
Qed.

(** X28. Posts that are already saved use up the limit.  With a limit of
    [n] and the first [n] discovered posts already on disk, a run fetches
    nothing, whatever the fetcher, and writes no post file: the posts
    further down the list are not reached, and the index keeps the records
    it had. *)
Theorem limit_spent_on_saved_posts (env : Env) (g : string -> M (option Soup))
    (self : Scraper) (n : Z) (w : World) :
  0 < n -> (Z.to_nat n <= length (post_urls self))%nat ->
  (forall u, u ∈ take (Z.to_nat n) (post_urls self) ->
     is_Some (files w !! md_filepath self u)) ->
  exists r w',
    scrape_posts env g self n w = (r, w') /\
    files w' = files w /\ trace w' = trace w /\ clock w' = clock w /\
    json_index w' = Some (default [] (json_index w)).
Proof.
  intros Hn Hlen Hdisk.
  destruct (Z.to_nat n) as [|k] eqn:Hk; [lia|].
  assert (Hloop : scrape_loop env g self n (post_urls self) [] 0 w = (Ok [], w)).
  { apply (scrape_loop_on_disk env g self n [] w k); [lia | lia | exact Hlen |].
    exact Hdisk. }
  rewrite (scrape_posts_run env g self n w [] w Hloop). cbv zeta.
  assert (Hm : merge_essays_data (json_index w) [] = default [] (json_index w)).
  { unfold merge_essays_data. destruct (json_index w) as [old|]; [|reflexivity].
    cbn. apply app_nil_r. }
  rewrite Hm.
  destruct (html_template env); eexists _, _; (split; [reflexivity|]);
    repeat split.
Qed.

Lemma limit_spent_on_saved_posts_witness :
  let env := sample_env three_posts_site in
  let self := sample_self ["https://x.substack.com/p/one";
                           "https://x.substack.com/p/three"] in
  let w := {| files := {[ "substacks/x/markdown/one.md" := "kept" ]};
              json_index := None; index_page := None;
              driver_url := ""; clock := 0; trace := [] |} in
  exists r w',
    scrape_posts env (SubstackScraper_get_url_soup env) self 1 w = (r, w') /\
    files w' = files w /\ trace w' = [] /\ json_index w' = Some [].
Proof.
  intros env self w.
  destruct (limit_spent_on_saved_posts env (SubstackScraper_get_url_soup env)
              self 1 w) as (r & w' & Hrun & Hf & Ht & _ & Hj).
  - lia.
  - cbn. lia.
  - intros u Hu. cbn in Hu. apply list_elem_of_singleton in Hu. subst u.
    vm_compute. eauto.
  - exists r, w'. repeat split; assumption.
Defined.

(** X29. The skip signal does not count toward the limit, a failure does.
    For a post that is not on disk yet: when the fetcher answers with the
    skip signal, the loop goes on with the rest of the list and the counter
    as it was; when the fetcher raises, the counter goes up by one, and the
    loop ends there when that reaches the limit. *)
Theorem skip_does_not_count (env : Env) (g : string -> M (option Soup))
    (self : Scraper) (n : Z) (url : string) (rest : list string)
    (essays : list PostRecord) (count : Z) (w w1 : World) :
  files w !! md_filepath self url = None ->
  (g url w = (Ok None, w1) ->
   scrape_loop env g self n (url :: rest) essays count w =
   scrape_loop env g self n rest essays count w1) /\
  (forall e, g url w = (Raise e, w1) ->
   scrape_loop env g self n (url :: rest) essays count w =
   if negb (n =? 0) && (count + 1 =? n) then (Ok essays, w1)
   else scrape_loop env g self n rest essays (count + 1) w1).
Proof.
  intros Hnone. rewrite scrape_loop_cons, (try_post_absent _ _ _ _ _ Hnone).
  split; [intros Hg | intros e Hg]; rewrite Hg; reflexivity.
Qed.

Lemma skip_does_not_count_witness :
  let locked : Soup := [Elem "h2" ["paywall-title"] [] [Text "Subscribers only"]] in
  let env := sample_env (fun url =>
               if str_eqb url "https://x.substack.com/p/locked"
               then Some (page_response locked)
               else three_posts_site url) in
  let g := SubstackScraper_get_url_soup env in
  let self := sample_self [] in
  scrape_loop env g self 1
    ["https://x.substack.com/p/locked"; "https://x.substack.com/p/one"] [] 0
    empty_world
  = scrape_loop env g self 1 ["https://x.substack.com/p/one"] [] 0
      (log_event (EvRequest "https://x.substack.com/p/locked") empty_world).
Proof.
  intros locked env g self.
  apply (skip_does_not_count env g self 1 "https://x.substack.com/p/locked"
           ["https://x.substack.com/p/one"] [] 0 empty_world
           (log_event (EvRequest "https://x.substack.com/p/locked") empty_world)).
  - reflexivity.
  - reflexivity.
Defined.

(** ** The authenticated constructor *)

(** X30. The authenticated constructor discovers the posts first and signs
    in afterwards.  When discovery raises, the sign-in page is never
    opened.  When the sign-in page cannot be opened, the driver's exception
    leaves the constructor as it is, at once, not as the login failure.
    When the location has left the sign-in page at the first look, the
    constructor returns the scraper that discovery built, ten seconds
    after discovery. *)
Theorem premium_init_order (env : Env) (base : string) (w : World) :
  exists r w',
    premium_init env base w = (r, w') /\
    (forall e w1, init env base w = (Raise e, w1) -> r = Raise e /\ w' = w1) /\
    (forall self w1, init env base w = (Ok self, w1) ->
       driver_get_ok env sign_in_url = false ->
       r = Raise WebDriverException /\
       w' = log_event (EvNavigate sign_in_url) w1) /\
    (forall self w1, init env base w = (Ok self, w1) ->
       driver_get_ok env sign_in_url = true -> sign_in_form_ok env = true ->
       on_sign_in (current_url (sign_in_view env (clock w1 + 10000))) = false ->
       r = Ok self /\ clock w' = clock w1 + 10000 /\
       driver_url w' = sign_in_url).
Proof.
  unfold premium_init. unfold bind at 1.
  destruct (init env base w) as [[self|e] w1] eqn:Hinit.
  - unfold bind at 1.
    destruct (login env w1) as [[[]|e] w2] eqn:Hlogin.
    + exists (Ok self), w2. split; [reflexivity|].
      split; [intros e w0 H; discriminate|]. split.
      * intros self' w0 [= <- <-] Hnav. revert Hlogin.
        unfold login, driver_get. run_M. rewrite Hnav. discriminate.
      * intros self' w0 [= <- <-] Hnav Hform Hoff. revert Hlogin.
        rewrite login_after_form by assumption. cbv zeta.
        rewrite countdown_twelve, login_wait_first. cbv zeta.
        cbn [clock set_driver_url log_event]. rewrite Hoff. cbn [negb].
        intros [= <-]. repeat split.
    + exists (Raise e), w2. split; [reflexivity|].
      split; [intros e' w0 H; discriminate|]. split.
      * intros self' w0 [= <- <-] Hnav. revert Hlogin.
        unfold login, driver_get. run_M. rewrite Hnav.
        intros [= <- <-]. split; reflexivity.
      * intros self' w0 [= <- <-] Hnav Hform Hoff. revert Hlogin.
        rewrite login_after_form by assumption. cbv zeta.
        rewrite countdown_twelve, login_wait_first. cbv zeta.
        cbn [clock set_driver_url log_event]. rewrite Hoff. cbn [negb].
        discriminate.
  - exists (Raise e), w1. split; [reflexivity|]. split.
    + intros e' w0 [= <- <-]. split; reflexivity.
    + split; intros self w0 H; discriminate.
Qed.

Lemma premium_init_order_witness :
  let env :=
    {| http_get := sample_site; html2text_handle := fun s => s;
       markdown_markdown := fun s => s; tag_str := text;
       html_template := None; unwritable := fun _ => false;
       driver_get_ok := fun _ => false; driver_dom := fun _ _ => [];
       sign_in_form_ok := true;
       sign_in_view := fun _ =>
         {| current_url := sign_in_url; error_container := None;
            error_messages := [] |} |} in
  fst (premium_init env "https://x.substack.com" empty_world)
  = Raise WebDriverException.
Proof.
  intros env.
  destruct (premium_init_order env "https://x.substack.com" empty_world)
    as (r & w' & Hrun & _ & Hnav & _).
  rewrite Hrun. cbn [fst].
  destruct (init env "https://x.substack.com" empty_world) as [[self|e] w1] eqn:Hinit;
    [|vm_compute in Hinit; discriminate].
  exact (proj1 (Hnav self w1 eq_refl eq_refl)).
Defined.
